(** * GitHub Yearbook: the contribution aggregation and caching pipeline

    A shallow embedding of [backend/app/services/github.py] and of the
    yearbook-stats routes of [backend/app/api/routes.py], with the Python
    library functions they rely on ([datetime], [str], [dict], [sorted]).

    Python integers are [Z]; [str] is [string], compared byte-wise as Python
    compares code points; a [dict] is an association list in insertion
    order; an exception is a value of [exn] carried by [result]. *)

From Stdlib Require Import ZArith List Bool Ascii String Lia QArith.
From Stdlib Require Import Sorting.Sorted Sorting.Permutation.
From Stdlib Require Import DecimalString.
From Stdlib Require DecimalPos.
Import ListNotations.

Open Scope Z_scope.

(** ** Exceptions and the error monad *)

Inductive exn : Type :=
| ValueError (msg : string)
| TypeError (msg : string)
| IndexError (msg : string)
| OverflowError (msg : string)
| MultipleResultsFound
| UpstreamError (msg : string)      (* httpx transport errors, JSON decoding *)
| Exception (msg : string)          (* a plain [raise Exception(msg)] *)
| HTTPException (status_code : Z) (detail : exn).  (* detail = str(e) of the cause *)

Inductive result (A : Type) : Type :=
| Ok (a : A)
| Raise (e : exn).
Arguments Ok {A} a.
Arguments Raise {A} e.

Definition rbind {A B} (r : result A) (k : A -> result B) : result B :=
  match r with
  | Ok a => k a
  | Raise e => Raise e
  end.

Declare Scope result_scope.
Delimit Scope result_scope with result.
Notation "x <- c ;; k" := (rbind c (fun x => k))
  (at level 61, c at next level, right associativity) : result_scope.

(** ** Python strings *)

Module PyStr.

(** [s.replace(c, by)] for a one-character pattern. *)
Fixpoint replace (c : ascii) (by_ : string) (s : string) : string :=
  match s with
  | EmptyString => EmptyString
  | String a s' =>
      if Ascii.eqb a c then (by_ ++ replace c by_ s')%string
      else String a (replace c by_ s')
  end.

(** [s.split(sep)] for a one-character separator. *)
Fixpoint split (sep : ascii) (s : string) : list string :=
  match s with
  | EmptyString => [EmptyString]
  | String a s' =>
      if Ascii.eqb a sep then EmptyString :: split sep s'
      else match split sep s' with
           | h :: t => String a h :: t
           | [] => [String a EmptyString]
           end
  end.

(** [s[:n]]. *)
Definition take (n : nat) (s : string) : string := substring 0 n s.

(** [l[i]] on a list, raising [IndexError] out of range. *)
Definition index {A} (l : list A) (i : nat) : result A :=
  match nth_error l i with
  | Some a => Ok a
  | None => Raise (IndexError "list index out of range")
  end.

(** [str(n)] for an [int]. *)
Definition of_int (n : Z) : string := NilZero.string_of_int (Z.to_int n).

(** [x in s] for a set of strings. *)
Definition mem (x : string) (s : list string) : bool :=
  existsb (String.eqb x) s.

(** Truthiness of [str | None]. *)
Definition truthy (t : option string) : bool :=
  match t with
  | Some s => negb (String.eqb s "")
  | None => false
  end.

End PyStr.

(** ** The proleptic Gregorian calendar of [datetime] *)

Module Calendar.

Definition MAXYEAR : Z := 9999.
Definition MAXORDINAL : Z := 3652059.

Definition is_leap (year : Z) : bool :=
  (year mod 4 =? 0) && (negb (year mod 100 =? 0) || (year mod 400 =? 0)).

Definition days_before_year (year : Z) : Z :=
  let y := year - 1 in y * 365 + y / 4 - y / 100 + y / 400.

Definition DAYS_IN_MONTH (month : Z) : Z :=
  match month with
  | 1 => 31 | 2 => 28 | 3 => 31 | 4 => 30 | 5 => 31 | 6 => 30
  | 7 => 31 | 8 => 31 | 9 => 30 | 10 => 31 | 11 => 30 | 12 => 31
  | _ => 0
  end.

Definition DAYS_BEFORE_MONTH (month : Z) : Z :=
  match month with
  | 1 => 0 | 2 => 31 | 3 => 59 | 4 => 90 | 5 => 120 | 6 => 151
  | 7 => 181 | 8 => 212 | 9 => 243 | 10 => 273 | 11 => 304 | 12 => 334
  | _ => 0
  end.

Definition days_in_month (year month : Z) : Z :=
  if (month =? 2) && is_leap year then 29 else DAYS_IN_MONTH month.

Definition days_before_month (year month : Z) : Z :=
  DAYS_BEFORE_MONTH month + (if (2 <? month) && is_leap year then 1 else 0).

Definition valid_ymd (year month day : Z) : bool :=
  (1 <=? year) && (year <=? MAXYEAR) &&
  (1 <=? month) && (month <=? 12) &&
  (1 <=? day) && (day <=? days_in_month year month).

Definition ymd2ord (year month day : Z) : Z :=
  days_before_year year + days_before_month year month + day.

Definition ord2ymd (n : Z) : Z * Z * Z :=
  let n0 := n - 1 in
  let n400 := n0 / 146097 in
  let r400 := n0 mod 146097 in
  let n100 := r400 / 36524 in
  let r100 := r400 mod 36524 in
  let n4 := r100 / 1461 in
  let r4 := r100 mod 1461 in
  let n1 := r4 / 365 in
  let r := r4 mod 365 in
  let year := n400 * 400 + 1 + n100 * 100 + n4 * 4 + n1 in
  if (n1 =? 4) || (n100 =? 4) then (year - 1, 12, 31)
  else
    let leapyear := (n1 =? 3) && (negb (n4 =? 24) || (n100 =? 3)) in
    let month := Z.shiftr (r + 50) 5 in
    let preceding :=
      DAYS_BEFORE_MONTH month + (if (2 <? month) && leapyear then 1 else 0) in
    if r <? preceding then
      let month' := month - 1 in
      let preceding' :=
        preceding
        - (DAYS_IN_MONTH month' + (if (month' =? 2) && leapyear then 1 else 0)) in
      (year, month', r - preceding' + 1)
    else (year, month, r - preceding + 1).

End Calendar.

(** ** [datetime] values *)

Module Datetime.
Import Calendar.

(** A [datetime]: its proleptic ordinal day, the time of day, and the UTC
    offset in seconds of an aware value ([None] for a naive one). *)
Record datetime : Type := mkDatetime {
  toordinal : Z;
  second_of_day : Z;
  microsecond : Z;
  utcoffset : option Z
}.

Definition US_PER_DAY : Z := 86400 * 1000000.

Definition total_us (d : datetime) : Z :=
  (toordinal d * 86400 + second_of_day d) * 1000000 + microsecond d.

(** [datetime(year, month, day)]. *)
Definition make (year month day : Z) : result datetime :=
  if valid_ymd year month day
  then Ok (mkDatetime (ymd2ord year month day) 0 0 None)
  else Raise (ValueError "date value out of range").

(** [d.replace(tzinfo=None)]. *)
Definition drop_tzinfo (d : datetime) : datetime :=
  mkDatetime (toordinal d) (second_of_day d) (microsecond d) None.

(** [a <= b]; comparing a naive with an aware value raises [TypeError]. *)
Definition le (a b : datetime) : result bool :=
  match utcoffset a, utcoffset b with
  | None, None => Ok (total_us a <=? total_us b)
  | Some oa, Some ob =>
      Ok (total_us a - oa * 1000000 <=? total_us b - ob * 1000000)
  | _, _ => Raise (TypeError "can't compare offset-naive and offset-aware datetimes")
  end.

(** [(a - b).days]; mixing naive and aware values raises [TypeError]. *)
Definition sub_days (a b : datetime) : result Z :=
  match utcoffset a, utcoffset b with
  | None, None => Ok ((total_us a - total_us b) / US_PER_DAY)
  | Some oa, Some ob =>
      Ok (((total_us a - oa * 1000000) - (total_us b - ob * 1000000)) / US_PER_DAY)
  | _, _ => Raise (TypeError "can't subtract offset-naive and offset-aware datetimes")
  end.

(** [d - timedelta(days=i)]. *)
Definition minus_days (d : datetime) (i : Z) : result datetime :=
  let n := toordinal d - i in
  if (1 <=? n) && (n <=? MAXORDINAL)
  then Ok (mkDatetime n (second_of_day d) (microsecond d) (utcoffset d))
  else Raise (OverflowError "date value out of range").

Definition digit_char (n : Z) : ascii := ascii_of_nat (Z.to_nat (48 + n)).

Definition pad2 (n : Z) : string :=
  String (digit_char (n / 10 mod 10)) (String (digit_char (n mod 10)) EmptyString).

Definition pad4 (n : Z) : string := (pad2 (n / 100) ++ pad2 (n mod 100))%string.

Definition format_ymd (year month day : Z) : string :=
  (pad4 year ++ "-" ++ pad2 month ++ "-" ++ pad2 day)%string.

(** [d.strftime("%Y-%m-%d")], years printed on four digits. *)
Definition strftime_ymd (d : datetime) : string :=
  let '(y, m, dd) := ord2ymd (toordinal d) in format_ymd y m dd.

Definition digit_val (c : ascii) : option Z :=
  let n := Z.of_nat (nat_of_ascii c) in
  if (48 <=? n) && (n <=? 57) then Some (n - 48) else None.

Definition two_digits (a b : ascii) : option Z :=
  match digit_val a, digit_val b with
  | Some x, Some y => Some (10 * x + y)
  | _, _ => None
  end.

Definition four_digits (a b c d : ascii) : option Z :=
  match two_digits a b, two_digits c d with
  | Some x, Some y => Some (100 * x + y)
  | _, _ => None
  end.

(** The UTC offset suffix [+HH:MM] or [-HH:MM]; an empty suffix is a naive
    value. The outer [option] is the parse, the inner one the offset. *)
Definition parse_offset (l : list ascii) : option (option Z) :=
  match l with
  | [] => Some None
  | sign :: h1 :: h2 :: ":"%char :: m1 :: m2 :: [] =>
      match two_digits h1 h2, two_digits m1 m2 with
      | Some h, Some m =>
          let off := h * 3600 + m * 60 in
          if off <? 86400 then
            if Ascii.eqb sign "+" then Some (Some off)
            else if Ascii.eqb sign "-" then Some (Some (- off))
            else None
          else None
      | _, _ => None
      end
  | _ => None
  end.

(** The time of day [HH:MM:SS] followed by an optional offset. *)
Definition parse_time (l : list ascii) : option (Z * option Z) :=
  match l with
  | h1 :: h2 :: ":"%char :: m1 :: m2 :: ":"%char :: s1 :: s2 :: tz =>
      match two_digits h1 h2, two_digits m1 m2, two_digits s1 s2, parse_offset tz with
      | Some h, Some m, Some s, Some off =>
          if (h <? 24) && (m <? 60) && (s <? 60)
          then Some (h * 3600 + m * 60 + s, off)
          else None
      | _, _, _, _ => None
      end
  | _ => None
  end.

(** [datetime.fromisoformat(s)] on the two forms the upstream emits:
    [YYYY-MM-DD] and [YYYY-MM-DD?HH:MM:SS] with an optional [+HH:MM] or
    [-HH:MM] offset ([?] is any one separator character). Every other
    string is answered with [ValueError]; Python also reads a few more
    forms (hours only, fractions of a second), which are outside this
    model. *)
Definition fromisoformat (s : string) : result datetime :=
  let bad := Raise (ValueError ("Invalid isoformat string: " ++ s)) in
  match list_ascii_of_string s with
  | y1 :: y2 :: y3 :: y4 :: "-"%char :: m1 :: m2 :: "-"%char :: d1 :: d2 :: rest =>
      match four_digits y1 y2 y3 y4, two_digits m1 m2, two_digits d1 d2 with
      | Some y, Some m, Some d =>
          if valid_ymd y m d then
            match rest with
            | [] => Ok (mkDatetime (ymd2ord y m d) 0 0 None)
            | _sep :: time =>
                match parse_time time with
                | Some (secs, off) => Ok (mkDatetime (ymd2ord y m d) secs 0 off)
                | None => bad
                end
            end
          else bad
      | _, _, _ => bad
      end
  | _ => bad
  end.

End Datetime.

(** ** Python collections *)

Module PyList.

Section Sort.
Context {A : Type}.

(** [after x y]: [x] has to be placed after [y]. *)
Variable after : A -> A -> bool.

Fixpoint insert (x : A) (l : list A) : list A :=
  match l with
  | [] => [x]
  | y :: l' => if after x y then y :: insert x l' else x :: l
  end.

(** A stable sort: elements that need not be exchanged keep their order. *)
Definition sort (l : list A) : list A := fold_right insert [] l.
End Sort.

(** Two neighbours are in order when the first need not go after the second. *)
Definition in_order {A} (after : A -> A -> bool) (a b : A) : Prop := after a b = false.

(** [sorted(l, key=key)], with [lt] the order of the keys. *)
Definition sorted_by {A K} (lt : K -> K -> bool) (key : A -> K) (l : list A) : list A :=
  sort (fun x y => lt (key y) (key x)) l.

(** [sorted(l, key=key, reverse=True)]: descending, ties in their original order. *)
Definition sorted_by_rev {A K} (lt : K -> K -> bool) (key : A -> K) (l : list A) : list A :=
  sort (fun x y => lt (key x) (key y)) l.

(** Tuple comparison [(k1, v1) < (k2, v2)] on [(str, int)] pairs. *)
Definition item_lt (a b : string * Z) : bool :=
  match String.compare (fst a) (fst b) with
  | Lt => true
  | Eq => snd a <? snd b
  | Gt => false
  end.

Definition sum (l : list Z) : Z := fold_left Z.add l 0.

End PyList.

(** A [dict] with string keys, in insertion order. *)
Module PyDict.

Definition dict (V : Type) : Type := list (string * V).

Fixpoint get {V} (k : string) (d : dict V) : option V :=
  match d with
  | [] => None
  | (k', v) :: d' => if String.eqb k k' then Some v else get k d'
  end.

(** [d[k] = v]: an existing key keeps its position, a new one goes last. *)
Fixpoint set {V} (k : string) (v : V) (d : dict V) : dict V :=
  match d with
  | [] => [(k, v)]
  | (k', v') :: d' => if String.eqb k k' then (k', v) :: d' else (k', v') :: set k v d'
  end.

Definition keys {V} (d : dict V) : list string := map fst d.
Definition values {V} (d : dict V) : list V := map snd d.
Definition items {V} (d : dict V) : list (string * V) := d.

End PyDict.

(** ** [models/user.py] and the JSON documents *)

Module Models.
Import Datetime.

(** An entry of [dailyContributions]. *)
Record daily : Type := mkDaily {
  date : string;
  count : Z
}.

(** An entry of [repositoryContributions]; the REST path writes only
    [repo], [count] and [isPrivate]. *)
Record repo_contribution : Type := mkRepoContribution {
  rc_repo : option string;
  rc_fullName : option string;
  rc_count : Z;
  rc_isPrivate : bool;
  rc_stars : option Z;
  rc_forks : option Z;
  rc_language : option string;
  rc_description : option string;
  rc_url : option string
}.

(** An entry of [languageStats]; the float [percentage] is an exact rational. *)
Record language_stat : Type := mkLanguageStat {
  ls_name : string;
  ls_color : string;
  ls_size : Z;
  ls_repoCount : Z;
  ls_percentage : Q
}.

Record organization : Type := mkOrganization {
  org_login : string;
  org_avatarUrl : string
}.

(** A row of [yearbook_stats]. The table has no uniqueness constraint on
    [(username, year)]. *)
Record YearbookStats : Type := mkYearbookStats {
  username : string;
  year : Z;
  avatar_url : option string;
  bio : option string;
  company : option string;
  location : option string;
  followers : Z;
  following : Z;
  total_contributions : Z;
  total_commits : Z;
  pull_requests : Z;
  pull_request_reviews : Z;
  issues : Z;
  longest_streak : Z;
  current_streak : Z;
  active_days : Z;
  repo_count : Z;
  public_repo_count : Z;
  private_repo_count : Z;
  total_repo_count : Z;
  daily_contributions : list daily;
  language_stats : list language_stat;
  top_repos : list repo_contribution;
  organizations : list organization;
  updated_at : datetime
}.

(** A row of [user_tokens]; [username] is declared unique. *)
Record UserToken : Type := mkUserToken {
  ut_username : string;
  github_token : string;
  is_valid : bool
}.

End Models.

(** ** The world: the upstream service, the database and the HTTP trace *)

Module World.
Import Datetime Models.

(** *** Documents returned by the upstream API

    A field of type [option] is [None] when the key is absent from the
    JSON object. *)

Record language_node : Type := mkLanguageNode {
  ln_name : string;
  ln_color : option string
}.

Record language_edge : Type := mkLanguageEdge {
  le_size : Z;
  le_node : language_node
}.

Record repository : Type := mkRepository {
  r_name : option string;
  r_nameWithOwner : option string;
  r_isPrivate : option bool;
  r_stargazerCount : option Z;
  r_forkCount : option Z;
  r_description : option string;
  r_url : option string;
  r_primaryLanguage : option language_node;
  r_languages : option (list language_edge)
}.

Record repositories : Type := mkRepositories {
  rs_totalCount : option Z;
  rs_nodes : option (list repository)
}.

Record contribution_day : Type := mkContributionDay {
  cd_date : string;
  cd_contributionCount : Z
}.

Record week : Type := mkWeek {
  contributionDays : option (list contribution_day)
}.

Record contribution_calendar : Type := mkCalendar {
  cal_totalContributions : option Z;
  cal_weeks : option (list week)
}.

Record commit_contribution : Type := mkCommitContribution {
  cc_repository : option repository;
  cc_totalCount : option Z
}.

Record contributions_collection : Type := mkCollection {
  totalCommitContributions : option Z;
  totalPullRequestContributions : option Z;
  totalPullRequestReviewContributions : option Z;
  totalIssueContributions : option Z;
  contributionCalendar : option contribution_calendar;
  commitContributionsByRepository : option (list commit_contribution)
}.

Record viewer : Type := mkViewer {
  v_login : option string;
  v_avatarUrl : option string;
  v_bio : option string;
  v_company : option string;
  v_location : option string;
  v_followers : option Z;
  v_following : option Z;
  v_repositories : option repositories;
  v_contributionsCollection : option contributions_collection;
  v_organizations : option (list organization)
}.

(** The body of a GraphQL answer: [errors] (the messages) and [data.viewer]. *)
Record graphql_result : Type := mkGraphqlResult {
  gr_errors : option (list string);
  gr_viewer : option viewer
}.

(** A public event of the REST API. *)
Record event : Type := mkEvent {
  ev_type : option string;
  ev_created_at : string;
  ev_repo_name : string;
  ev_payload_size : option Z
}.

(** An HTTP response: the status and what [response.json()] gives. *)
Record response (A : Type) : Type := mkResponse {
  status_code : Z;
  json : result A
}.
Arguments mkResponse {A}.
Arguments status_code {A}.
Arguments json {A}.

(** *** Requests *)

Inductive graphql_query : Type :=
| LatestPushQuery                               (* viewer.repositories(first: 1) *)
| YearbookQuery (from to : datetime).           (* the yearbook query and its variables *)

Inductive http_request : Type :=
| PostGraphql (bearer : string) (q : graphql_query)
| GetPublicEvents (user : string) (per_page : Z).

(** The upstream service at the time of the request. A GraphQL answer is
    determined by the bearer token and the query; an events answer by the
    user name in the URL. A call may raise (transport error, timeout). *)
Record upstream : Type := mkUpstream {
  latest_push_answer : string -> result (response (list (option string)));
  yearbook_answer : string -> datetime -> datetime -> result (response graphql_result);
  events_answer : string -> Z -> result (response (list event))
}.

(** *** State *)

Record world : Type := mkWorld {
  http_log : list http_request;        (* requests sent, oldest first *)
  yearbook_stats : list YearbookStats;
  user_tokens : list UserToken
}.

(** Computations that read and write the world and may raise. *)
Definition M (A : Type) : Type := world -> result A * world.

Definition ret {A} (a : A) : M A := fun w => (Ok a, w).

Definition raise {A} (e : exn) : M A := fun w => (Raise e, w).

Definition bind {A B} (m : M A) (k : A -> M B) : M B :=
  fun w =>
    match m w with
    | (Ok a, w') => k a w'
    | (Raise e, w') => (Raise e, w')
    end.

(** [try: m except Exception as e: h e]. *)
Definition try_except {A} (m : M A) (h : exn -> M A) : M A :=
  fun w =>
    match m w with
    | (Ok a, w') => (Ok a, w')
    | (Raise e, w') => h e w'
    end.

Definition lift {A} (r : result A) : M A := fun w => (r, w).

Definition send (req : http_request) : M unit :=
  fun w => (Ok tt, mkWorld (http_log w ++ [req]) (yearbook_stats w) (user_tokens w)).

End World.

Declare Scope world_scope.
Delimit Scope world_scope with world.
Notation "x <- c ;; k" := (World.bind c (fun x => k))
  (at level 61, c at next level, right associativity) : world_scope.
Notation "c ;; k" := (World.bind c (fun _ => k))
  (at level 61, right associativity) : world_scope.

(** ** [services/github.py] *)

Module Github.
Import Datetime Models World.

Definition default {A} (d : A) (o : option A) : A :=
  match o with Some a => a | None => d end.

(** The dictionary returned by [fetch_user_contributions]. A field is
    [None] when the key is not in the dictionary; a nullable value is an
    inner [option]. *)
Record contributions : Type := mkContributions {
  k_username : option (option string);
  k_avatarUrl : option (option string);
  k_bio : option (option string);
  k_company : option (option string);
  k_location : option (option string);
  k_followers : option Z;
  k_following : option Z;
  k_publicRepos : option Z;
  k_privateRepos : option Z;
  k_totalRepos : option Z;
  k_totalContributions : option Z;
  k_totalCommits : option Z;
  k_pullRequests : option Z;
  k_pullRequestReviews : option Z;
  k_issues : option Z;
  k_dailyContributions : option (list daily);
  k_repositoryContributions : option (list repo_contribution);
  k_languageStats : option (list language_stat);
  k_organizations : option (list organization)
}.

(** [datetime.fromisoformat(s.replace("Z", "+00:00"))]. *)
Definition parse_utc (s : string) : result datetime :=
  fromisoformat (PyStr.replace "Z" "+00:00" s).

(** *** The GraphQL path: the pure part, from the decoded answer *)

(** [daily_contributions]: the days of the calendar, week after week. *)
Definition flatten_calendar (calendar : option contribution_calendar) : list daily :=
  flat_map
    (fun w => map (fun day => mkDaily (cd_date day) (cd_contributionCount day))
                  (default [] (contributionDays w)))
    (default [] (match calendar with Some c => cal_weeks c | None => None end)).

Definition empty_repository : repository :=
  mkRepository None None None None None None None None None.

Definition repo_contribution_of (item : commit_contribution) : repo_contribution :=
  let repo := default empty_repository (cc_repository item) in
  mkRepoContribution
    (r_name repo)
    (r_nameWithOwner repo)
    (default 0 (cc_totalCount item))
    (default false (r_isPrivate repo))
    (Some (default 0 (r_stargazerCount repo)))
    (Some (default 0 (r_forkCount repo)))
    (match r_primaryLanguage repo with Some pl => Some (ln_name pl) | None => None end)
    (r_description repo)
    (r_url repo).

(** An entry of [lang_map]. *)
Record lang_entry : Type := mkLangEntry {
  la_name : string;
  la_color : string;
  la_size : Z;
  la_repoCount : Z
}.

Definition add_edge (lang_map : PyDict.dict lang_entry) (edge : language_edge)
  : PyDict.dict lang_entry :=
  let lang_name := ln_name (le_node edge) in
  let cur :=
    match PyDict.get lang_name lang_map with
    | Some l => l
    | None => mkLangEntry lang_name (default "#8b949e"%string (ln_color (le_node edge))) 0 0
    end in
  PyDict.set lang_name
    (mkLangEntry (la_name cur) (la_color cur) (la_size cur + le_size edge) (la_repoCount cur + 1))
    lang_map.

Definition build_lang_map (all_repos : list repository) : PyDict.dict lang_entry :=
  fold_left
    (fun lang_map repo => fold_left add_edge (default [] (r_languages repo)) lang_map)
    all_repos [].

(** [sum(l["size"] for l in lang_map.values()) or 1]. *)
Definition total_size_of (lang_map : PyDict.dict lang_entry) : Z :=
  let s := PyList.sum (map la_size (PyDict.values lang_map)) in
  if s =? 0 then 1 else s.

Definition percentage_of (size total_size : Z) : Q :=
  (inject_Z size / inject_Z total_size * inject_Z 100)%Q.

Definition language_stats_of (lang_map : PyDict.dict lang_entry) : list language_stat :=
  let total_size := total_size_of lang_map in
  PyList.sorted_by_rev Z.ltb ls_size
    (map (fun l => mkLanguageStat (la_name l) (la_color l) (la_size l) (la_repoCount l)
                     (percentage_of (la_size l) total_size))
         (PyDict.values lang_map)).

Definition truthy_bool (b : option bool) : bool := default false b.

Definition empty_viewer : viewer :=
  mkViewer None None None None None None None None None None.

Definition empty_collection : contributions_collection :=
  mkCollection None None None None None None.

(** The body of [fetch_with_graphql] once [result = response.json()] is known
    (here [answer]). *)
Definition process_graphql (answer : graphql_result) : result contributions :=
  match gr_errors answer with
  | Some errors =>
      (message <- PyStr.index errors 0 ;; Raise (Exception message))%result
  | None =>
      let viewer := default empty_viewer (gr_viewer answer) in
      let collection := default empty_collection (v_contributionsCollection viewer) in
      let calendar := contributionCalendar collection in
      let repos_data := default (mkRepositories None None) (v_repositories viewer) in
      let all_repos := default [] (rs_nodes repos_data) in
      let public_repos := filter (fun r => negb (truthy_bool (r_isPrivate r))) all_repos in
      let private_repos := filter (fun r => truthy_bool (r_isPrivate r)) all_repos in
      let daily_contributions := flatten_calendar calendar in
      let repo_contributions :=
        map repo_contribution_of (default [] (commitContributionsByRepository collection)) in
      let lang_map := build_lang_map all_repos in
      let language_stats := language_stats_of lang_map in
      let organizations :=
        map (fun org => mkOrganization (org_login org) (org_avatarUrl org))
            (default [] (v_organizations viewer)) in
      Ok {|
        k_username := Some (v_login viewer);
        k_avatarUrl := Some (v_avatarUrl viewer);
        k_bio := Some (v_bio viewer);
        k_company := Some (v_company viewer);
        k_location := Some (v_location viewer);
        k_followers := Some (default 0 (v_followers viewer));
        k_following := Some (default 0 (v_following viewer));
        k_publicRepos := Some (Z.of_nat (List.length public_repos));
        k_privateRepos := Some (Z.of_nat (List.length private_repos));
        k_totalRepos := Some (default 0 (rs_totalCount repos_data));
        k_totalContributions :=
          Some (default 0 (match calendar with
                           | Some c => cal_totalContributions c
                           | None => None
                           end));
        k_totalCommits := Some (default 0 (totalCommitContributions collection));
        k_pullRequests := Some (default 0 (totalPullRequestContributions collection));
        k_pullRequestReviews :=
          Some (default 0 (totalPullRequestReviewContributions collection));
        k_issues := Some (default 0 (totalIssueContributions collection));
        k_dailyContributions := Some daily_contributions;
        k_repositoryContributions :=
          Some (PyList.sorted_by_rev Z.ltb rc_count repo_contributions);
        k_languageStats := Some language_stats;
        k_organizations := Some organizations
      |}
  end.

(** *** The REST path: the pure part, from the decoded events *)

Definition is_push_event (e : event) : bool :=
  match ev_type e with
  | Some t => String.eqb t "PushEvent"
  | None => false
  end.

(** [start <= event_date.replace(tzinfo=None) <= end]. *)
Definition in_range (start end_ : datetime) (created_at : string) : result bool :=
  (event_date <- parse_utc created_at ;;
   let naive := drop_tzinfo event_date in
   after_start <- Datetime.le start naive ;;
   if after_start then Datetime.le naive end_ else Ok false)%result.

(** One turn of the loop over [events]. *)
Definition push_step (start end_ : datetime)
    (maps : PyDict.dict Z * PyDict.dict Z) (e : event)
  : result (PyDict.dict Z * PyDict.dict Z) :=
  if negb (is_push_event e) then Ok maps
  else
    (inside <- in_range start end_ (ev_created_at e) ;;
     if negb inside then Ok maps
     else
       let date_str := PyStr.take 10 (ev_created_at e) in
       repo_name <- PyStr.index (PyStr.split "/" (ev_repo_name e)) 1 ;;
       let commit_count := default 0 (ev_payload_size e) in
       let '(daily_map, repo_map) := maps in
       Ok (PyDict.set date_str (default 0 (PyDict.get date_str daily_map) + commit_count)
             daily_map,
           PyDict.set repo_name (default 0 (PyDict.get repo_name repo_map) + commit_count)
             repo_map))%result.

Fixpoint push_loop (start end_ : datetime)
    (maps : PyDict.dict Z * PyDict.dict Z) (events : list event)
  : result (PyDict.dict Z * PyDict.dict Z) :=
  match events with
  | [] => Ok maps
  | e :: events' =>
      (maps' <- push_step start end_ maps e ;; push_loop start end_ maps' events')%result
  end.

(** The body of [fetch_with_rest_api] once [events = events_response.json()]
    is known. *)
Definition process_events (username start_date end_date : string) (events : list event)
  : result contributions :=
  (start <- fromisoformat start_date ;;
   end_ <- fromisoformat (end_date ++ "T23:59:59") ;;
   maps <- push_loop start end_ ([], []) events ;;
   let '(daily_map, repo_map) := maps in
   let daily_contributions :=
     map (fun it => mkDaily (fst it) (snd it))
         (PyList.sort (fun x y => PyList.item_lt y x) (PyDict.items daily_map)) in
   let repo_contributions :=
     map (fun it => mkRepoContribution (Some (fst it)) None (snd it) false
                      None None None None None)
         (PyList.sorted_by_rev Z.ltb snd (PyDict.items repo_map)) in
   let total_commits := PyList.sum (PyDict.values daily_map) in
   Ok {|
     k_username := Some (Some username);
     k_avatarUrl := None;
     k_bio := None;
     k_company := None;
     k_location := None;
     k_followers := None;
     k_following := None;
     k_publicRepos := None;
     k_privateRepos := None;
     k_totalRepos := None;
     k_totalContributions := Some total_commits;
     k_totalCommits := Some total_commits;
     k_pullRequests := Some 0;
     k_pullRequestReviews := Some 0;
     k_issues := Some 0;
     k_dailyContributions := Some daily_contributions;
     k_repositoryContributions := Some repo_contributions;
     k_languageStats := Some [];
     k_organizations := Some []
   |})%result.

(** *** The functions of the module, over the upstream service *)

Section Service.
Variable up : upstream.
Local Open Scope world_scope.

Definition fetch_user_latest_push_time (username : string) (token : option string)
  : M (option datetime) :=
  if PyStr.truthy token then
    let bearer := default ""%string token in
    send (PostGraphql bearer LatestPushQuery) ;;
    response <- lift (latest_push_answer up bearer) ;;
    repos <- lift (json response) ;;
    match repos with
    | Some pushedAt :: _ =>
        if negb (String.eqb pushedAt "") then
          d <- lift (parse_utc pushedAt) ;;
          ret (Some (drop_tzinfo d))
        else ret None
    | _ => ret None
    end
  else
    send (GetPublicEvents username 1) ;;
    response <- lift (events_answer up username 1) ;;
    if status_code response =? 200 then
      events <- lift (json response) ;;
      match events with
      | e :: _ =>
          d <- lift (parse_utc (ev_created_at e)) ;;
          ret (Some (drop_tzinfo d))
      | [] => ret None
      end
    else ret None.

Definition fetch_with_graphql (username start_date end_date token : string)
  : M contributions :=
  start <- lift (fromisoformat start_date) ;;
  end_ <- lift (fromisoformat end_date) ;;
  send (PostGraphql token (YearbookQuery start end_)) ;;
  response <- lift (yearbook_answer up token start end_) ;;
  answer <- lift (json response) ;;
  lift (process_graphql answer).

Definition fetch_with_rest_api (username start_date end_date : string)
  : M contributions :=
  send (GetPublicEvents username 100) ;;
  events_response <- lift (events_answer up username 100) ;;
  if status_code events_response =? 404 then
    raise (Exception ("User '" ++ username ++ "' not found"))
  else
    events <- lift (json events_response) ;;
    lift (process_events username start_date end_date events).

Definition fetch_user_contributions (username start_date end_date : string)
    (token : option string) : M contributions :=
  if negb (PyStr.truthy token) then fetch_with_rest_api username start_date end_date
  else fetch_with_graphql username start_date end_date (default ""%string token).

End Service.

End Github.

(** ** [api/routes.py]: the yearbook-stats routes *)

Module Routes.
Import Datetime Models World Github.

(** *** The database session *)

(** [result.scalar_one_or_none()]. *)
Definition scalar_one_or_none {A} (rows : list A) : result (option A) :=
  match rows with
  | [] => Ok None
  | [r] => Ok (Some r)
  | _ => Raise MultipleResultsFound
  end.

(** [select(UserToken).where(username == _, is_valid == True)]. *)
Definition select_valid_token (name : string) : M (option UserToken) :=
  fun w =>
    (scalar_one_or_none
       (filter (fun t => String.eqb (ut_username t) name && is_valid t) (user_tokens w)),
     w).

Definition same_key (name : string) (y : Z) (r : YearbookStats) : bool :=
  String.eqb (username r) name && (year r =? y).

(** [select(YearbookStats).where(username == _, year == _)]. *)
Definition select_stats (name : string) (y : Z) : M (option YearbookStats) :=
  fun w => (scalar_one_or_none (filter (same_key name y) (yearbook_stats w)), w).

(** [db.delete(cached); db.commit()]: [cached] is the one row of its key,
    as [scalar_one_or_none] returned it. *)
Definition delete_stats (cached : YearbookStats) : M unit :=
  fun w =>
    (Ok tt,
     mkWorld (http_log w)
       (filter (fun r => negb (same_key (username cached) (year cached) r))
               (yearbook_stats w))
       (user_tokens w)).

(** [db.add(stats); db.commit()]. *)
Definition add_stats (stats : YearbookStats) : M unit :=
  fun w => (Ok tt, mkWorld (http_log w) (yearbook_stats w ++ [stats]) (user_tokens w)).

(** *** Streaks *)

Record streak_state : Type := mkStreakState {
  st_longest_streak : Z;
  st_streak : Z;
  st_prev_date : option datetime
}.

(** One turn of the loop over the sorted active days. *)
Definition streak_step (st : streak_state) (d : daily) : result streak_state :=
  (cur_date <- fromisoformat (date d) ;;
   continues <- match st_prev_date st with
                | Some prev_date =>
                    days <- sub_days cur_date prev_date ;; Ok (days =? 1)
                | None => Ok false
                end ;;
   Ok (if continues : bool
       then mkStreakState (st_longest_streak st) (st_streak st + 1) (Some cur_date)
       else mkStreakState (Z.max (st_longest_streak st) (st_streak st)) 1 (Some cur_date))
  )%result.

Fixpoint streak_loop (st : streak_state) (days : list daily) : result streak_state :=
  match days with
  | [] => Ok st
  | d :: days' => (st' <- streak_step st d ;; streak_loop st' days')%result
  end.

Definition compute_longest_streak (active_days : list daily) : result Z :=
  (st <- streak_loop (mkStreakState 0 0 None)
           (PyList.sorted_by String.ltb date active_days) ;;
   Ok (Z.max (st_longest_streak st) (st_streak st)))%result.

(** [for i in range(365)], from turn [i] on, with [steps] turns left. *)
Fixpoint current_loop (active_dates : list string) (end_d : datetime)
    (steps : nat) (i current_streak : Z) : result Z :=
  match steps with
  | O => Ok current_streak
  | S steps' =>
      (d <- minus_days end_d i ;;
       if PyStr.mem (strftime_ymd d) active_dates
       then current_loop active_dates end_d steps' (i + 1) (current_streak + 1)
       else if 0 <? i then Ok current_streak
       else current_loop active_dates end_d steps' (i + 1) current_streak)%result
  end.

(** The current streak counted back from [end_d]; the route calls it with
    [end_d = datetime(year, 12, 31)]. *)
Definition compute_current_streak (active_days : list daily) (end_d : datetime) : result Z :=
  current_loop (map date active_days) end_d 365 0 0.

Definition active_days_of (daily_contributions : list daily) : list daily :=
  filter (fun d => 0 <? count d) daily_contributions.

(** *** The routes *)

(** The JSON answer of the stats routes: the columns of the row, key by
    key, and the [cached] flag. *)
Record stats_response : Type := mkStatsResponse {
  body : YearbookStats;
  cached : bool
}.

Definition flatten {A} (o : option (option A)) : option A :=
  match o with Some v => v | None => None end.

Section Handlers.
Variable up : upstream.
(** [datetime.utcnow()] when the new row is written. *)
Variable utcnow : datetime.
Local Open Scope world_scope.

(** The token the request works with: the caller's, or else the stored
    valid one. *)
Definition resolve_token (name : string) (token : option string) : M (option string) :=
  if negb (PyStr.truthy token) then
    stored_token <- select_valid_token name ;;
    match stored_token with
    | Some st => ret (Some (github_token st))
    | None => ret token
    end
  else ret token.

(** The staleness check of a cached row. *)
Definition check_cache (name : string) (token : option string) (c : YearbookStats)
  : M bool :=
  try_except
    (latest_push <- fetch_user_latest_push_time up name token ;;
     match latest_push with
     | None => ret true
     | Some pushed => lift (Datetime.le pushed (updated_at c))
     end)
    (fun _ => ret true).

(** "Calculate streaks" and the row built from the fetched dictionary. *)
Definition build_stats (name : string) (y : Z) (data : contributions)
  : result YearbookStats :=
  let daily_list := default [] (k_dailyContributions data) in
  let active_days := active_days_of daily_list in
  (longest_streak <- compute_longest_streak active_days ;;
   end_d <- Datetime.make y 12 31 ;;
   current_streak <- compute_current_streak active_days end_d ;;
   let repo_contributions := default [] (k_repositoryContributions data) in
   Ok {| username := name;
         year := y;
         avatar_url := flatten (k_avatarUrl data);
         bio := flatten (k_bio data);
         company := flatten (k_company data);
         location := flatten (k_location data);
         followers := default 0 (k_followers data);
         following := default 0 (k_following data);
         total_contributions := default 0 (k_totalContributions data);
         total_commits := default 0 (k_totalCommits data);
         pull_requests := default 0 (k_pullRequests data);
         pull_request_reviews := default 0 (k_pullRequestReviews data);
         issues := default 0 (k_issues data);
         longest_streak := longest_streak;
         current_streak := current_streak;
         active_days := Z.of_nat (List.length active_days);
         repo_count := Z.of_nat (List.length repo_contributions);
         public_repo_count := default 0 (k_publicRepos data);
         private_repo_count := default 0 (k_privateRepos data);
         total_repo_count := default 0 (k_totalRepos data);
         daily_contributions := daily_list;
         language_stats := default [] (k_languageStats data);
         top_repos := repo_contributions;
         organizations := default [] (k_organizations data);
         updated_at := utcnow |})%result.

(** From "Fetch from GitHub" to the end of [get_yearbook_stats]. *)
Definition fetch_and_store (name : string) (y : Z) (token : option string)
  : M stats_response :=
  let start_date := (PyStr.of_int y ++ "-01-01")%string in
  let end_date := (PyStr.of_int y ++ "-12-31")%string in
  data <- try_except (fetch_user_contributions up name start_date end_date token)
            (fun e => raise (HTTPException 400 e)) ;;
  stats <- lift (build_stats name y data) ;;
  add_stats stats ;;
  ret (mkStatsResponse stats false).

(** [get_yearbook_stats] from "Check cache first" on, with the token the
    request works with. *)
Definition serve_stats (name : string) (y : Z) (token : option string)
  : M stats_response :=
  cached_row <- select_stats name y ;;
  cache_is_valid <- match cached_row with
                    | Some c => check_cache name token c
                    | None => ret false
                    end ;;
  match cached_row with
  | Some c =>
      if cache_is_valid then ret (mkStatsResponse c true)
      else delete_stats c ;; fetch_and_store name y token
  | None => fetch_and_store name y token
  end.

Definition get_yearbook_stats (name : string) (y : Z) (token : option string)
  : M stats_response :=
  token <- resolve_token name token ;;
  serve_stats name y token.

Definition refresh_yearbook_stats (name : string) (y : Z) (token : option string)
  : M stats_response :=
  cached_row <- select_stats name y ;;
  match cached_row with
  | Some c => delete_stats c
  | None => ret tt
  end ;;
  get_yearbook_stats name y token.

End Handlers.

End Routes.

(** ** What the specification says, in its own words *)

Module Spec.
Import Datetime Models World Github Routes.

(** A calendar date in ISO form [YYYY-MM-DD]: it parses, and prints back
    to itself. *)
Definition is_iso_date (s : string) : bool :=
  match fromisoformat s with
  | Ok d => String.eqb (strftime_ymd d) s
  | Raise _ => false
  end.

(** The ordinal day a date string stands for. *)
Definition date_ordinal (s : string) : Z :=
  match fromisoformat s with
  | Ok d => toordinal d
  | Raise _ => 0
  end.

(** The maximal runs of a sequence of days: a gap of exactly one day
    continues the run, any other gap starts a new one. *)
Fixpoint split_runs (days : list Z) : list (list Z) :=
  match days with
  | [] => []
  | x :: days' =>
      match split_runs days' with
      | (y :: run) :: runs =>
          if y - x =? 1 then (x :: y :: run) :: runs else [x] :: (y :: run) :: runs
      | _ => [[x]]
      end
  end.

Definition max_run_length (days : list Z) : Z :=
  fold_right Z.max 0 (map (fun run => Z.of_nat (List.length run)) (split_runs days)).

(** The number of consecutive active days [from], [from + 1], ..., at most [n]. *)
Fixpoint run_length (active : Z -> bool) (from : Z) (n : nat) : Z :=
  match n with
  | O => 0
  | S n' => if active from then 1 + run_length active (from + 1) n' else 0
  end.

(** The backward walk of at most 365 days: day 0 may be missed, any later
    miss ends the count. *)
Definition backward_streak (active : Z -> bool) : Z :=
  if active 0 then run_length active 0 365 else run_length active 1 364.

(** The date string of the day with ordinal [n]. *)
Definition day_string (n : Z) : string := strftime_ymd (mkDatetime n 0 0 None).

(** Whether the day [i] days before [end_d] is among [dates]. *)
Definition active_before (dates : list string) (end_d : datetime) (i : Z) : bool :=
  PyStr.mem (day_string (toordinal end_d - i)) dates.

Fixpoint strictly_increasing (l : list string) : bool :=
  match l with
  | a :: (b :: _) as t => String.ltb a b && strictly_increasing t
  | _ => true
  end.

Fixpoint descending (l : list Z) : bool :=
  match l with
  | a :: (b :: _) as t => (b <=? a) && descending t
  | _ => true
  end.

(** All the language edges of the fetched repositories. *)
Definition all_edges (repos : list repository) : list language_edge :=
  flat_map (fun r => default [] (r_languages r)) repos.

(** The bytes of one language over all the fetched repositories. *)
Definition accumulated_size (name : string) (edges : list language_edge) : Z :=
  fold_right Z.add 0
    (map le_size (filter (fun e => String.eqb (ln_name (le_node e)) name) edges)).

Definition total_bytes (edges : list language_edge) : Z :=
  fold_right Z.add 0 (map le_size edges).

Definition Qsum (l : list Q) : Q := fold_right Qplus (inject_Z 0) l.

(** A request of the full fetch, as opposed to one of the freshness probe. *)
Definition is_full_fetch (r : http_request) : bool :=
  match r with
  | PostGraphql _ (YearbookQuery _ _) => true
  | PostGraphql _ LatestPushQuery => false
  | GetPublicEvents _ per_page => per_page =? 100
  end.



(** The rows of a table under a key. *)
Definition rows_of (name : string) (y : Z) (w : world) : list YearbookStats :=
  filter (same_key name y) (yearbook_stats w).

(** The world with [reqs] sent and the tables as they are. *)
Definition log_append (reqs : list http_request) (w : world) : world :=
  mkWorld (http_log w ++ reqs) (yearbook_stats w) (user_tokens w).

(** [m] is a computation of the service: whatever the world, it gives
    [r], sends [reqs] and leaves the tables alone. *)
Definition runs_as {A} (m : M A) (r : result A) (reqs : list http_request) : Prop :=
  forall w, m w = (r, log_append reqs w).

Definition empty_world : world := mkWorld [] [] [].

(** The outcome and the requests of a computation of the service. *)
Definition outcome {A} (m : M A) : result A := fst (m empty_world).
Definition requests {A} (m : M A) : list http_request := http_log (snd (m empty_world)).

(** The verdict of the staleness check on the answer of the probe: the
    cached row is dropped only when the probe gives a time that is not
    [<=] the row's [updated_at]. *)
Definition served_from_cache (probe : result (option datetime)) (c : YearbookStats) : bool :=
  match probe with
  | Ok (Some pushed) =>
      match Datetime.le pushed (updated_at c) with
      | Ok false => false
      | _ => true
      end
  | _ => true
  end.

(** The table without the rows of a key. *)
Definition without_key (name : string) (y : Z) (rows : list YearbookStats)
  : list YearbookStats :=
  filter (fun r => negb (same_key name y r)) rows.

(** The world once the cached row of a key has been deleted, after the
    requests [reqs] of the probe. *)
Definition invalidated (name : string) (y : Z) (reqs : list http_request) (w : world)
  : world :=
  mkWorld (http_log w ++ reqs) (without_key name y (yearbook_stats w)) (user_tokens w).

(** A naive [datetime] at midnight. *)
Definition midnight (n : Z) : datetime := mkDatetime n 0 0 None.

Definition iso_dates (l : list daily) : Prop :=
  Forall (fun d => is_iso_date (date d) = true) l.

Definition ordinals (l : list daily) : list Z := map date_ordinal (map date l).

Definition run_lengths (runs : list (list Z)) : list Z :=
  map (fun run => Z.of_nat (List.length run)) runs.

(** The longest run when the first one already counts [s] days before it. *)
Definition headed_max (s : Z) (runs : list (list Z)) : Z :=
  match runs with
  | [] => s
  | run :: rest =>
      Z.max (Z.of_nat (List.length run) + s - 1) (fold_right Z.max 0 (run_lengths rest))
  end.

Definition first_run_length (days : list Z) : Z :=
  match split_runs days with
  | run :: _ => Z.of_nat (List.length run)
  | [] => 0
  end.

(** The month and the day of the day [r] (from 0) of a year, as [ord2ymd]
    finds them. *)
Definition month_day (r : Z) (leapyear : bool) : Z * Z :=
  let month := Z.shiftr (r + 50) 5 in
  let preceding :=
    Calendar.DAYS_BEFORE_MONTH month + (if (2 <? month) && leapyear then 1 else 0) in
  if r <? preceding then
    let month' := month - 1 in
    let preceding' :=
      preceding
      - (Calendar.DAYS_IN_MONTH month'
         + (if (month' =? 2) && leapyear then 1 else 0)) in
    (month', r - preceding' + 1)
  else (month, r - preceding + 1).

(** The check of the day [r] of a year. *)
Definition month_day_check (leapyear : bool) (r : Z) : bool :=
  let '(m, d) := month_day r leapyear in
  (1 <=? m) && (m <=? 12) && (1 <=? d) &&
  (d <=? Calendar.DAYS_IN_MONTH m + (if (m =? 2) && leapyear then 1 else 0)) &&
  (Calendar.DAYS_BEFORE_MONTH m + (if (2 <? m) && leapyear then 1 else 0) + d =? r + 1).

Fixpoint all_from (steps : nat) (n : Z) (p : Z -> bool) : bool :=
  match steps with
  | O => true
  | S k => p n && all_from k (n + 1) p
  end.


(** An event that is no push event of the range. *)
Definition no_push_in_range (start end_ : datetime) (ev : event) : Prop :=
  is_push_event ev = false \/ in_range start end_ (ev_created_at ev) = Ok false.

(** The dates of the calendar of an answer, in the order the upstream
    gives them. *)
Definition calendar_dates (answer : graphql_result) : list string :=
  flat_map (fun w => map cd_date (default [] (contributionDays w)))
    (default []
       (match contributionCalendar
                (default empty_collection
                   (v_contributionsCollection (default empty_viewer (gr_viewer answer)))) with
        | Some c => cal_weeks c
        | None => None
        end)).

(** The repositories the answer lists. *)
Definition fetched_repositories (answer : graphql_result) : list repository :=
  default []
    (rs_nodes (default (mkRepositories None None)
                 (v_repositories (default empty_viewer (gr_viewer answer))))).

(** The divisor of the percentages: the total, or 1 when the total is 0. *)
Definition divisor (total : Z) : Z := if total =? 0 then 1 else total.

Definition edge_name (e : language_edge) : string := ln_name (le_node e).

(** What the loop over the edges keeps true of [lang_map], [seen] being
    the edges met so far. *)
Definition lang_inv (seen : list language_edge) (lang_map : PyDict.dict lang_entry) : Prop :=
  NoDup (PyDict.keys lang_map) /\
  (forall k l, PyDict.get k lang_map = Some l ->
               la_name l = k /\ la_size l = accumulated_size k seen) /\
  (forall e, In e seen -> In (edge_name e) (PyDict.keys lang_map)) /\
  fold_right Z.add 0 (map la_size (PyDict.values lang_map)) = total_bytes seen.

(** The scenario of the specification. *)
Definition scenario : list daily :=
  [ mkDaily "2024-01-01" 1; mkDaily "2024-01-02" 1; mkDaily "2024-01-03" 0;
    mkDaily "2024-01-04" 1; mkDaily "2024-01-05" 1; mkDaily "2024-01-06" 1 ].

(** The request of the freshness probe: the latest push of the owner of
    the token, or without a token the last public event of the user. *)
Definition probe_request (name : string) (token : option string) : http_request :=
  if PyStr.truthy token then PostGraphql (default ""%string token) LatestPushQuery
  else GetPublicEvents name 1.

(** The request of the full fetch of a year: the yearbook query from
    January 1 to December 31 under the token, or without a token the
    hundred last public events of the user. *)
Definition fetch_request (name : string) (y : Z) (token : option string) : http_request :=
  if PyStr.truthy token
  then PostGraphql (default ""%string token)
         (YearbookQuery (midnight (Calendar.ymd2ord y 1 1))
                        (midnight (Calendar.ymd2ord y 12 31)))
  else GetPublicEvents name 100.

(** What the upstream answers to [fetch_request], decoded and brought to
    the dictionary of the fetch. *)
Definition fetched_data (up : upstream) (name : string) (y : Z) (token : option string)
  : result contributions :=
  if PyStr.truthy token then
    (resp <- yearbook_answer up (default ""%string token)
               (midnight (Calendar.ymd2ord y 1 1)) (midnight (Calendar.ymd2ord y 12 31)) ;;
     answer <- json resp ;;
     process_graphql answer)%result
  else
    (resp <- events_answer up name 100 ;;
     if status_code resp =? 404
     then Raise (Exception ("User '" ++ name ++ "' not found"))
     else events <- json resp ;;
          process_events name (format_ymd y 1 1) (format_ymd y 12 31) events)%result.

(** The row written for the fetched dictionary [data]: every column is
    the value of its key (a missing key read as null, 0 or empty), the
    streaks are those of the active days of [data], counted back from
    December 31, and [updated_at] is the time of writing. *)
Definition row_of_data (utcnow : datetime) (name : string) (y : Z)
    (data : contributions) (row : YearbookStats) : Prop :=
  let daily_list := default [] (k_dailyContributions data) in
  username row = name /\ year row = y /\
  avatar_url row = flatten (k_avatarUrl data) /\
  bio row = flatten (k_bio data) /\
  company row = flatten (k_company data) /\
  location row = flatten (k_location data) /\
  followers row = default 0 (k_followers data) /\
  following row = default 0 (k_following data) /\
  total_contributions row = default 0 (k_totalContributions data) /\
  total_commits row = default 0 (k_totalCommits data) /\
  pull_requests row = default 0 (k_pullRequests data) /\
  pull_request_reviews row = default 0 (k_pullRequestReviews data) /\
  issues row = default 0 (k_issues data) /\
  compute_longest_streak (active_days_of daily_list) = Ok (longest_streak row) /\
  compute_current_streak (active_days_of daily_list) (midnight (Calendar.ymd2ord y 12 31))
    = Ok (current_streak row) /\
  active_days row = Z.of_nat (List.length (active_days_of daily_list)) /\
  repo_count row = Z.of_nat (List.length (default [] (k_repositoryContributions data))) /\
  public_repo_count row = default 0 (k_publicRepos data) /\
  private_repo_count row = default 0 (k_privateRepos data) /\
  total_repo_count row = default 0 (k_totalRepos data) /\
  daily_contributions row = daily_list /\
  language_stats row = default [] (k_languageStats data) /\
  top_repos row = default [] (k_repositoryContributions data) /\
  organizations row = default [] (k_organizations data) /\
  updated_at row = utcnow.

End Spec.

(** ** Concrete upstreams and worlds *)

Module Examples.
Import Datetime Models World Github Routes Spec.

Definition at_noon (year month day : Z) : datetime :=
  mkDatetime (Calendar.ymd2ord year month day) 43200 0 None.

Definition python_edge (size : Z) : language_edge :=
  mkLanguageEdge size (mkLanguageNode "Python" (Some "#3572A5"%string)).

Definition coq_edge (size : Z) : language_edge :=
  mkLanguageEdge size (mkLanguageNode "Coq" None).

Definition hello_repo : repository :=
  {| r_name := Some "hello"%string;
     r_nameWithOwner := Some "owner/hello"%string;
     r_isPrivate := Some false;
     r_stargazerCount := Some 5;
     r_forkCount := Some 1;
     r_description := None;
     r_url := Some "https://github.com/owner/hello"%string;
     r_primaryLanguage := Some (mkLanguageNode "Python" (Some "#3572A5"%string));
     r_languages := Some [python_edge 300; coq_edge 100] |}.

Definition proofs_repo : repository :=
  {| r_name := Some "proofs"%string;
     r_nameWithOwner := Some "owner/proofs"%string;
     r_isPrivate := Some true;
     r_stargazerCount := None;
     r_forkCount := None;
     r_description := Some "private notes"%string;
     r_url := None;
     r_primaryLanguage := None;
     r_languages := Some [coq_edge 500; python_edge 100] |}.

Definition owner_viewer (days : list contribution_day) : viewer :=
  {| v_login := Some "owner"%string;
     v_avatarUrl := Some "https://avatars.githubusercontent.com/u/1"%string;
     v_bio := None;
     v_company := None;
     v_location := Some "Singapore"%string;
     v_followers := Some 7;
     v_following := Some 3;
     v_repositories := Some (mkRepositories (Some 2) (Some [hello_repo; proofs_repo]));
     v_contributionsCollection :=
       Some {| totalCommitContributions := Some 4;
               totalPullRequestContributions := Some 1;
               totalPullRequestReviewContributions := None;
               totalIssueContributions := Some 2;
               contributionCalendar :=
                 Some (mkCalendar (Some 7) (Some [mkWeek (Some days)]));
               commitContributionsByRepository :=
                 Some [mkCommitContribution (Some hello_repo) (Some 4)] |};
     v_organizations := Some [mkOrganization "verified" "https://example.org/v.png"] |}.

(** The answer about the owner of the token, the calendar in order. *)
Definition owner_answer : graphql_result :=
  mkGraphqlResult None
    (Some (owner_viewer [mkContributionDay "2024-01-01" 3; mkContributionDay "2024-01-02" 4])).

(** The same answer with the two days of the calendar exchanged. *)
Definition unordered_answer : graphql_result :=
  mkGraphqlResult None
    (Some (owner_viewer [mkContributionDay "2024-01-02" 4; mkContributionDay "2024-01-01" 3])).

Definition octocat_events : list event :=
  [ mkEvent (Some "PushEvent"%string) "2024-03-01T10:00:00Z" "octocat/hello" (Some 3);
    mkEvent (Some "WatchEvent"%string) "2024-03-02T10:00:00Z" "octocat/hello" None;
    mkEvent (Some "PushEvent"%string) "2024-02-01T09:30:00Z" "octocat/world" (Some 2) ].

(** Events with no push in 2024. *)
Definition quiet_events : list event :=
  [ mkEvent (Some "WatchEvent"%string) "2024-03-02T10:00:00Z" "octocat/hello" None;
    mkEvent (Some "PushEvent"%string) "2023-12-31T23:59:59Z" "octocat/hello" (Some 3) ].

(** An upstream whose last push is on June 1, 2024 at noon. *)
Definition demo_upstream : upstream :=
  {| latest_push_answer :=
       fun _ => Ok (mkResponse 200 (Ok [Some "2024-06-01T12:00:00Z"%string]));
     yearbook_answer := fun _ _ _ => Ok (mkResponse 200 (Ok owner_answer));
     events_answer := fun _ _ => Ok (mkResponse 200 (Ok octocat_events)) |}.

Definition unordered_upstream : upstream :=
  {| latest_push_answer := fun _ => Ok (mkResponse 200 (Ok []));
     yearbook_answer := fun _ _ _ => Ok (mkResponse 200 (Ok unordered_answer));
     events_answer := fun _ _ => Ok (mkResponse 200 (Ok [])) |}.

Definition quiet_upstream : upstream :=
  {| latest_push_answer := fun _ => Ok (mkResponse 200 (Ok []));
     yearbook_answer := fun _ _ _ => Ok (mkResponse 200 (Ok owner_answer));
     events_answer := fun _ _ => Ok (mkResponse 200 (Ok quiet_events)) |}.

(** An upstream that cannot be reached. *)
Definition failing_upstream : upstream :=
  {| latest_push_answer := fun _ => Raise (UpstreamError "timed out");
     yearbook_answer := fun _ _ _ => Raise (UpstreamError "timed out");
     events_answer := fun _ _ => Raise (UpstreamError "timed out") |}.

(** A cached row of octocat for 2024. *)
Definition cached_row (updated : datetime) : YearbookStats :=
  {| username := "octocat";
     year := 2024;
     avatar_url := None;
     bio := None;
     company := None;
     location := None;
     followers := 0;
     following := 0;
     total_contributions := 5;
     total_commits := 5;
     pull_requests := 0;
     pull_request_reviews := 0;
     issues := 0;
     longest_streak := 1;
     current_streak := 0;
     active_days := 2;
     repo_count := 2;
     public_repo_count := 0;
     private_repo_count := 0;
     total_repo_count := 0;
     daily_contributions := [mkDaily "2024-02-01" 2; mkDaily "2024-03-01" 3];
     language_stats := [];
     top_repos := [];
     organizations := [];
     updated_at := updated |}.

(** The row was written after the last push. *)
Definition fresh_world : world := mkWorld [] [cached_row (at_noon 2024 7 1)] [].

(** The row was written before the last push. *)
Definition stale_world : world := mkWorld [] [cached_row (at_noon 2024 5 1)] [].


Definition december_31_2024 : datetime := midnight (Calendar.ymd2ord 2024 12 31).

(** Two active entries a day and a half apart, the first dated with a
    time of day; December 30 is not among them. *)
Definition day_and_a_half : list daily :=
  [mkDaily "2024-12-29T12:00:00" 1; mkDaily "2024-12-31" 1].

(** Three entries with distinct date strings, two of them on December 30. *)
Definition two_on_december_30 : list daily :=
  [mkDaily "2024-12-30" 1; mkDaily "2024-12-30T12:00:00" 1; mkDaily "2024-12-31" 1].

End Examples.

(** ** [api/routes.py]: the token routes *)

Module Tokens.
Import Datetime Models World Routes.

(** The body of [POST /token]. *)
Record TokenCreate : Type := mkTokenCreate {
  tc_username : string;
  tc_github_token : string;
  tc_token_type : option string;
  tc_scopes : option string
}.

(** A row of [user_tokens] in full: the columns the stats routes read,
    and the ones only the token routes write and read. *)
Record TokenRow : Type := mkTokenRow {
  columns : UserToken;
  token_type : option string;
  scopes : option string;
  token_updated_at : option datetime
}.

(** The table as the stats routes see it. *)
Definition stats_view (table : list TokenRow) : list UserToken := map columns table.

(** [{"status": ..., "message": ...}]. *)
Record status_message : Type := mkStatusMessage {
  status : string;
  message : string
}.

(** The answer of [GET /token/{username}]. *)
Inductive token_info : Type :=
| NoToken                                       (* {"exists": False} *)
| TokenInfo (masked_token : string) (token_type scopes : option string)
            (is_valid : bool) (updated_at : option string).

Definition pad6 (n : Z) : string :=
  let high := n / 10000 in
  let low := n mod 10000 in
  (pad2 high ++ pad4 low)%string.

(** The UTC offset as [isoformat] prints it. *)
Definition format_offset (off : Z) : string :=
  let a := Z.abs off in
  let negative := off <? 0 in
  let hh := a / 3600 in
  let mm := a mod 3600 / 60 in
  let ss := a mod 60 in
  let whole_minutes := ss =? 0 in
  ((if negative then "-" else "+") ++ pad2 hh ++ ":" ++ pad2 mm
   ++ (if whole_minutes then "" else ":" ++ pad2 ss))%string.

(** [d.isoformat()]. *)
Definition isoformat (d : datetime) : string :=
  let s := second_of_day d in
  let hh := s / 3600 in
  let mm := s mod 3600 / 60 in
  let ss := s mod 60 in
  let whole_seconds := microsecond d =? 0 in
  (strftime_ymd d ++ "T" ++ pad2 hh ++ ":" ++ pad2 mm ++ ":" ++ pad2 ss
   ++ (if whole_seconds then "" else "." ++ pad6 (microsecond d))
   ++ match utcoffset d with Some off => format_offset off | None => "" end)%string.

(** [s[-n:]]. *)
Definition last_chars (n : nat) (s : string) : string :=
  substring (String.length s - n) n s.

(** [token[:8] + "..." + token[-4:] if len(token) > 12 else "***"]. *)
Definition mask_token (token : string) : string :=
  if (12 <? String.length token)%nat
  then (PyStr.take 8 token ++ "..." ++ last_chars 4 token)%string
  else "***"%string.

Definition named (name : string) (t : TokenRow) : bool :=
  String.eqb (ut_username (columns t)) name.

(** [select(UserToken).where(UserToken.username == _)] and
    [scalar_one_or_none()]. *)
Definition select_token (name : string) (table : list TokenRow) : result (option TokenRow) :=
  scalar_one_or_none (filter (named name) table).

(** The row of [data] once written at [utcnow]: [is_valid] is true, by
    default on insert and by assignment on update. *)
Definition written (utcnow : datetime) (username : string) (data : TokenCreate) : TokenRow :=
  mkTokenRow (mkUserToken username (tc_github_token data) true)
    (tc_token_type data) (tc_scopes data) (Some utcnow).

(** [save_token]: the answer and the table after the commit. *)
Definition save_token (utcnow : datetime) (data : TokenCreate) (table : list TokenRow)
  : result (status_message * list TokenRow) :=
  (existing <- select_token (tc_username data) table ;;
   Ok (mkStatusMessage "ok" "Token saved",
       match existing with
       | Some _ =>
           map (fun t => if named (tc_username data) t
                         then written utcnow (ut_username (columns t)) data
                         else t) table
       | None => table ++ [written utcnow (tc_username data) data]
       end))%result.

Definition get_token (name : string) (table : list TokenRow) : result token_info :=
  (token <- select_token name table ;;
   Ok match token with
      | None => NoToken
      | Some t =>
          TokenInfo (mask_token (github_token (columns t))) (token_type t) (scopes t)
            (is_valid (columns t)) (option_map isoformat (token_updated_at t))
      end)%result.

Definition delete_token (name : string) (table : list TokenRow)
  : result (status_message * list TokenRow) :=
  (token <- select_token name table ;;
   Ok (mkStatusMessage "ok" "Token deleted",
       match token with
       | Some _ => filter (fun t => negb (named name t)) table
       | None => table
       end))%result.

(** The user names of a table. *)
Definition usernames (table : list TokenRow) : list string :=
  map (fun t => ut_username (columns t)) table.

End Tokens.

(** ** [api/routes.py]: the visit log *)

Module Visits.
Import Calendar Datetime Models World Routes.

(** The body of [POST /visit]; the two floats are exact rationals. *)
Record VisitCreate : Type := mkVisitCreate {
  vc_target_username : string;
  vc_target_year : Z;
  vc_visitor_country : option string;
  vc_visitor_city : option string;
  vc_visitor_lat : option Q;
  vc_visitor_lng : option Q;
  vc_visitor_fingerprint : option string;
  vc_referer : option string
}.

(** What the route reads of the request: three headers, [None] when the
    header is not sent, and [request.client.host], [None] when
    [request.client] is [None]. *)
Record Request : Type := mkRequest {
  x_forwarded_for : option string;
  user_agent : option string;
  referer_header : option string;
  client_host : option string
}.

(** A row of [visit_logs]. *)
Record VisitLog : Type := mkVisitLog {
  vl_id : Z;
  vl_target_username : string;
  vl_target_year : Z;
  vl_visitor_ip : option string;
  vl_visitor_fingerprint : option string;
  vl_visitor_country : option string;
  vl_visitor_city : option string;
  vl_visitor_lat : option Q;
  vl_visitor_lng : option Q;
  vl_visitor_user_agent : option string;
  vl_referer : option string;
  vl_visited_at : datetime
}.

(** [{"status": "ok", "visit_id": ..., "deduplicated": ...}]. *)
Record visit_answer : Type := mkVisitAnswer {
  va_status : string;
  visit_id : Z;
  deduplicated : bool
}.

(** [c.isspace()] for a character of a header value, a byte read as the
    code point of the same number. *)
Definition is_space (c : ascii) : bool :=
  let n := Z.of_nat (nat_of_ascii c) in
  ((9 <=? n) && (n <=? 13)) || ((28 <=? n) && (n <=? 32)) || (n =? 133) || (n =? 160).

Fixpoint lstrip (s : string) : string :=
  match s with
  | EmptyString => EmptyString
  | String c s' => if is_space c then lstrip s' else s
  end.

Definition reverse (s : string) : string :=
  string_of_list_ascii (rev (list_ascii_of_string s)).

(** [s.strip()]. *)
Definition strip (s : string) : string := reverse (lstrip (reverse (lstrip s))).

(** [forwarded.split(",")[0].strip() if forwarded else
    request.client.host if request.client else None]. *)
Definition client_ip (request : Request) : option string :=
  if PyStr.truthy (x_forwarded_for request) then
    Some (strip (hd EmptyString (PyStr.split "," (Github.default EmptyString
                                                    (x_forwarded_for request)))))
  else client_host request.

(** [a or b] on [str | None]. *)
Definition or_else (a b : option string) : option string :=
  if PyStr.truthy a then a else b.

(** A [datetime] from its microseconds since the start of day 0. *)
Definition of_total_us (us : Z) (offset : option Z) : result datetime :=
  let n := us / US_PER_DAY in
  let r := us mod US_PER_DAY in
  if (1 <=? n) && (n <=? MAXORDINAL)
  then Ok (mkDatetime n (r / 1000000) (r mod 1000000) offset)
  else Raise (OverflowError "date value out of range").

(** [d - timedelta(minutes=m)]. *)
Definition minus_minutes (d : datetime) (m : Z) : result datetime :=
  of_total_us (total_us d - m * 60000000) (utcoffset d).

(** The [where] clause of the duplicate check: same target, same year,
    same fingerprint, visited at [since] or later. A row without
    fingerprint matches nothing. *)
Definition same_visit (data : VisitCreate) (since : datetime) (v : VisitLog) : bool :=
  String.eqb (vl_target_username v) (vc_target_username data) &&
  (vl_target_year v =? vc_target_year data) &&
  match vl_visitor_fingerprint v, vc_visitor_fingerprint data with
  | Some f, Some g => String.eqb f g
  | _, _ => false
  end &&
  (total_us since <=? total_us (vl_visited_at v)).

Section Handler.
(** The primary key the database gives to a new row. *)
Variable fresh_id : list VisitLog -> Z.
(** [datetime.utcnow()] in the handler, and when the new row is written. *)
Variable utcnow : datetime.
Variable written_at : datetime.

(** [log_visit]: the answer and the table after the commit. *)
Definition log_visit (data : VisitCreate) (request : Request) (table : list VisitLog)
  : result (visit_answer * list VisitLog) :=
  let ip := client_ip request in
  (existing <-
     (if PyStr.truthy (vc_visitor_fingerprint data) then
        five_minutes_ago <- minus_minutes utcnow 5 ;;
        scalar_one_or_none (filter (same_visit data five_minutes_ago) table)
      else Ok None) ;;
   match existing with
   | Some found => Ok (mkVisitAnswer "ok" (vl_id found) true, table)
   | None =>
       let visit :=
         mkVisitLog (fresh_id table) (vc_target_username data) (vc_target_year data)
           ip (vc_visitor_fingerprint data) (vc_visitor_country data)
           (vc_visitor_city data) (vc_visitor_lat data) (vc_visitor_lng data)
           (user_agent request) (or_else (vc_referer data) (referer_header request))
           written_at in
       Ok (mkVisitAnswer "ok" (vl_id visit) false, table ++ [visit])
   end)%result.

End Handler.





(** The primary key of SQLite: one more than the greatest in the table. *)
Definition rowid (table : list VisitLog) : Z := 1 + fold_right Z.max 0 (map vl_id table).

End Visits.

(** ** [api/routes.py]: what [generate_stats_svg] computes

    The weeks and the opacities of the activity graph; the text of the
    SVG, with its formatted floats and its rendered Markdown, and the bars
    of the languages, which are sums of floats, are not modelled. *)

Module Card.
Import Calendar Datetime Models Github Routes.

(** [week_map], a [dict] with [int] keys, in insertion order. *)
Definition week_dict : Type := list (Z * Z).

Fixpoint week_get (k : Z) (d : week_dict) : option Z :=
  match d with
  | [] => None
  | (k', v) :: d' => if k =? k' then Some v else week_get k d'
  end.

Fixpoint week_set (k v : Z) (d : week_dict) : week_dict :=
  match d with
  | [] => [(k, v)]
  | (k', v') :: d' => if k =? k' then (k', v) :: d' else (k', v') :: week_set k v d'
  end.

(** One turn of the loop over [daily]. *)
Definition week_step (year : Z) (week_map : week_dict) (d : daily) : result week_dict :=
  (date <- fromisoformat (Models.date d) ;;
   january_1 <- Datetime.make year 1 1 ;;
   days <- sub_days date january_1 ;;
   let week_num := days / 7 in
   Ok (week_set week_num (default 0 (week_get week_num week_map) + count d) week_map))%result.

Fixpoint week_loop (year : Z) (week_map : week_dict) (daily_list : list daily)
  : result week_dict :=
  match daily_list with
  | [] => Ok week_map
  | d :: rest =>
      (week_map' <- week_step year week_map d ;; week_loop year week_map' rest)%result
  end.

(** [weeks]: what [week_map] has for each of [range(52)]. *)
Definition weeks (stats : YearbookStats) : result (list Z) :=
  (week_map <- week_loop (year stats) [] (daily_contributions stats) ;;
   Ok (map (fun i => default 0 (week_get (Z.of_nat i) week_map)) (seq 0 52)))%result.

(** [max(weeks) if weeks else 1]. *)
Definition max_w (weeks : list Z) : Z :=
  match weeks with
  | [] => 1
  | w :: rest => fold_left Z.max rest w
  end.

(** [0.15 + (w / max_w) * 0.85 if w > 0 else 0.08], the floats read as
    exact rationals; [None] is the [ZeroDivisionError] of [w / 0]. *)
Definition opacity (w max_w : Z) : option Q :=
  if 0 <? w then
    if max_w =? 0 then None
    else Some ((15 # 100) + (inject_Z w / inject_Z max_w) * (85 # 100))%Q
  else Some (8 # 100)%Q.

(** The opacities of the bars of the activity graph, in the order of
    [weeks]. *)
Definition opacities (weeks : list Z) : list (option Q) :=
  let max_w := max_w weeks in
  map (fun w => opacity w max_w) weeks.

End Card.

(** ** Notions used to state further properties of the code *)

Module Properties.
Import Datetime Models World Github Routes Spec.

(** The world once the rows of a key are gone. *)
Definition forgotten (name : string) (y : Z) (w : world) : world :=
  mkWorld (http_log w) (without_key name y (yearbook_stats w)) (user_tokens w).

(** The three things a stats request can do to the table: nothing, drop
    the rows of its key, or replace them by one new row of the key. *)
Definition table_step (name : string) (y : Z) (before after : list YearbookStats) : Prop :=
  after = before \/
  after = without_key name y before \/
  exists stats,
    username stats = name /\ year stats = y /\
    after = without_key name y before ++ [stats].

(** Whether the REST path counts an event: a push event of the range. *)
Definition counted (start end_ : datetime) (e : event) : bool :=
  is_push_event e &&
  match in_range start end_ (ev_created_at e) with
  | Ok inside => inside
  | Raise _ => false
  end.

Definition sum_of (l : list Z) : Z := fold_right Z.add 0 l.

(** The commits the counted events announce. *)
Definition pushed_commits (start end_ : datetime) (events : list event) : Z :=
  sum_of (map (fun e => default 0 (ev_payload_size e)) (filter (counted start end_) events)).

(** The entries of a ranking that count [c], in the order of the ranking. *)
Definition with_count (c : Z) (l : list repo_contribution) : list repo_contribution :=
  filter (fun r => rc_count r =? c) l.

(** The repositories of [commitContributionsByRepository], as the answer
    lists them. *)
Definition contributed_repositories (answer : graphql_result) : list commit_contribution :=
  default []
    (commitContributionsByRepository
       (default empty_collection
          (v_contributionsCollection (default empty_viewer (gr_viewer answer))))).

(** A repository counts as private when [isPrivate] is there and true. *)
Definition is_private (r : repository) : bool := truthy_bool (r_isPrivate r).

(** A year that [str] prints on four digits. *)
Definition four_digit_year (y : Z) : bool := String.eqb (PyStr.of_int y) (pad4 y).

(** Whether the start date the stats route builds for a year is read by
    [fromisoformat]. *)
Definition start_date_parses (y : Z) : bool :=
  match fromisoformat (PyStr.of_int y ++ "-01-01") with
  | Ok _ => true
  | Raise _ => false
  end.

(** The days from January 1 of [year] to the date of an entry. *)
Definition day_index (year : Z) (d : daily) : Z :=
  date_ordinal (date d) - Calendar.ymd2ord year 1 1.

(** The contributions of the entries of week [i], the weeks counted in
    sevens from January 1. *)
Definition in_week (year i : Z) (daily_list : list daily) : Z :=
  sum_of (map count (filter (fun d => day_index year d / 7 =? i) daily_list)).

(** The contributions of the entries of the first 364 days of [year]. *)
Definition in_first_364_days (year : Z) (daily_list : list daily) : Z :=
  sum_of
    (map count
       (filter (fun d => (0 <=? day_index year d) && (day_index year d <? 364)) daily_list)).

(** What an opacity of the activity graph is checked for. *)
Definition shaded (w : Z) (o : option Q) : Prop :=
  exists q, o = Some q /\ (8 # 100 <= q <= 1)%Q /\ (w <= 0 -> q = (8 # 100)%Q).

(** Whether a string starts with a white space. *)
Definition starts_with_space (s : string) : bool :=
  match s with
  | String c _ => Visits.is_space c
  | EmptyString => false
  end.

(** Whether a string is white space only. *)
Definition all_space (s : string) : bool := forallb Visits.is_space (list_ascii_of_string s).

(** The name a push is counted under: what stands after the first slash
    of [owner/name], the owner being dropped. *)
Definition short_name (e : event) : result string :=
  PyStr.index (PyStr.split "/" (ev_repo_name e)) 1.

(** A counted push to a repository named [short], whoever owns it. *)
Definition pushes_to (start end_ : datetime) (short : string) (e : event) : bool :=
  counted start end_ e &&
  match short_name e with
  | Ok s => String.eqb s short
  | Raise _ => false
  end.

(** The commits of the counted pushes to the repositories named [short]. *)
Definition commits_to (start end_ : datetime) (short : string) (events : list event) : Z :=
  sum_of (map (fun e => default 0 (ev_payload_size e))
              (filter (pushes_to start end_ short) events)).

(** The years an [INTEGER] column of SQLite can be compared with: beyond
    64 bits the select of the route raises [OverflowError] before anything
    else happens. *)
Definition fits_integer_column (y : Z) : Prop := - 2 ^ 63 <= y < 2 ^ 63.

End Properties.

(** ** More concrete worlds and answers *)

Module Scenarios.
Import Datetime Models World Github Routes Spec Examples Tokens Visits.

(** Two rows of octocat for 2024, as two concurrent misses leave them. *)
Definition duplicated_world : world :=
  mkWorld [] [cached_row (at_noon 2024 5 1); cached_row (at_noon 2024 7 1)] [].

(** A fetched dictionary whose daily contributions are the scenario of
    the specification. *)
Definition scenario_data : contributions :=
  {| k_username := Some (Some "octocat"%string);
     k_avatarUrl := None;
     k_bio := None;
     k_company := None;
     k_location := None;
     k_followers := None;
     k_following := None;
     k_publicRepos := None;
     k_privateRepos := None;
     k_totalRepos := None;
     k_totalContributions := Some 5;
     k_totalCommits := Some 5;
     k_pullRequests := Some 0;
     k_pullRequestReviews := Some 0;
     k_issues := Some 0;
     k_dailyContributions := Some scenario;
     k_repositoryContributions := Some [];
     k_languageStats := Some [];
     k_organizations := Some [] |}.

(** An answer that lists three repositories with commits, two of them
    with the same count. *)
Definition busy_answer : graphql_result :=
  mkGraphqlResult None
    (Some {| v_login := Some "owner"%string;
             v_avatarUrl := None;
             v_bio := None;
             v_company := None;
             v_location := None;
             v_followers := None;
             v_following := None;
             v_repositories := Some (mkRepositories (Some 2) (Some [hello_repo; proofs_repo]));
             v_contributionsCollection :=
               Some {| totalCommitContributions := Some 9;
                       totalPullRequestContributions := None;
                       totalPullRequestReviewContributions := None;
                       totalIssueContributions := None;
                       contributionCalendar := None;
                       commitContributionsByRepository :=
                         Some [ mkCommitContribution (Some hello_repo) (Some 2);
                                mkCommitContribution (Some proofs_repo) (Some 5);
                                mkCommitContribution None (Some 2) ] |};
             v_organizations := None |}).

(** A token table with one row, marked invalid. *)
Definition stored_tokens : list TokenRow :=
  [mkTokenRow (mkUserToken "octocat" "ghp_old_old_old_old" false)
     (Some "classic"%string) None None].

Definition new_token : TokenCreate :=
  mkTokenCreate "octocat" "ghp_0123456789abcdefXYZW" (Some "classic"%string)
    (Some "repo"%string).

(** A visit to the page of octocat for 2024, with a fingerprint. *)
Definition a_visit : VisitCreate :=
  mkVisitCreate "octocat" 2024 (Some "Singapore"%string) None None None
    (Some "4f2a"%string) None.

(** A request that came through a proxy. *)
Definition proxied_request : Request :=
  mkRequest (Some "203.0.113.7, 10.0.0.1"%string) (Some "curl/8.0"%string) None
    (Some "10.0.0.9"%string).

(** August 1, 2024 at [second] seconds after midnight. *)
Definition august_1 (second : Z) : datetime :=
  mkDatetime (Calendar.ymd2ord 2024 8 1) second 0 None.


(** An upstream that knows no user: every events request is a 404 whose
    body is no JSON. *)
Definition missing_upstream : upstream :=
  {| latest_push_answer := fun _ => Ok (mkResponse 401 (Ok []));
     yearbook_answer := fun _ _ _ => Raise (UpstreamError "timed out"%string);
     events_answer :=
       fun _ _ => Ok (mkResponse 404 (Raise (UpstreamError "not json"%string))) |}.

(** A row of 2023 with an entry on December 31. *)
Definition card_row : YearbookStats :=
  {| username := "octocat";
     year := 2023;
     avatar_url := None;
     bio := None;
     company := None;
     location := None;
     followers := 0;
     following := 0;
     total_contributions := 7;
     total_commits := 7;
     pull_requests := 0;
     pull_request_reviews := 0;
     issues := 0;
     longest_streak := 1;
     current_streak := 1;
     active_days := 3;
     repo_count := 2;
     public_repo_count := 0;
     private_repo_count := 0;
     total_repo_count := 0;
     daily_contributions :=
       [mkDaily "2023-01-01" 1; mkDaily "2023-01-08" 2; mkDaily "2023-12-31" 4];
     language_stats := [];
     top_repos := [];
     organizations := [];
     updated_at := at_noon 2024 1 1 |}.

(** A request that came through a proxy which pads the addresses. *)
Definition padded_request : Request :=
  mkRequest (Some " 203.0.113.7 , 10.0.0.1"%string) None None (Some "10.0.0.9"%string).

(** Pushes to two repositories named [util], of two owners, and to one
    named [notes]. *)
Definition namesake_events : list event :=
  [ mkEvent (Some "PushEvent"%string) "2024-03-01T10:00:00Z" "alice/util" (Some 3);
    mkEvent (Some "PushEvent"%string) "2024-02-01T09:30:00Z" "carol/notes" (Some 4);
    mkEvent (Some "PushEvent"%string) "2024-02-02T09:30:00Z" "bob/util" (Some 2) ].

Definition namesake_upstream : upstream :=
  {| latest_push_answer := fun _ => Ok (mkResponse 200 (Ok []));
     yearbook_answer := fun _ _ _ => Raise (UpstreamError "timed out"%string);
     events_answer := fun _ _ => Ok (mkResponse 200 (Ok namesake_events)) |}.

End Scenarios.

(** * Proofs *)

Ltac euclid := Z.to_euclidean_division_equations; lia.

Section CalendarFacts.
Import Calendar Spec.

Lemma is_leap_spec (y : Z) :
  is_leap y = true <-> (y mod 4 = 0 /\ (y mod 100 <> 0 \/ y mod 400 = 0)).
Proof.
  unfold is_leap.
  rewrite andb_true_iff, orb_true_iff, negb_true_iff, !Z.eqb_eq, Z.eqb_neq.
  tauto.
Qed.

Lemma days_before_year_succ (y : Z) :
  days_before_year (y + 1) = days_before_year y + 365 + (if is_leap y then 1 else 0).
Proof.
  destruct (is_leap y) eqn:E.
  - apply is_leap_spec in E. unfold days_before_year. 
    replace (y + 1 - 1) with y by lia. euclid.
  - assert (~ (y mod 4 = 0 /\ (y mod 100 <> 0 \/ y mod 400 = 0))) as N.
    { rewrite <- is_leap_spec, E. discriminate. }
    unfold days_before_year. replace (y + 1 - 1) with y by lia. euclid.
Qed.

Lemma days_before_year_mono (y1 y2 : Z) :
  y1 <= y2 -> days_before_year y1 <= days_before_year y2.
Proof.
  intros H. replace y2 with (y1 + (y2 - y1)) by lia.
  assert (0 <= y2 - y1) as K by lia. revert K.
  generalize (y2 - y1) as k. intros k K.
  pattern k. apply natlike_ind; [ | | exact K].
  - rewrite Z.add_0_r. lia.
  - intros x Hx IH. replace (y1 + Z.succ x) with (y1 + x + 1) by lia.
    rewrite days_before_year_succ. destruct (is_leap (y1 + x)); lia.
Qed.

Lemma month_cases (m : Z) :
  1 <= m <= 12 ->
  m = 1 \/ m = 2 \/ m = 3 \/ m = 4 \/ m = 5 \/ m = 6 \/
  m = 7 \/ m = 8 \/ m = 9 \/ m = 10 \/ m = 11 \/ m = 12.
Proof. lia. Qed.

Ltac month_tables :=
  unfold days_before_month, days_in_month, DAYS_BEFORE_MONTH, DAYS_IN_MONTH;
  cbn [Z.eqb Z.ltb Z.compare Pos.compare Pos.compare_cont Pos.eqb andb];
  try match goal with |- context [is_leap ?y] => destruct (is_leap y) end;
  cbn [andb].

Ltac each_month m H :=
  destruct (month_cases m H) as
    [->|[->|[->|[->|[->|[->|[->|[->|[->|[->|[->| ->]]]]]]]]]]].

Lemma days_before_month_succ (y m : Z) :
  1 <= m <= 11 ->
  days_before_month y (m + 1) = days_before_month y m + days_in_month y m.
Proof.
  intros H. assert (1 <= m <= 12) as H' by lia.
  each_month m H'; cbn [Z.add Pos.add Pos.succ]; month_tables; lia.
Qed.

Lemma days_in_month_pos (y m : Z) : 1 <= m <= 12 -> 28 <= days_in_month y m <= 31.
Proof.
  intros H. each_month m H; month_tables; lia.
Qed.

Lemma days_before_month_mono (y m1 m2 : Z) :
  1 <= m1 -> m1 < m2 -> m2 <= 12 ->
  days_before_month y m1 + days_in_month y m1 <= days_before_month y m2.
Proof.
  intros H1 H2 H3.
  replace m2 with (m1 + 1 + (m2 - m1 - 1)) by lia.
  assert (0 <= m2 - m1 - 1) as K by lia.
  assert (m1 + 1 + (m2 - m1 - 1) <= 12) as B by lia.
  revert K B. generalize (m2 - m1 - 1) as k. intros k K.
  pattern k. apply natlike_ind; [ | | exact K].
  - intros _. rewrite Z.add_0_r, days_before_month_succ by lia. lia.
  - intros x Hx IH B.
    replace (m1 + 1 + Z.succ x) with (m1 + 1 + x + 1) by lia.
    rewrite days_before_month_succ by lia.
    pose proof (days_in_month_pos y (m1 + 1 + x)). lia.
Qed.

Lemma days_before_month_last (y : Z) :
  days_before_month y 12 + days_in_month y 12 = 365 + (if is_leap y then 1 else 0).
Proof. month_tables; lia. Qed.

Lemma valid_ymd_spec (y m d : Z) :
  valid_ymd y m d = true <->
  1 <= y <= MAXYEAR /\ 1 <= m <= 12 /\ 1 <= d <= days_in_month y m.
Proof.
  unfold valid_ymd. rewrite !andb_true_iff, !Z.leb_le. tauto.
Qed.

Lemma day_of_year_bounds (y m d : Z) :
  1 <= m <= 12 -> 1 <= d <= days_in_month y m ->
  1 <= days_before_month y m + d <= 365 + (if is_leap y then 1 else 0).
Proof.
  intros Hm Hd. split.
  - each_month m Hm; month_tables; lia.
  - destruct (Z.eq_dec m 12) as [->|N].
    + pose proof (days_before_month_last y). lia.
    + pose proof (days_before_month_mono y m 12). pose proof (days_before_month_last y).
      pose proof (days_in_month_pos y 12). lia.
Qed.

(** [ymd2ord] is strictly increasing along the order of dates. *)
Lemma ymd2ord_lt (y1 m1 d1 y2 m2 d2 : Z) :
  1 <= m1 <= 12 -> 1 <= d1 <= days_in_month y1 m1 ->
  1 <= m2 <= 12 -> 1 <= d2 <= days_in_month y2 m2 ->
  y1 < y2 \/ (y1 = y2 /\ (m1 < m2 \/ (m1 = m2 /\ d1 < d2))) ->
  ymd2ord y1 m1 d1 < ymd2ord y2 m2 d2.
Proof.
  intros Hm1 Hd1 Hm2 Hd2 H. unfold ymd2ord.
  pose proof (day_of_year_bounds y1 m1 d1 Hm1 Hd1) as B1.
  pose proof (day_of_year_bounds y2 m2 d2 Hm2 Hd2) as B2.
  destruct H as [Hy | [-> [Hm | [-> Hd]]]].
  - pose proof (days_before_year_succ y1).
    pose proof (days_before_year_mono (y1 + 1) y2). lia.
  - pose proof (days_before_month_mono y2 m1 m2). lia.
  - lia.
Qed.

Lemma ymd2ord_max : ymd2ord MAXYEAR 12 31 = MAXORDINAL.
Proof. reflexivity. Qed.

Lemma ymd2ord_period (y m d k : Z) :
  ymd2ord (y + 400 * k) m d = ymd2ord y m d + 146097 * k.
Proof.
  unfold ymd2ord, days_before_month, days_before_year, is_leap.
  replace ((y + 400 * k) mod 4) with (y mod 4) by euclid.
  replace ((y + 400 * k) mod 100) with (y mod 100) by euclid.
  replace ((y + 400 * k) mod 400) with (y mod 400) by euclid.
  euclid.
Qed.

Lemma days_in_month_period (y m k : Z) :
  days_in_month (y + 400 * k) m = days_in_month y m.
Proof.
  unfold days_in_month, is_leap.
  replace ((y + 400 * k) mod 4) with (y mod 4) by euclid.
  replace ((y + 400 * k) mod 100) with (y mod 100) by euclid.
  replace ((y + 400 * k) mod 400) with (y mod 400) by euclid.
  reflexivity.
Qed.

Lemma ord2ymd_period (n k : Z) :
  ord2ymd (n + 146097 * k) =
  let '(y, m, d) := ord2ymd n in (y + 400 * k, m, d).
Proof.
  unfold ord2ymd.
  replace ((n + 146097 * k - 1) mod 146097) with ((n - 1) mod 146097) by euclid.
  replace ((n + 146097 * k - 1) / 146097) with ((n - 1) / 146097 + k) by euclid.
  set (r400 := (n - 1) mod 146097).
  set (n100 := r400 / 36524).
  set (r100 := r400 mod 36524).
  set (n4 := r100 / 1461).
  set (r4 := r100 mod 1461).
  set (n1 := r4 / 365).
  set (r := r4 mod 365).
  destruct ((n1 =? 4) || (n100 =? 4)).
  - f_equal. f_equal. lia.
  - match goal with |- context [if ?c then _ else _] => destruct c end;
      f_equal; f_equal; lia.
Qed.


Lemma all_from_spec (p : Z -> bool) (steps : nat) (a : Z) :
  all_from steps a p = true ->
  forall n, a <= n < a + Z.of_nat steps -> p n = true.
Proof.
  revert a. induction steps as [|k IH]; intros a H n Hn.
  - simpl in Hn. lia.
  - cbn [all_from] in H. apply andb_true_iff in H as [H0 H1].
    destruct (Z.eq_dec n a) as [->|N]; [exact H0|].
    apply (IH (a + 1) H1). lia.
Qed.

Lemma month_days : forall leapyear, all_from 365 0 (month_day_check leapyear) = true.
Proof. intros []; vm_compute; reflexivity. Qed.

Lemma month_day_correct (r : Z) (leapyear : bool) :
  0 <= r < 365 ->
  let '(m, d) := month_day r leapyear in
  1 <= m <= 12 /\
  1 <= d <= DAYS_IN_MONTH m + (if (m =? 2) && leapyear then 1 else 0) /\
  DAYS_BEFORE_MONTH m + (if (2 <? m) && leapyear then 1 else 0) + d = r + 1.
Proof.
  intros H.
  assert (Z.of_nat 365 = 365) as K by reflexivity.
  pose proof (all_from_spec _ _ _ (month_days leapyear) r ltac:(lia)) as C.
  unfold month_day_check in C. destruct (month_day r leapyear) as [m d].
  rewrite !andb_true_iff, !Z.leb_le, Z.eqb_eq in C. lia.
Qed.

Lemma ord2ymd_month_day (n : Z) :
  ord2ymd n =
  let r400 := (n - 1) mod 146097 in
  let n100 := r400 / 36524 in
  let n4 := r400 mod 36524 / 1461 in
  let r4 := r400 mod 36524 mod 1461 in
  let n1 := r4 / 365 in
  let year := (n - 1) / 146097 * 400 + 1 + n100 * 100 + n4 * 4 + n1 in
  if (n1 =? 4) || (n100 =? 4) then (year - 1, 12, 31)
  else
    let '(m, d) :=
      month_day (r4 mod 365) ((n1 =? 3) && (negb (n4 =? 24) || (n100 =? 3))) in
    (year, m, d).
Proof.
  unfold ord2ymd, month_day. cbv zeta.
  destruct ((_ =? 4) || (_ =? 4)); [reflexivity|].
  destruct (_ <? _); reflexivity.
Qed.

Lemma days_in_month_table (y m : Z) :
  days_in_month y m = DAYS_IN_MONTH m + (if (m =? 2) && is_leap y then 1 else 0).
Proof.
  unfold days_in_month. destruct (Z.eqb_spec m 2) as [->|N]; cbn [andb]; [|lia].
  destruct (is_leap y); reflexivity.
Qed.

(** The first 400 years, day by day. *)
Lemma first_cycle (n : Z) :
  1 <= n <= 146097 ->
  let '(y, m, d) := ord2ymd n in
  1 <= y <= 400 /\ 1 <= m <= 12 /\ 1 <= d <= days_in_month y m /\ ymd2ord y m d = n.
Proof.
  intros H. rewrite ord2ymd_month_day. cbv zeta.
  replace ((n - 1) / 146097) with 0 by euclid.
  replace ((n - 1) mod 146097) with (n - 1) by euclid.
  set (n100 := (n - 1) / 36524).
  set (r100 := (n - 1) mod 36524).
  set (n4 := r100 / 1461).
  set (r4 := r100 mod 1461).
  set (n1 := r4 / 365).
  set (r := r4 mod 365).
  assert (n - 1 = 36524 * n100 + r100 /\ 0 <= r100 < 36524) as [E100 B100]
    by (unfold n100, r100; euclid).
  assert (r100 = 1461 * n4 + r4 /\ 0 <= r4 < 1461) as [E4 B4] by (unfold n4, r4; euclid).
  assert (r4 = 365 * n1 + r /\ 0 <= r < 365) as [E1 B1] by (unfold n1, r; euclid).
  clearbody n100 r100 n4 r4 n1 r.
  assert (0 <= n100 <= 4 /\ 0 <= n4 <= 24 /\ 0 <= n1 <= 4) as (R100 & R4 & R1) by lia.
  destruct ((n1 =? 4) || (n100 =? 4)) eqn:S.
  - apply orb_true_iff in S. rewrite !Z.eqb_eq in S.
    set (y := 0 * 400 + 1 + n100 * 100 + n4 * 4 + n1 - 1).
    assert (y = 100 * n100 + 4 * n4 + n1) as Ey by (unfold y; lia).
    assert (is_leap y = true) as L.
    { apply is_leap_spec. destruct S as [S|S]; subst; euclid. }
    split; [lia|]. split; [lia|].
    rewrite days_in_month_table. unfold ymd2ord, days_before_month, days_before_year.
    rewrite L. cbn [DAYS_IN_MONTH DAYS_BEFORE_MONTH Z.eqb Z.ltb Z.compare Pos.compare
                    Pos.compare_cont Pos.eqb andb].
    split; [lia|]. destruct S as [S|S]; subst; euclid.
  - apply orb_false_iff in S. rewrite !Z.eqb_neq in S.
    set (leapyear := (n1 =? 3) && (negb (n4 =? 24) || (n100 =? 3))).
    pose proof (month_day_correct r leapyear B1) as C.
    destruct (month_day r leapyear) as [m d]. destruct C as (Cm & Cd & Co).
    set (y := 0 * 400 + 1 + n100 * 100 + n4 * 4 + n1).
    assert (y = 1 + 100 * n100 + 4 * n4 + n1) as Ey by (unfold y; lia).
    assert (is_leap y = leapyear) as L.
    { unfold leapyear. destruct (is_leap y) eqn:Ly; symmetry.
      - apply is_leap_spec in Ly.
        rewrite andb_true_iff, orb_true_iff, negb_true_iff, !Z.eqb_eq, Z.eqb_neq. euclid.
      - apply not_true_iff_false. intros T. apply not_true_iff_false in Ly. apply Ly.
        apply is_leap_spec.
        rewrite andb_true_iff, orb_true_iff, negb_true_iff, !Z.eqb_eq, Z.eqb_neq in T.
        euclid. }
    split; [lia|]. split; [exact Cm|].
    rewrite days_in_month_table, L. split; [exact Cd|].
    unfold ymd2ord, days_before_month. rewrite L.
    assert (days_before_year y = 36524 * n100 + 1461 * n4 + 365 * n1) as D
      by (unfold days_before_year; euclid).
    lia.
Qed.

(** Every ordinal of the supported range is the ordinal of the date
    [ord2ymd] gives for it, and that date is a valid one. *)
Lemma ord2ymd_correct (n : Z) :
  1 <= n <= MAXORDINAL ->
  let '(y, m, d) := ord2ymd n in
  valid_ymd y m d = true /\ ymd2ord y m d = n.
Proof.
  intros Hn.
  set (k := (n - 1) / 146097).
  set (n' := (n - 1) mod 146097 + 1).
  assert (n = n' + 146097 * k) as E by (unfold n', k; euclid).
  assert (1 <= n' <= 146097) as Hn' by (unfold n'; euclid).
  assert (0 <= k) as Hk by (unfold k; euclid).
  pose proof (first_cycle n' Hn') as C.
  rewrite E, ord2ymd_period.
  destruct (ord2ymd n') as [[y m] d]. destruct C as (Cy & Cm & Cd & Co).
  rewrite ymd2ord_period.
  split; [| lia].
  apply valid_ymd_spec. rewrite days_in_month_period.
  repeat split; try lia.
  destruct (Z_le_gt_dec (y + 400 * k) MAXYEAR) as [L|G]; [exact L|].
  exfalso.
  assert (ymd2ord MAXYEAR 12 31 < ymd2ord (y + 400 * k) m d) as K.
  { apply ymd2ord_lt; try lia.
    - month_tables; lia.
    - rewrite days_in_month_period. lia. }
  rewrite ymd2ord_max, ymd2ord_period in K. lia.
Qed.

End CalendarFacts.

Section DateStrings.
Import Calendar Datetime Spec.

Lemma digit_cases (x : Z) :
  0 <= x <= 9 ->
  x = 0 \/ x = 1 \/ x = 2 \/ x = 3 \/ x = 4 \/ x = 5 \/ x = 6 \/ x = 7 \/ x = 8 \/ x = 9.
Proof. lia. Qed.

Ltac each_digit x H :=
  destruct (digit_cases x H) as [->|[->|[->|[->|[->|[->|[->|[->|[->| ->]]]]]]]]].

Lemma digit_val_char (x : Z) : 0 <= x <= 9 -> digit_val (digit_char x) = Some x.
Proof. intros H. each_digit x H; reflexivity. Qed.

Lemma digit_char_compare (x y : Z) :
  0 <= x <= 9 -> 0 <= y <= 9 ->
  Ascii.compare (digit_char x) (digit_char y) = (x ?= y).
Proof. intros Hx Hy. each_digit x Hx; each_digit y Hy; reflexivity. Qed.

Lemma pad2_mod (n : Z) : pad2 n = pad2 (n mod 100).
Proof.
  unfold pad2. f_equal; [|f_equal]; f_equal; euclid.
Qed.

Lemma pad4_mod (n : Z) : pad4 n = pad4 (n mod 10000).
Proof.
  unfold pad4. rewrite (pad2_mod (n / 100)), (pad2_mod (n mod 10000 / 100)).
  f_equal; f_equal; euclid.
Qed.

Lemma format_ymd_mod (y m d : Z) :
  format_ymd y m d = format_ymd (y mod 10000) (m mod 100) (d mod 100).
Proof.
  unfold format_ymd. rewrite (pad4_mod y), (pad2_mod m), (pad2_mod d). reflexivity.
Qed.

Lemma pad2_compare (a b : Z) (s t : string) :
  0 <= a < 100 -> 0 <= b < 100 ->
  String.compare
    (String (digit_char (a / 10 mod 10)) (String (digit_char (a mod 10)) s))
    (String (digit_char (b / 10 mod 10)) (String (digit_char (b mod 10)) t)) =
  match a ?= b with Eq => String.compare s t | c => c end.
Proof.
  intros Ha Hb. cbn [String.compare].
  rewrite !digit_char_compare by euclid.
  destruct (Z.compare_spec (a / 10 mod 10) (b / 10 mod 10)) as [E1|L1|G1];
    destruct (Z.compare_spec (a mod 10) (b mod 10)) as [E2|L2|G2];
    destruct (Z.compare_spec a b) as [E|L|G]; try reflexivity; exfalso; euclid.
Qed.

Lemma compare_dash (s t : string) :
  String.compare (String "-" s) (String "-" t) = String.compare s t.
Proof. reflexivity. Qed.

(** Date strings compare as the dates they print. *)
Lemma format_ymd_compare (y1 m1 d1 y2 m2 d2 : Z) :
  0 <= y1 < 10000 -> 0 <= m1 < 100 -> 0 <= d1 < 100 ->
  0 <= y2 < 10000 -> 0 <= m2 < 100 -> 0 <= d2 < 100 ->
  String.compare (format_ymd y1 m1 d1) (format_ymd y2 m2 d2) =
  match y1 ?= y2 with
  | Eq => match m1 ?= m2 with Eq => d1 ?= d2 | c => c end
  | c => c
  end.
Proof.
  intros Hy1 Hm1 Hd1 Hy2 Hm2 Hd2. unfold format_ymd, pad4, pad2.
  cbn [append].
  rewrite (pad2_compare (y1 / 100) (y2 / 100)) by euclid.
  rewrite (pad2_compare (y1 mod 100) (y2 mod 100)) by euclid.
  rewrite compare_dash, (pad2_compare m1 m2) by lia.
  rewrite compare_dash, (pad2_compare d1 d2) by lia.
  change (String.compare "" "") with Eq.
  destruct (Z.compare_spec (y1 / 100) (y2 / 100));
    destruct (Z.compare_spec (y1 mod 100) (y2 mod 100));
    destruct (Z.compare_spec y1 y2);
    try (destruct (m1 ?= m2), (d1 ?= d2); reflexivity); exfalso; euclid.
Qed.

(** Parsing what [format_ymd] prints. *)
Lemma fromisoformat_format (y m d : Z) :
  0 <= y < 10000 -> 0 <= m < 100 -> 0 <= d < 100 ->
  fromisoformat (format_ymd y m d) =
  if valid_ymd y m d then Ok (mkDatetime (ymd2ord y m d) 0 0 None)
  else Raise (ValueError ("Invalid isoformat string: " ++ format_ymd y m d)).
Proof.
  intros Hy Hm Hd. unfold fromisoformat.
  unfold format_ymd at 1, pad4, pad2. cbn [append list_ascii_of_string].
  unfold four_digits, two_digits. rewrite !digit_val_char by euclid.
  replace (100 * (10 * (y / 100 / 10 mod 10) + y / 100 mod 10)
           + (10 * (y mod 100 / 10 mod 10) + y mod 100 mod 10)) with y by euclid.
  replace (10 * (m / 10 mod 10) + m mod 10) with m by euclid.
  replace (10 * (d / 10 mod 10) + d mod 10) with d by euclid.
  reflexivity.
Qed.

Lemma is_iso_date_inv (s : string) :
  is_iso_date s = true ->
  exists y m d,
    valid_ymd y m d = true /\ s = format_ymd y m d /\
    fromisoformat s = Ok (mkDatetime (ymd2ord y m d) 0 0 None).
Proof.
  unfold is_iso_date. destruct (fromisoformat s) as [dt|e] eqn:P; [|discriminate].
  intros E. apply String.eqb_eq in E. unfold strftime_ymd in E.
  destruct (ord2ymd (toordinal dt)) as [[y' m'] d'].
  rewrite format_ymd_mod in E.
  set (y := y' mod 10000) in *. set (m := m' mod 100) in *. set (d := d' mod 100) in *.
  assert (0 <= y < 10000) as Hy by (unfold y; euclid).
  assert (0 <= m < 100) as Hm by (unfold m; euclid).
  assert (0 <= d < 100) as Hd by (unfold d; euclid).
  pose proof (fromisoformat_format y m d Hy Hm Hd) as F.
  rewrite E in F. rewrite F in P.
  exists y, m, d. destruct (valid_ymd y m d); [|discriminate].
  split; [reflexivity|]. split; [symmetry; exact E|]. symmetry; exact P.
Qed.

Lemma valid_ymd_digits (y m d : Z) :
  valid_ymd y m d = true -> 0 <= y < 10000 /\ 0 <= m < 100 /\ 0 <= d < 100.
Proof.
  intros V. apply valid_ymd_spec in V. destruct V as (Hy & Hm & Hd).
  pose proof (days_in_month_pos y m Hm). unfold MAXYEAR in Hy. lia.
Qed.

(** The date string of a day of the supported range parses back to it. *)
Lemma fromisoformat_day_string (n : Z) :
  1 <= n <= MAXORDINAL ->
  fromisoformat (day_string n) = Ok (mkDatetime n 0 0 None).
Proof.
  intros Hn. unfold day_string, strftime_ymd. cbn [toordinal].
  pose proof (ord2ymd_correct n Hn) as C.
  destruct (ord2ymd n) as [[y m] d]. destruct C as [V E].
  destruct (valid_ymd_digits _ _ _ V) as (Hy & Hm & Hd).
  rewrite fromisoformat_format, V, E by assumption. reflexivity.
Qed.

(** On ISO dates the order of the strings is the order of the days. *)
Lemma iso_date_ltb (s1 s2 : string) :
  is_iso_date s1 = true -> is_iso_date s2 = true ->
  String.ltb s1 s2 = true -> date_ordinal s1 < date_ordinal s2.
Proof.
  intros I1 I2 L.
  destruct (is_iso_date_inv _ I1) as (y1 & m1 & d1 & V1 & -> & P1).
  destruct (is_iso_date_inv _ I2) as (y2 & m2 & d2 & V2 & -> & P2).
  unfold date_ordinal. rewrite P1, P2. cbn [toordinal].
  destruct (valid_ymd_digits _ _ _ V1) as (Hy1 & Hm1 & Hd1).
  destruct (valid_ymd_digits _ _ _ V2) as (Hy2 & Hm2 & Hd2).
  unfold String.ltb in L. rewrite format_ymd_compare in L by assumption.
  apply valid_ymd_spec in V1, V2.
  apply ymd2ord_lt; try tauto.
  destruct (Z.compare_spec y1 y2); [|lia|discriminate].
  destruct (Z.compare_spec m1 m2); [|lia|discriminate].
  destruct (Z.compare_spec d1 d2); [discriminate|lia|discriminate].
Qed.

Lemma ltb_total (s1 s2 : string) :
  s1 <> s2 -> String.ltb s2 s1 = false -> String.ltb s1 s2 = true.
Proof.
  unfold String.ltb. intros N H. rewrite String.compare_antisym in H.
  destruct (String.compare s1 s2) eqn:C; try reflexivity.
  - apply String.compare_eq_iff in C. contradiction.
  - discriminate.
Qed.

Lemma ltb_asym (s1 s2 : string) :
  String.ltb s1 s2 = true -> String.ltb s2 s1 = false.
Proof.
  unfold String.ltb. rewrite (String.compare_antisym s2 s1).
  destruct (String.compare s1 s2); simpl; congruence.
Qed.

End DateStrings.

(** ** The stable sort *)

Section SortFacts.
Context {A : Type} (after : A -> A -> bool).

Lemma insert_perm (x : A) (l : list A) : Permutation (PyList.insert after x l) (x :: l).
Proof.
  induction l as [|y l IH]; cbn [PyList.insert]; [reflexivity|].
  destruct (after x y); [|reflexivity].
  rewrite IH. apply perm_swap.
Qed.

Lemma sort_perm (l : list A) : Permutation (PyList.sort after l) l.
Proof.
  induction l as [|x l IH]; cbn [PyList.sort fold_right]; [reflexivity|].
  fold (PyList.sort after l). rewrite insert_perm. now constructor.
Qed.


Hypothesis after_asym : forall a b, after a b = true -> after b a = false.

Lemma insert_hdrel (x a : A) (l : list A) :
  (PyList.in_order after) a x -> HdRel (PyList.in_order after) a l -> HdRel (PyList.in_order after) a (PyList.insert after x l).
Proof.
  intros Hax H. destruct l as [|y l]; cbn [PyList.insert].
  - now constructor.
  - destruct (after x y); constructor; [now inversion H | exact Hax].
Qed.

Lemma insert_sorted (x : A) (l : list A) :
  Sorted (PyList.in_order after) l -> Sorted (PyList.in_order after) (PyList.insert after x l).
Proof.
  induction l as [|y l IH]; intros S; cbn [PyList.insert].
  - repeat constructor.
  - destruct (after x y) eqn:E.
    + inversion S; subst. constructor; [now apply IH|].
      apply insert_hdrel; [|assumption]. now apply after_asym.
    + constructor; [exact S|]. now constructor.
Qed.

Lemma sort_sorted (l : list A) : Sorted (PyList.in_order after) (PyList.sort after l).
Proof.
  induction l as [|x l IH]; cbn [PyList.sort fold_right]; [constructor|].
  now apply insert_sorted.
Qed.

End SortFacts.

(** ** Runs of consecutive days *)

Section RunFacts.
Import Spec.

Lemma max_run_length_eq (days : list Z) :
  max_run_length days = fold_right Z.max 0 (run_lengths (split_runs days)).
Proof. reflexivity. Qed.

Lemma split_runs_head (x : Z) (l : list Z) :
  exists run rest, split_runs (x :: l) = (x :: run) :: rest.
Proof.
  cbn [split_runs]. destruct (split_runs l) as [|[|y run] rest]; eauto.
  destruct (y - x =? 1); eauto.
Qed.

Lemma fold_max_nonneg (l : list Z) : 0 <= fold_right Z.max 0 l.
Proof. induction l; cbn [fold_right]; lia. Qed.

Lemma max_run_length_nonneg (days : list Z) : 0 <= max_run_length days.
Proof. apply fold_max_nonneg. Qed.

Lemma headed_max_one (runs : list (list Z)) :
  runs <> [] -> headed_max 1 runs = fold_right Z.max 0 (run_lengths runs).
Proof.
  destruct runs as [|run rest]; [congruence|]. intros _.
  cbn [headed_max run_lengths map fold_right]. f_equal. lia.
Qed.

Lemma split_runs_cons_step (p x : Z) (l : list Z) (s : Z) :
  headed_max s (split_runs (p :: x :: l)) =
  if x - p =? 1 then headed_max (s + 1) (split_runs (x :: l))
  else Z.max s (headed_max 1 (split_runs (x :: l))).
Proof.
  destruct (split_runs_head x l) as (run & rest & E).
  change (split_runs (p :: x :: l)) with
    (match split_runs (x :: l) with
     | (y :: run) :: runs =>
         if y - p =? 1 then (p :: y :: run) :: runs else [p] :: (y :: run) :: runs
     | _ => [[p]]
     end).
  rewrite E. destruct (x - p =? 1).
  - cbn [headed_max List.length]. lia.
  - cbn [headed_max List.length run_lengths map fold_right].
    fold (run_lengths rest). lia.
Qed.

Lemma first_run_le_max (days : list Z) : first_run_length days <= max_run_length days.
Proof.
  unfold first_run_length, max_run_length.
  destruct (split_runs days); cbn [map fold_right]; lia.
Qed.

Lemma max_run_length_cons (x : Z) (days : list Z) :
  max_run_length days <= max_run_length (x :: days).
Proof.
  unfold max_run_length. destruct days as [|y days].
  - cbn. lia.
  - destruct (split_runs_head y days) as (run & rest & E).
    change (split_runs (x :: y :: days)) with
      (match split_runs (y :: days) with
       | (z :: run) :: runs =>
           if z - x =? 1 then (x :: z :: run) :: runs else [x] :: (z :: run) :: runs
       | _ => [[x]]
       end).
    rewrite E. destruct (y - x =? 1); cbn [map fold_right List.length]; lia.
Qed.

Lemma first_run_interval (l : list Z) (x k : Z) :
  StronglySorted Z.lt (x :: l) ->
  (forall j, 0 <= j < k -> In (x + j) (x :: l)) ->
  k <= first_run_length (x :: l).
Proof.
  revert x k. induction l as [|y l IH]; intros x k S H.
  - unfold first_run_length. cbn.
    destruct (Z_le_gt_dec k 1) as [|G]; [lia|].
    destruct (H 1) as [E|[]]; lia.
  - destruct (Z_le_gt_dec k 1) as [L|G].
    { unfold first_run_length. destruct (split_runs_head x (y :: l)) as (run & rest & ->).
      cbn [List.length]. lia. }
    inversion S as [|? ? S' F]; subst.
    assert (y = x + 1) as ->.
    { destruct (H 1 ltac:(lia)) as [E|[E|I]]; [lia|lia|].
      inversion F as [|? ? Hxy _]; subst.
      inversion S' as [|? ? _ F']; subst.
      rewrite Forall_forall in F'. specialize (F' _ I). lia. }
    assert (k - 1 <= first_run_length (x + 1 :: l)) as K.
    { apply IH; [exact S'|]. intros j Hj.
      destruct (H (j + 1) ltac:(lia)) as [E|I]; [lia|].
      replace (x + 1 + j) with (x + (j + 1)) by lia. exact I. }
    unfold first_run_length in *.
    destruct (split_runs_head (x + 1) l) as (run & rest & E).
    change (split_runs (x :: x + 1 :: l)) with
      (match split_runs (x + 1 :: l) with
       | (z :: run) :: runs =>
           if z - x =? 1 then (x :: z :: run) :: runs else [x] :: (z :: run) :: runs
       | _ => [[x]]
       end).
    rewrite E in *.
    replace (x + 1 - x =? 1) with true by (symmetry; apply Z.eqb_eq; lia).
    cbn [List.length] in *. lia.
Qed.

(** A strictly increasing sequence of days that holds [k] consecutive
    days has a run of at least [k] days. *)
Lemma max_run_interval (l : list Z) (a k : Z) :
  StronglySorted Z.lt l -> 1 <= k ->
  (forall j, 0 <= j < k -> In (a + j) l) ->
  k <= max_run_length l.
Proof.
  induction l as [|x l IH]; intros S Hk H.
  - destruct (H 0); lia.
  - destruct (Z.eq_dec a x) as [->|N].
    + pose proof (first_run_interval l x k S H).
      pose proof (first_run_le_max (x :: l)). lia.
    + inversion S as [|? ? S' F]; subst.
      rewrite Forall_forall in F.
      assert (x < a) as Hxa.
      { destruct (H 0 ltac:(lia)) as [E|I]; [lia|].
        rewrite Z.add_0_r in I. exact (F _ I). }
      pose proof (max_run_length_cons x l).
      assert (k <= max_run_length l); [|lia].
      apply IH; [exact S'|exact Hk|].
      intros j Hj. destruct (H j Hj) as [E|I]; [lia|exact I].
Qed.

End RunFacts.

Section StreakFacts.
Import Calendar Datetime Models Routes Spec.

Lemma fromisoformat_iso (s : string) :
  is_iso_date s = true -> fromisoformat s = Ok (midnight (date_ordinal s)).
Proof.
  intros I. destruct (is_iso_date_inv s I) as (y & m & d & _ & _ & P).
  unfold date_ordinal. rewrite P. reflexivity.
Qed.

Lemma sub_days_midnight (a b : Z) : sub_days (midnight a) (midnight b) = Ok (a - b).
Proof.
  unfold sub_days, midnight, total_us, US_PER_DAY. cbn [utcoffset toordinal second_of_day microsecond].
  f_equal. replace ((a * 86400 + 0) * 1000000 + 0 - ((b * 86400 + 0) * 1000000 + 0))
    with ((a - b) * (86400 * 1000000)) by lia.
  apply Z.div_mul. lia.
Qed.

Lemma streak_step_iso (L s p : Z) (d : daily) :
  is_iso_date (date d) = true ->
  streak_step (mkStreakState L s (Some (midnight p))) d =
  Ok (if date_ordinal (date d) - p =? 1
      then mkStreakState L (s + 1) (Some (midnight (date_ordinal (date d))))
      else mkStreakState (Z.max L s) 1 (Some (midnight (date_ordinal (date d))))).
Proof.
  intros I. unfold streak_step. rewrite (fromisoformat_iso _ I).
  cbn [rbind st_prev_date]. rewrite sub_days_midnight. reflexivity.
Qed.

Lemma streak_loop_runs (l : list daily) :
  iso_dates l ->
  forall L s p, 0 <= s ->
  exists st,
    streak_loop (mkStreakState L s (Some (midnight p))) l = Ok st /\
    Z.max (st_longest_streak st) (st_streak st) =
    Z.max L (headed_max s (split_runs (p :: ordinals l))).
Proof.
  induction 1 as [|d l I _ IH]; intros L s p Hs.
  - eexists. split; [reflexivity|].
    cbn [ordinals map split_runs headed_max List.length run_lengths fold_right
         st_longest_streak st_streak]. lia.
  - cbn [streak_loop]. rewrite (streak_step_iso _ _ _ _ I). cbn [rbind].
    unfold ordinals. cbn [map]. fold (ordinals l).
    rewrite split_runs_cons_step.
    destruct (date_ordinal (date d) - p =? 1).
    + destruct (IH L (s + 1) (date_ordinal (date d)) ltac:(lia)) as (st & E & M).
      exists st. split; [exact E|exact M].
    + destruct (IH (Z.max L s) 1 (date_ordinal (date d)) ltac:(lia)) as (st & E & M).
      exists st. split; [exact E|]. rewrite M. lia.
Qed.

Lemma streak_loop_max_run (l : list daily) :
  iso_dates l ->
  exists st,
    streak_loop (mkStreakState 0 0 None) l = Ok st /\
    Z.max (st_longest_streak st) (st_streak st) = max_run_length (ordinals l).
Proof.
  intros I. destruct I as [|d l I Il].
  - eexists. split; reflexivity.
  - cbn [streak_loop]. unfold streak_step at 1. rewrite (fromisoformat_iso _ I).
    cbn [rbind st_prev_date st_longest_streak st_streak].
    destruct (streak_loop_runs l Il (Z.max 0 0) 1 (date_ordinal (date d)) ltac:(lia))
      as (st & E & M).
    exists st. split; [exact E|]. rewrite M.
    unfold ordinals. cbn [map]. rewrite headed_max_one.
    + rewrite max_run_length_eq. pose proof (fold_max_nonneg
        (run_lengths (split_runs (date_ordinal (date d) :: map date_ordinal (map date l))))).
      lia.
    + destruct (split_runs_head (date_ordinal (date d)) (map date_ordinal (map date l)))
        as (run & rest & ->). discriminate.
Qed.

Lemma iso_dates_perm (l l' : list daily) :
  Permutation l l' -> iso_dates l -> iso_dates l'.
Proof. intros P. unfold iso_dates. now rewrite P. Qed.

Lemma iso_dates_active (l : list daily) : iso_dates l -> iso_dates (active_days_of l).
Proof.
  unfold iso_dates, active_days_of. rewrite !Forall_forall.
  intros H d Hd. apply filter_In in Hd. now apply H.
Qed.

(** The longest streak is the longest run of the sorted active days. *)
Lemma compute_longest_streak_runs (active_days : list daily) :
  iso_dates active_days ->
  compute_longest_streak active_days =
  Ok (max_run_length (ordinals (PyList.sorted_by String.ltb date active_days))).
Proof.
  intros I. unfold compute_longest_streak.
  assert (iso_dates (PyList.sorted_by String.ltb date active_days)) as Is.
  { eapply iso_dates_perm; [|exact I]. symmetry. apply sort_perm. }
  destruct (streak_loop_max_run _ Is) as (st & E & M).
  rewrite E. cbn [rbind]. now rewrite M.
Qed.

(** *** The backward walk *)

Lemma strftime_day_string (d : datetime) : strftime_ymd d = day_string (toordinal d).
Proof. reflexivity. Qed.

Lemma current_loop_run (dates : list string) (end_d : datetime) (steps : nat) :
  forall i c,
    1 <= i ->
    1 <= toordinal end_d - (i + Z.of_nat steps) + 1 ->
    toordinal end_d - i <= MAXORDINAL ->
    current_loop dates end_d steps i c =
    Ok (c + run_length (active_before dates end_d) i steps).
Proof.
  induction steps as [|k IH]; intros i c Hi Hlo Hhi.
  - cbn. f_equal. lia.
  - cbn [current_loop run_length]. unfold minus_days.
    replace ((1 <=? toordinal end_d - i) && (toordinal end_d - i <=? MAXORDINAL)) with true
      by (symmetry; apply andb_true_iff; rewrite !Z.leb_le; lia).
    cbn [rbind]. rewrite strftime_day_string. cbn [toordinal].
    fold (active_before dates end_d i).
    destruct (active_before dates end_d i).
    + rewrite IH by lia. f_equal. lia.
    + replace (0 <? i) with true by (symmetry; apply Z.ltb_lt; lia). f_equal. lia.
Qed.

Lemma current_loop_S (dates : list string) (end_d : datetime) (k : nat) (i c : Z) :
  current_loop dates end_d (S k) i c =
  rbind (minus_days end_d i) (fun d =>
    if PyStr.mem (strftime_ymd d) dates
    then current_loop dates end_d k (i + 1) (c + 1)
    else if 0 <? i then Ok c else current_loop dates end_d k (i + 1) c).
Proof. reflexivity. Qed.

Lemma run_length_S (active : Z -> bool) (from : Z) (k : nat) :
  run_length active from (S k) =
  if active from then 1 + run_length active (from + 1) k else 0.
Proof. reflexivity. Qed.

Lemma compute_current_streak_walk (active_days : list daily) (end_d : datetime) :
  365 <= toordinal end_d <= MAXORDINAL ->
  compute_current_streak active_days end_d =
  Ok (backward_streak (active_before (map date active_days) end_d)).
Proof.
  intros H. unfold compute_current_streak, backward_streak.
  change 365%nat with (S 364).
  assert (Z.of_nat 364 = 364) as Hk by reflexivity.
  revert Hk. generalize 364%nat as k. intros k Hk.
  rewrite current_loop_S, run_length_S. unfold minus_days.
  replace ((1 <=? toordinal end_d - 0) && (toordinal end_d - 0 <=? MAXORDINAL)) with true
    by (symmetry; apply andb_true_iff; rewrite !Z.leb_le; lia).
  cbn [rbind]. rewrite strftime_day_string. cbn [toordinal].
  fold (active_before (map date active_days) end_d 0).
  destruct (active_before (map date active_days) end_d 0).
  - rewrite current_loop_run by lia. reflexivity.
  - change (0 <? 0) with false. cbv iota. rewrite current_loop_run by lia. reflexivity.
Qed.

Lemma run_length_bounds (active : Z -> bool) (n : nat) (from : Z) :
  0 <= run_length active from n <= Z.of_nat n.
Proof.
  revert from. induction n as [|k IH]; intros from; cbn [run_length]; [lia|].
  destruct (active from); [|lia]. specialize (IH (from + 1)). lia.
Qed.

Lemma backward_streak_bounds (active : Z -> bool) : 0 <= backward_streak active <= 365.
Proof.
  unfold backward_streak.
  change 365%nat with (S 364).
  assert (Z.of_nat 364 = 364) as Hk by reflexivity.
  revert Hk. generalize 364%nat as k. intros k Hk.
  destruct (active 0).
  - pose proof (run_length_bounds active (S k) 0). lia.
  - pose proof (run_length_bounds active k 1). lia.
Qed.

Lemma run_length_active (active : Z -> bool) (n : nat) (from : Z) :
  forall j, 0 <= j < run_length active from n -> active (from + j) = true.
Proof.
  revert from. induction n as [|k IH]; intros from j Hj; cbn [run_length] in Hj; [lia|].
  destruct (active from) eqn:E; [|lia].
  destruct (Z.eq_dec j 0) as [->|N]; [now rewrite Z.add_0_r|].
  replace (from + j) with (from + 1 + (j - 1)) by lia. apply IH. lia.
Qed.

(** The days counted by the backward walk are consecutive active days. *)
Lemma backward_streak_active (active : Z -> bool) :
  exists first,
    0 <= first /\ first + backward_streak active <= 365 /\
    forall j, 0 <= j < backward_streak active -> active (first + j) = true.
Proof.
  unfold backward_streak. change 365%nat with (S 364).
  assert (Z.of_nat 364 = 364) as Hk by reflexivity.
  revert Hk. generalize 364%nat as k. intros k Hk.
  destruct (active 0).
  - exists 0. pose proof (run_length_bounds active (S k) 0).
    split; [lia|]. split; [lia|]. apply run_length_active.
  - exists 1. pose proof (run_length_bounds active k 1).
    split; [lia|]. split; [lia|]. apply run_length_active.
Qed.

End StreakFacts.

Section StreakOrder.
Import Calendar Datetime Models Routes Spec.

Lemma sorted_by_perm {A K} (lt : K -> K -> bool) (key : A -> K) (l : list A) :
  Permutation (PyList.sorted_by lt key l) l.
Proof. apply sort_perm. Qed.

Lemma sorted_by_date_in_order (l : list daily) :
  Sorted (fun a b => String.ltb (date b) (date a) = false)
         (PyList.sorted_by String.ltb date l).
Proof.
  apply (sort_sorted (fun x y => String.ltb (date y) (date x))).
  intros a b. apply ltb_asym.
Qed.

Lemma in_order_ordinals (l : list daily) :
  Sorted (fun a b => String.ltb (date b) (date a) = false) l ->
  NoDup (map date l) -> iso_dates l ->
  StronglySorted Z.lt (ordinals l).
Proof.
  intros S N I. apply Sorted_StronglySorted; [intros x y z; apply Z.lt_trans|].
  induction S as [|a l S IH H]; [constructor|].
  cbn [map] in N. inversion N as [|? ? Na Nl]; subst.
  inversion I as [|? ? Ia Il]; subst.
  unfold ordinals. cbn [map]. constructor; [now apply IH|].
  destruct H as [|b l H]; cbn [map]; constructor.
  inversion Il; subst. apply iso_date_ltb; try assumption.
  apply ltb_total; [|exact H].
  intros E. apply Na. rewrite E. now left.
Qed.

Lemma NoDup_dates_active (l : list daily) :
  NoDup (map date l) -> NoDup (map date (active_days_of l)).
Proof.
  unfold active_days_of. induction l as [|d l IH]; intros N; [constructor|].
  cbn [map] in N. inversion N as [|? ? Nd Nl]; subst. cbn [filter].
  destruct (0 <? count d); [|now apply IH].
  cbn [map]. constructor; [|now apply IH].
  intros I. apply Nd. apply in_map_iff in I as (x & E & Hx).
  apply filter_In in Hx. apply in_map_iff. exists x. tauto.
Qed.

Lemma sorted_ordinals (l : list daily) :
  NoDup (map date l) -> iso_dates l ->
  StronglySorted Z.lt (ordinals (PyList.sorted_by String.ltb date l)).
Proof.
  intros N I. apply in_order_ordinals.
  - apply sorted_by_date_in_order.
  - eapply Permutation_NoDup; [|exact N].
    apply Permutation_map. symmetry. apply sorted_by_perm.
  - eapply iso_dates_perm; [|exact I]. symmetry. apply sorted_by_perm.
Qed.

Lemma mem_In (x : string) (l : list string) : PyStr.mem x l = true <-> In x l.
Proof.
  unfold PyStr.mem. rewrite existsb_exists. split.
  - intros (y & Hy & E). apply String.eqb_eq in E. now subst.
  - intros H. exists x. split; [exact H|apply String.eqb_refl].
Qed.

Lemma date_ordinal_day_string (n : Z) :
  1 <= n <= MAXORDINAL -> date_ordinal (day_string n) = n.
Proof.
  intros H. unfold date_ordinal. now rewrite fromisoformat_day_string.
Qed.

Lemma active_before_ordinal (l : list daily) (end_d : datetime) (i : Z) :
  1 <= toordinal end_d - i <= MAXORDINAL ->
  active_before (map date l) end_d i = true ->
  In (toordinal end_d - i) (ordinals l).
Proof.
  intros R H. unfold active_before in H. apply mem_In in H.
  unfold ordinals. apply in_map_iff. exists (day_string (toordinal end_d - i)).
  split; [now apply date_ordinal_day_string|exact H].
Qed.

End StreakOrder.

Section AscendingDays.
Import Calendar Datetime Models Routes Spec.

(** With dates written as calendar dates, the order of the strings is the
    order of the days. *)
Lemma in_order_days (l : list daily) :
  Sorted (fun a b => String.ltb (date b) (date a) = false) l ->
  iso_dates l ->
  Sorted Z.le (ordinals l).
Proof.
  intros S I. induction S as [|a l S IH H]; [constructor|].
  inversion I as [|? ? Ia Il]; subst.
  unfold ordinals. cbn [map]. constructor; [now apply IH|].
  destruct H as [|b l H]; cbn [map]; constructor.
  inversion Il; subst.
  destruct (String.eqb_spec (date a) (date b)) as [E|N]; [rewrite E; lia|].
  apply Z.lt_le_incl. apply iso_date_ltb; try assumption.
  now apply ltb_total.
Qed.

Lemma sorted_le_head (x : Z) (l : list Z) :
  Sorted Z.le (x :: l) -> forall y, In y l -> x <= y.
Proof.
  intros S. apply Sorted_StronglySorted in S; [|intros a b c; apply Z.le_trans].
  inversion S as [|? ? _ F]; subst. now apply Forall_forall.
Qed.

(** There is one ascending arrangement of a collection of days. *)
Lemma ascending_unique (l l' : list Z) :
  Sorted Z.le l -> Sorted Z.le l' -> Permutation l l' -> l = l'.
Proof.
  revert l'. induction l as [|x l IH]; intros l' S S' P.
  - apply Permutation_nil in P. now subst.
  - destruct l' as [|x' l'].
    { symmetry in P. apply Permutation_nil in P. discriminate. }
    assert (x = x') as <-.
    { assert (In x (x' :: l')) as I by (apply (Permutation_in _ P); now left).
      assert (In x' (x :: l)) as I' by (apply (Permutation_in _ (Permutation_sym P)); now left).
      destruct I as [E|I]; [now symmetry|]. destruct I' as [E|I']; [exact E|].
      pose proof (sorted_le_head _ _ S _ I'). pose proof (sorted_le_head _ _ S' _ I). lia. }
    f_equal. apply IH.
    + now inversion S.
    + now inversion S'.
    + now apply Permutation_cons_inv in P.
Qed.

(** The days the loop walks are the days of the active entries in
    ascending order. *)
Lemma sorted_days_ascending (active_days : list daily) (days : list Z) :
  iso_dates active_days ->
  Permutation days (ordinals active_days) ->
  Sorted Z.le days ->
  ordinals (PyList.sorted_by String.ltb date active_days) = days.
Proof.
  intros I P S. apply ascending_unique.
  - apply in_order_days; [apply sorted_by_date_in_order|].
    eapply iso_dates_perm; [|exact I]. symmetry. apply sorted_by_perm.
  - exact S.
  - rewrite P. unfold ordinals. do 2 apply Permutation_map. apply sorted_by_perm.
Qed.

End AscendingDays.

Section StreakTheorems.
Import Calendar Datetime Models Routes Spec.

(** C3, for dates written as calendar dates. The longest streak is the
    greatest length of a maximal run of calendar-consecutive days among
    the days of the active entries (count > 0) taken in ascending order,
    whatever the order the entries come in: a gap of exactly one day
    continues a run, any other gap starts a new run, and the last run
    counts. On the scenario of the specification it is 3. *)
Theorem longest_streak_is_longest_run (daily_list : list daily) (days : list Z) :
  Forall (fun d => is_iso_date (date d) = true) (active_days_of daily_list) ->
  Permutation days (map date_ordinal (map date (active_days_of daily_list))) ->
  Sorted Z.le days ->
  compute_longest_streak (active_days_of daily_list) = Ok (max_run_length days)
  /\ compute_longest_streak (active_days_of scenario) = Ok 3.
Proof.
  intros I P S. split.
  - rewrite compute_longest_streak_runs by exact I.
    now rewrite (sorted_days_ascending _ days I P S).
  - vm_compute. reflexivity.
Qed.

(** C9, for dates written as calendar dates. When the dates of the
    daily contributions are distinct calendar dates, both streaks are
    computed and the current streak is at most the longest one: the days
    the backward walk counts are consecutive days, hence inside one run. *)
Theorem current_streak_le_longest_streak (daily_list : list daily) (end_d : datetime) :
  NoDup (map date daily_list) ->
  Forall (fun d => is_iso_date (date d) = true) daily_list ->
  365 <= toordinal end_d <= MAXORDINAL ->
  exists longest current,
    compute_longest_streak (active_days_of daily_list) = Ok longest /\
    compute_current_streak (active_days_of daily_list) end_d = Ok current /\
    current <= longest.
Proof.
  intros N I R.
  pose proof (iso_dates_active _ I) as Ia.
  pose proof (NoDup_dates_active _ N) as Na.
  set (active_days := active_days_of daily_list) in *.
  exists (max_run_length (ordinals (PyList.sorted_by String.ltb date active_days))),
         (backward_streak (active_before (map date active_days) end_d)).
  split; [now apply compute_longest_streak_runs|].
  split; [now apply compute_current_streak_walk|].
  set (act := active_before (map date active_days) end_d).
  destruct (backward_streak_active act) as (first & F0 & F1 & F).
  destruct (Z_le_gt_dec (backward_streak act) 0) as [Z0|P].
  { pose proof (max_run_length_nonneg
                  (ordinals (PyList.sorted_by String.ltb date active_days))). lia. }
  apply (max_run_interval _ (toordinal end_d - first - (backward_streak act - 1))).
  - now apply sorted_ordinals.
  - lia.
  - intros j Hj.
    apply (Permutation_in (l := ordinals active_days)).
    { unfold ordinals. do 2 apply Permutation_map. symmetry. apply sorted_by_perm. }
    replace (toordinal end_d - first - (backward_streak act - 1) + j)
      with (toordinal end_d - (first + (backward_streak act - 1 - j))) by lia.
    apply active_before_ordinal; [lia|].
    apply F. lia.
Qed.

End StreakTheorems.

Section ServiceRuns.
Import Datetime Models World Github Routes Spec.

Lemma log_append_nil (w : world) : log_append [] w = w.
Proof. destruct w. unfold log_append. cbn. now rewrite app_nil_r. Qed.

Lemma log_append_app (r1 r2 : list http_request) (w : world) :
  log_append r2 (log_append r1 w) = log_append (r1 ++ r2) w.
Proof. unfold log_append. cbn. now rewrite app_assoc. Qed.

Lemma runs_ret {A} (a : A) : runs_as (ret a) (Ok a) [].
Proof. intros w. unfold ret. now rewrite log_append_nil. Qed.

Lemma runs_raise {A} (e : exn) : runs_as (@raise A e) (Raise e) [].
Proof. intros w. unfold raise. now rewrite log_append_nil. Qed.

Lemma runs_lift {A} (r : result A) : runs_as (lift r) r [].
Proof. intros w. unfold lift. now rewrite log_append_nil. Qed.

Lemma runs_send (req : http_request) : runs_as (send req) (Ok tt) [req].
Proof. intros w. reflexivity. Qed.

Lemma runs_bind {A B} (m : M A) (k : A -> M B) r1 reqs1 :
  runs_as m r1 reqs1 ->
  forall r2 reqs2,
    match r1 with
    | Ok a => runs_as (k a) r2 reqs2
    | Raise e => r2 = Raise e /\ reqs2 = []
    end ->
    runs_as (bind m k) r2 (reqs1 ++ reqs2).
Proof.
  intros H1 r2 reqs2 H2 w. unfold bind. rewrite H1. destruct r1 as [a|e].
  - rewrite H2. now rewrite log_append_app.
  - destruct H2 as [-> ->]. now rewrite app_nil_r.
Qed.

(** A computation that runs whatever the world runs as its outcome and
    its requests on the empty world. *)
Lemma runs_as_canonical {A} (m : M A) r reqs :
  runs_as m r reqs -> r = outcome m /\ reqs = requests m.
Proof.
  intros H. unfold outcome, requests. rewrite H. split; reflexivity.
Qed.

Lemma runs_bind_ex {A B} (m : M A) (k : A -> M B) :
  (exists r reqs, runs_as m r reqs) ->
  (forall a, exists r reqs, runs_as (k a) r reqs) ->
  exists r reqs, runs_as (bind m k) r reqs.
Proof.
  intros (r1 & q1 & H1) Hk. destruct r1 as [a|e].
  - destruct (Hk a) as (r2 & q2 & H2). exists r2, (q1 ++ q2).
    now apply (runs_bind m k (Ok a) q1 H1).
  - exists (Raise e), (q1 ++ []). now apply (runs_bind m k (Raise e) q1 H1).
Qed.

Ltac runs :=
  repeat first
    [ apply runs_bind_ex; [|intros ?]
    | solve [eexists; eexists; apply runs_ret]
    | solve [eexists; eexists; apply runs_raise]
    | solve [eexists; eexists; apply runs_lift]
    | solve [eexists; eexists; apply runs_send]
    | match goal with
      | |- exists _ _, runs_as (if ?c then _ else _) _ _ => destruct c
      | |- exists _ _, runs_as (match ?c with _ => _ end) _ _ => destruct c
      end ].

Variable up : upstream.

Lemma probe_runs (name : string) (token : option string) :
  exists r reqs, runs_as (fetch_user_latest_push_time up name token) r reqs.
Proof. unfold fetch_user_latest_push_time. runs. Qed.

Lemma graphql_runs (name start_date end_date token : string) :
  exists r reqs, runs_as (fetch_with_graphql up name start_date end_date token) r reqs.
Proof. unfold fetch_with_graphql. runs. Qed.

Lemma rest_runs (name start_date end_date : string) :
  exists r reqs, runs_as (fetch_with_rest_api up name start_date end_date) r reqs.
Proof. unfold fetch_with_rest_api. runs. Qed.

Lemma fetch_runs (name start_date end_date : string) (token : option string) :
  exists r reqs,
    runs_as (fetch_user_contributions up name start_date end_date token) r reqs.
Proof.
  unfold fetch_user_contributions. destruct (negb (PyStr.truthy token)).
  - apply rest_runs.
  - apply graphql_runs.
Qed.

End ServiceRuns.

Section RouteRuns.
Import Calendar Datetime Models World Github Routes Spec.

Variable up : upstream.
Variable utcnow : datetime.

Lemma select_stats_run (name : string) (y : Z) (w : world) :
  select_stats name y w = (scalar_one_or_none (rows_of name y w), w).
Proof. reflexivity. Qed.

Lemma rows_of_key (name : string) (y : Z) (w : world) (c : YearbookStats) :
  In c (rows_of name y w) -> username c = name /\ year c = y.
Proof.
  unfold rows_of. intros H. apply filter_In in H as [_ H]. unfold same_key in H.
  apply andb_true_iff in H as [H1 H2].
  apply String.eqb_eq in H1. apply Z.eqb_eq in H2. now split.
Qed.


Lemma resolve_token_stored (name : string) (token : option string) (w : world)
    (st : UserToken) :
  PyStr.truthy token = false ->
  filter (fun t => String.eqb (ut_username t) name && is_valid t) (user_tokens w) = [st] ->
  resolve_token name token w = (Ok (Some (github_token st)), w).
Proof.
  intros T F. unfold resolve_token. rewrite T. cbn [negb].
  unfold bind, select_valid_token. rewrite F. reflexivity.
Qed.


Lemma resolve_token_world (name : string) (token : option string) (w : world) :
  snd (resolve_token name token w) = w.
Proof.
  unfold resolve_token, bind, select_valid_token, ret.
  destruct (negb (PyStr.truthy token)); [|reflexivity].
  destruct (scalar_one_or_none _) as [[st|]|e]; reflexivity.
Qed.

Lemma check_cache_run (name : string) (token : option string) (c : YearbookStats)
    r reqs (w : world) :
  runs_as (fetch_user_latest_push_time up name token) r reqs ->
  check_cache up name token c w = (Ok (served_from_cache r c), log_append reqs w).
Proof.
  intros H. unfold check_cache, try_except, bind. rewrite H.
  destruct r as [[pushed|]|e]; cbn [served_from_cache]; try reflexivity.
  unfold lift. destruct (Datetime.le pushed (updated_at c)) as [[|]|e]; reflexivity.
Qed.

Lemma serve_stats_hit (name : string) (y : Z) (token : option string)
    (c : YearbookStats) r reqs (w : world) :
  rows_of name y w = [c] ->
  runs_as (fetch_user_latest_push_time up name token) r reqs ->
  serve_stats up utcnow name y token w =
  if served_from_cache r c
  then (Ok (mkStatsResponse c true), log_append reqs w)
  else fetch_and_store up utcnow name y token (invalidated name y reqs w).
Proof.
  intros R H. unfold serve_stats, bind at 1. rewrite select_stats_run, R.
  cbn [scalar_one_or_none]. unfold bind at 1. rewrite (check_cache_run _ _ _ _ _ _ H).
  destruct (served_from_cache r c); [reflexivity|].
  unfold bind, delete_stats. cbn [log_append http_log yearbook_stats user_tokens].
  destruct (rows_of_key name y w c) as [-> ->]; [rewrite R; now left|]. reflexivity.
Qed.

Lemma serve_stats_miss (name : string) (y : Z) (token : option string) (w : world) :
  rows_of name y w = [] ->
  serve_stats up utcnow name y token w = fetch_and_store up utcnow name y token w.
Proof.
  intros R. unfold serve_stats, bind at 1. rewrite select_stats_run, R. reflexivity.
Qed.

Lemma fetch_and_store_run (name : string) (y : Z) (token : option string)
    r reqs (w : world) :
  runs_as (fetch_user_contributions up name
             (PyStr.of_int y ++ "-01-01") (PyStr.of_int y ++ "-12-31") token) r reqs ->
  fetch_and_store up utcnow name y token w =
  match r with
  | Raise e => (Raise (HTTPException 400 e), log_append reqs w)
  | Ok data =>
      match build_stats utcnow name y data with
      | Ok stats =>
          (Ok (mkStatsResponse stats false),
           mkWorld (http_log w ++ reqs) (yearbook_stats w ++ [stats]) (user_tokens w))
      | Raise e => (Raise e, log_append reqs w)
      end
  end.
Proof.
  intros H. unfold fetch_and_store, bind at 1, try_except. rewrite H.
  destruct r as [data|e]; [|reflexivity].
  unfold bind, lift. destruct (build_stats utcnow name y data); reflexivity.
Qed.

Lemma rows_of_without (name : string) (y : Z) (reqs : list http_request) (w : world) :
  rows_of name y (invalidated name y reqs w) = [].
Proof.
  unfold rows_of, invalidated, without_key. cbn [yearbook_stats].
  induction (yearbook_stats w) as [|r l IH]; [reflexivity|].
  cbn [filter]. destruct (same_key name y r) eqn:E; cbn [negb filter]; [exact IH|].
  now rewrite E.
Qed.

Lemma without_key_none (name : string) (y : Z) (rows : list YearbookStats) :
  filter (same_key name y) rows = [] -> without_key name y rows = rows.
Proof.
  unfold without_key. induction rows as [|r l IH]; [reflexivity|].
  cbn [filter]. destruct (same_key name y r); [discriminate|].
  intros H. cbn [negb]. now rewrite IH.
Qed.

Lemma build_stats_key (name : string) (y : Z) (data : contributions) (stats : YearbookStats) :
  build_stats utcnow name y data = Ok stats -> username stats = name /\ year stats = y.
Proof.
  unfold build_stats. 
  destruct (compute_longest_streak _); [|discriminate]. cbn [rbind].
  destruct (Datetime.make y 12 31); [|discriminate]. cbn [rbind].
  destruct (compute_current_streak _ _); [|discriminate]. cbn [rbind].
  intros E. injection E as <-. now split.
Qed.

End RouteRuns.

Ltac case_matches :=
  repeat match goal with
         | |- context [match ?x with _ => _ end] => destruct x; cbn
         end.

Section ServiceRequests.
Import Calendar Datetime Models World Github Routes Spec.

Variable up : upstream.

Lemma runs_as_fst {A} (m : M A) r reqs (w : world) : runs_as m r reqs -> fst (m w) = r.
Proof. intros H. now rewrite H. Qed.

(** The probe sends one request, with the token when there is one. *)
Lemma probe_requests (name : string) (token : option string) r reqs :
  runs_as (fetch_user_latest_push_time up name token) r reqs ->
  reqs = [if PyStr.truthy token
          then PostGraphql (default ""%string token) LatestPushQuery
          else GetPublicEvents name 1].
Proof.
  intros H. apply runs_as_canonical in H as [_ ->].
  unfold requests, fetch_user_latest_push_time.
  destruct (PyStr.truthy token); unfold bind, send, lift, ret; cbn; case_matches; reflexivity.
Qed.

(** What the probe returns is a naive time. *)
Lemma probe_naive (name : string) (token : option string) t reqs :
  runs_as (fetch_user_latest_push_time up name token) (Ok (Some t)) reqs ->
  utcoffset t = None.
Proof.
  intros H. apply runs_as_canonical in H as [H _]. revert H.
  unfold outcome, fetch_user_latest_push_time.
  destruct (PyStr.truthy token); unfold bind, send, lift, ret; cbn; case_matches;
    intros H; try discriminate; injection H as ->; reflexivity.
Qed.

(** The full fetch sends at most one request: the yearbook query under
    the token, or the public events of the user. *)
Lemma fetch_requests (name start_date end_date : string) (token : option string) r reqs :
  runs_as (fetch_user_contributions up name start_date end_date token) r reqs ->
  if PyStr.truthy token
  then reqs = [] \/
       exists from to, reqs = [PostGraphql (default ""%string token) (YearbookQuery from to)]
  else reqs = [GetPublicEvents name 100].
Proof.
  intros H. apply runs_as_canonical in H as [_ ->].
  unfold requests, fetch_user_contributions.
  destruct (PyStr.truthy token); cbn [negb].
  - unfold fetch_with_graphql, bind, send, lift, ret. cbn.
    destruct (fromisoformat start_date); cbn; [|now left].
    destruct (fromisoformat end_date); cbn; [|now left].
    right. eexists. eexists. case_matches; reflexivity.
  - unfold fetch_with_rest_api, bind, send, lift, ret, raise. cbn. case_matches; reflexivity.
Qed.

End ServiceRequests.

Section CacheTheorems.
Import Calendar Datetime Models World Github Routes Spec.

Variable up : upstream.
Variable utcnow : datetime.

Lemma le_naive (a b : datetime) :
  utcoffset a = None -> utcoffset b = None ->
  Datetime.le a b = Ok (total_us a <=? total_us b).
Proof. intros Ha Hb. unfold Datetime.le. now rewrite Ha, Hb. Qed.

Lemma get_yearbook_stats_resolved (name : string) (y : Z) (token tok : option string)
    (w : world) :
  fst (resolve_token name token w) = Ok tok ->
  get_yearbook_stats up utcnow name y token w = serve_stats up utcnow name y tok w.
Proof.
  intros H. unfold get_yearbook_stats, bind.
  pose proof (resolve_token_world name token w) as W.
  destruct (resolve_token name token w) as [r w']. cbn in H, W. now subst.
Qed.

Lemma fetch_and_store_ok (name : string) (y : Z) (token : option string) (w w' : world)
    (r : stats_response) :
  fetch_and_store up utcnow name y token w = (Ok r, w') ->
  cached r = false /\
  username (body r) = name /\ year (body r) = y /\
  yearbook_stats w' = yearbook_stats w ++ [body r] /\
  user_tokens w' = user_tokens w.
Proof.
  destruct (fetch_runs up name (PyStr.of_int y ++ "-01-01") (PyStr.of_int y ++ "-12-31") token)
    as (res & reqs & H).
  rewrite (fetch_and_store_run up utcnow name y token res reqs w H).
  destruct res as [data|e]; [|discriminate].
  destruct (build_stats utcnow name y data) as [stats|e] eqn:B; [|discriminate].
  intros E. injection E as <- <-. cbn.
  destruct (build_stats_key utcnow name y data stats B) as [-> ->]. repeat split.
Qed.

(** C6. When the upstream fetch fails, on a plain miss or after a stale
    record has been deleted, the request fails with the upstream error
    (as an HTTP 400), nothing is stored for the key and the deleted record
    is not put back: the key is absent afterwards, and a later request
    goes straight to the fetch again. *)
Theorem fetch_failure_leaves_key_absent
    (name : string) (y : Z) (token tok : option string) (w : world) (e : exn) :
  fst (resolve_token name token w) = Ok tok ->
  (rows_of name y w = [] \/
   exists c t1,
     rows_of name y w = [c] /\
     fst (fetch_user_latest_push_time up name tok w) = Ok (Some t1) /\
     Datetime.le t1 (updated_at c) = Ok false) ->
  fst (fetch_user_contributions up name
         (PyStr.of_int y ++ "-01-01") (PyStr.of_int y ++ "-12-31") tok w) = Raise e ->
  let out := get_yearbook_stats up utcnow name y token w in
  fst out = Raise (HTTPException 400 e) /\
  rows_of name y (snd out) = [] /\
  yearbook_stats (snd out) = without_key name y (yearbook_stats w) /\
  (forall token',
     serve_stats up utcnow name y token' (snd out) =
     fetch_and_store up utcnow name y token' (snd out)).
Proof.
  intros T C F out.
  assert (fst out = Raise (HTTPException 400 e) /\
          rows_of name y (snd out) = [] /\
          yearbook_stats (snd out) = without_key name y (yearbook_stats w)) as K;
    [|destruct K as (K1 & K2 & K3); repeat split; try assumption;
      intros token'; now apply serve_stats_miss].
  unfold out.
  rewrite (get_yearbook_stats_resolved name y token tok w T).
  destruct (fetch_runs up name (PyStr.of_int y ++ "-01-01") (PyStr.of_int y ++ "-12-31") tok)
    as (res & freqs & HF).
  rewrite (runs_as_fst _ _ _ w HF) in F. subst res.
  destruct C as [R|(c & t1 & R & P & L)].
  - rewrite (serve_stats_miss up utcnow name y tok w R).
    rewrite (fetch_and_store_run up utcnow name y tok _ _ w HF).
    cbn [fst snd]. split; [reflexivity|]. split; [exact R|].
    cbn [log_append yearbook_stats]. symmetry. now apply without_key_none.
  - destruct (probe_runs up name tok) as (res & reqs & H).
    rewrite (runs_as_fst _ _ _ w H) in P. subst res.
    rewrite (serve_stats_hit up utcnow name y tok c _ _ w R H).
    cbn [served_from_cache]. rewrite L.
    rewrite (fetch_and_store_run up utcnow name y tok _ _ _ HF).
    cbn [fst snd]. split; [reflexivity|]. split.
    + apply (rows_of_without name y (reqs ++ freqs) w).
    + reflexivity.
Qed.

End CacheTheorems.

Section TokenTheorems.
Import Calendar Datetime Models World Github Routes Spec.

Variable up : upstream.
Variable utcnow : datetime.






End TokenTheorems.

Section DictFacts.
Context {V : Type}.

Lemma dict_set_keys (k : string) (v : V) (d : PyDict.dict V) :
  PyDict.keys (PyDict.set k v d) =
  match PyDict.get k d with
  | Some _ => PyDict.keys d
  | None => PyDict.keys d ++ [k]
  end.
Proof.
  unfold PyDict.keys. induction d as [|[k' v'] d IH]; [reflexivity|].
  cbn [PyDict.set PyDict.get]. destruct (String.eqb k k'); [reflexivity|].
  cbn [map fst]. rewrite IH. now destruct (PyDict.get k d).
Qed.

Lemma dict_get_none (k : string) (d : PyDict.dict V) :
  PyDict.get k d = None <-> ~ In k (PyDict.keys d).
Proof.
  unfold PyDict.keys. induction d as [|[k' v'] d IH]; cbn [PyDict.get map fst In]; [tauto|].
  destruct (String.eqb_spec k k') as [->|N].
  - split; [discriminate|]. intros H. exfalso. apply H. now left.
  - rewrite IH. split; [intros H [E|I]; [congruence|tauto]|tauto].
Qed.

Lemma dict_set_NoDup (k : string) (v : V) (d : PyDict.dict V) :
  NoDup (PyDict.keys d) -> NoDup (PyDict.keys (PyDict.set k v d)).
Proof.
  intros N. rewrite dict_set_keys. destruct (PyDict.get k d) eqn:G; [exact N|].
  apply dict_get_none in G.
  apply (Permutation_NoDup (l := k :: PyDict.keys d)).
  - apply Permutation_cons_append.
  - now constructor.
Qed.

End DictFacts.

Section RestFacts.
Import Calendar Datetime Models World Github Routes Spec.

Lemma push_step_NoDup (start end_ : datetime) maps (e : event) maps' :
  push_step start end_ maps e = Ok maps' ->
  NoDup (PyDict.keys (fst maps)) -> NoDup (PyDict.keys (fst maps')).
Proof.
  unfold push_step. destruct (negb (is_push_event e)).
  { intros E. now injection E as <-. }
  destruct (in_range start end_ (ev_created_at e)) as [inside|x]; [|discriminate].
  cbn [rbind]. destruct (negb inside).
  { intros E. now injection E as <-. }
  destruct (PyStr.index _ 1) as [repo_name|x]; [|discriminate]. cbn [rbind].
  destruct maps as [daily_map repo_map]. intros E. injection E as <-. cbn [fst].
  apply dict_set_NoDup.
Qed.

Lemma push_loop_NoDup (start end_ : datetime) (events : list event) :
  forall maps maps',
    push_loop start end_ maps events = Ok maps' ->
    NoDup (PyDict.keys (fst maps)) -> NoDup (PyDict.keys (fst maps')).
Proof.
  induction events as [|e events IH]; intros maps maps'; cbn [push_loop].
  - intros E. now injection E as <-.
  - destruct (push_step start end_ maps e) as [m1|x] eqn:S; [|discriminate]. cbn [rbind].
    intros L N. apply (IH m1 maps' L). exact (push_step_NoDup _ _ _ _ _ S N).
Qed.

Lemma item_lt_asym (a b : string * Z) :
  PyList.item_lt a b = true -> PyList.item_lt b a = false.
Proof.
  unfold PyList.item_lt. rewrite (String.compare_antisym (fst b) (fst a)).
  destruct (String.compare (fst a) (fst b)); cbn [CompOpp]; try congruence.
  rewrite !Z.ltb_lt, Z.ltb_ge. lia.
Qed.

Lemma item_order_keys (a b : string * Z) :
  fst a <> fst b -> PyList.item_lt b a = false -> String.ltb (fst a) (fst b) = true.
Proof.
  unfold PyList.item_lt, String.ltb. rewrite (String.compare_antisym (fst b) (fst a)).
  intros N. destruct (String.compare (fst a) (fst b)) eqn:C; cbn [CompOpp]; try congruence.
  apply String.compare_eq_iff in C. contradiction.
Qed.

Lemma sorted_items_increasing (l : list (string * Z)) :
  Sorted (PyList.in_order (fun x y => PyList.item_lt y x)) l ->
  NoDup (map fst l) ->
  strictly_increasing (map fst l) = true.
Proof.
  induction 1 as [|a l S IH H]; [reflexivity|].
  cbn [map]. intros N. inversion N as [|? ? Na Nl]; subst.
  destruct H as [|b l H]; [reflexivity|].
  cbn [map strictly_increasing] in *. rewrite (IH Nl), andb_true_r.
  apply item_order_keys; [|exact H].
  intros E. apply Na. rewrite E. now left.
Qed.

(** The daily contributions of the REST path go up strictly by date. *)
Lemma process_events_increasing (name s e : string) (events : list event)
    (d : contributions) :
  process_events name s e events = Ok d ->
  exists l, k_dailyContributions d = Some l /\ strictly_increasing (map date l) = true.
Proof.
  unfold process_events.
  destruct (fromisoformat s) as [start|x]; [|discriminate]. cbn [rbind].
  destruct (fromisoformat (e ++ "T23:59:59")) as [end_|x]; [|discriminate]. cbn [rbind].
  destruct (push_loop start end_ ([], []) events) as [[daily_map repo_map]|x] eqn:L;
    [|discriminate].
  cbn [rbind]. intros E. injection E as <-. cbn [k_dailyContributions].
  eexists. split; [reflexivity|].
  rewrite map_map. cbn [date].
  change (map (fun x : string * Z => fst x)) with (@map (string * Z) string fst).
  apply sorted_items_increasing.
  - apply sort_sorted. intros a b. apply item_lt_asym.
  - eapply Permutation_NoDup.
    + apply Permutation_map. symmetry. apply sort_perm.
    + apply (push_loop_NoDup _ _ _ _ _ L). constructor.
Qed.

Lemma push_loop_nothing (start end_ : datetime) (events : list event) maps :
  Forall (no_push_in_range start end_) events ->
  push_loop start end_ maps events = Ok maps.
Proof.
  induction 1 as [|ev events H _ IH]; [reflexivity|].
  cbn [push_loop]. unfold push_step.
  destruct H as [H|H]; rewrite H; cbn; [|destruct (negb (is_push_event ev))]; exact IH.
Qed.

End RestFacts.

Section FetchTheorems.
Import Calendar Datetime Models World Github Routes Spec.

Variable up : upstream.

Lemma rest_run (name s e : string) (w : world) :
  fetch_with_rest_api up name s e w =
  (match events_answer up name 100 with
   | Ok resp =>
       if status_code resp =? 404
       then Raise (Exception ("User '" ++ name ++ "' not found"))
       else rbind (json resp) (process_events name s e)
   | Raise x => Raise x
   end,
   log_append [GetPublicEvents name 100] w).
Proof.
  unfold fetch_with_rest_api, bind, send, lift, raise. cbn.
  destruct (events_answer up name 100) as [resp|x]; [|reflexivity].
  destruct (status_code resp =? 404); [reflexivity|].
  destruct (json resp); reflexivity.
Qed.

Lemma graphql_ok_inv (name s e tok : string) (w w' : world) (d : contributions) :
  fetch_with_graphql up name s e tok w = (Ok d, w') ->
  exists from to resp answer,
    fromisoformat s = Ok from /\ fromisoformat e = Ok to /\
    yearbook_answer up tok from to = Ok resp /\ json resp = Ok answer /\
    process_graphql answer = Ok d /\
    w' = log_append [PostGraphql tok (YearbookQuery from to)] w.
Proof.
  unfold fetch_with_graphql, bind, send, lift. cbn.
  destruct (fromisoformat s) as [from|x] eqn:Ps; [|discriminate].
  destruct (fromisoformat e) as [to|x] eqn:Pe; [|discriminate].
  destruct (yearbook_answer up tok from to) as [resp|x] eqn:A; [|discriminate].
  destruct (json resp) as [answer|x] eqn:J; [|discriminate].
  destruct (process_graphql answer) as [d'|x] eqn:P; [|discriminate].
  intros E. injection E as <- <-. exists from, to, resp, answer. repeat split; assumption.
Qed.

Lemma process_events_shape (name s e : string) (events : list event) (d : contributions) :
  process_events name s e events = Ok d ->
  k_pullRequests d = Some 0 /\ k_pullRequestReviews d = Some 0 /\ k_issues d = Some 0 /\
  k_languageStats d = Some [] /\ k_organizations d = Some [].
Proof.
  unfold process_events.
  destruct (fromisoformat s); [|discriminate]. cbn [rbind].
  destruct (fromisoformat (e ++ "T23:59:59")); [|discriminate]. cbn [rbind].
  destruct (push_loop _ _ _ _) as [[daily_map repo_map]|]; [|discriminate]. cbn [rbind].
  intros E. injection E as <-. repeat split.
Qed.

(** C5. A fetch without credential, when it returns, reports 0 pull
    requests, 0 reviews, 0 issues and empty language statistics and
    organizations, all of them present in the dictionary. For a subject
    with no public push event in the range it returns, with 0 commits and
    empty daily and repository contributions. *)
Theorem unauthenticated_fetch_reports_zero
    (name s e : string) (token : option string) (w : world) :
  PyStr.truthy token = false ->
  (forall d w',
     fetch_user_contributions up name s e token w = (Ok d, w') ->
     k_pullRequests d = Some 0 /\ k_pullRequestReviews d = Some 0 /\
     k_issues d = Some 0 /\ k_languageStats d = Some [] /\ k_organizations d = Some [])
  /\
  (forall resp events start end_,
     events_answer up name 100 = Ok resp ->
     status_code resp <> 404 ->
     json resp = Ok events ->
     fromisoformat s = Ok start ->
     fromisoformat (e ++ "T23:59:59") = Ok end_ ->
     Forall (fun ev => is_push_event ev = false \/
                       in_range start end_ (ev_created_at ev) = Ok false) events ->
     exists d w',
       fetch_user_contributions up name s e token w = (Ok d, w') /\
       k_totalCommits d = Some 0 /\ k_totalContributions d = Some 0 /\
       k_dailyContributions d = Some [] /\ k_repositoryContributions d = Some [] /\
       k_pullRequests d = Some 0 /\ k_pullRequestReviews d = Some 0 /\
       k_issues d = Some 0 /\ k_languageStats d = Some [] /\ k_organizations d = Some []).
Proof.
  intros T. unfold fetch_user_contributions. rewrite T. cbn [negb]. split.
  - intros d w'. rewrite rest_run. intros E. injection E as E _.
    destruct (events_answer up name 100) as [resp|x]; [|discriminate].
    destruct (status_code resp =? 404); [discriminate|].
    destruct (json resp) as [events|x]; [|discriminate]. cbn [rbind] in E.
    exact (process_events_shape _ _ _ _ _ E).
  - intros resp events start end_ A S J Ps Pe F.
    rewrite rest_run, A. apply Z.eqb_neq in S. rewrite S, J. cbn [rbind].
    unfold process_events. rewrite Ps, Pe. cbn [rbind].
    rewrite (push_loop_nothing start end_ events ([], []) F). cbn [rbind].
    eexists. eexists. split; [reflexivity|]. repeat split.
Qed.

Lemma flatten_calendar_dates (calendar : option contribution_calendar) :
  map date (flatten_calendar calendar) =
  flat_map (fun w => map cd_date (default [] (contributionDays w)))
    (default [] (match calendar with Some c => cal_weeks c | None => None end)).
Proof.
  unfold flatten_calendar.
  induction (default [] (match calendar with Some c => cal_weeks c | None => None end))
    as [|wk l IH]; [reflexivity|].
  cbn [flat_map]. rewrite map_app, IH, map_map. reflexivity.
Qed.

Lemma process_graphql_daily (answer : graphql_result) (d : contributions) :
  process_graphql answer = Ok d ->
  exists l, k_dailyContributions d = Some l /\ map date l = calendar_dates answer.
Proof.
  unfold process_graphql. destruct (gr_errors answer) as [errors|].
  - destruct (PyStr.index errors 0); discriminate.
  - intros E. injection E as <-. cbn [k_dailyContributions].
    eexists. split; [reflexivity|]. apply flatten_calendar_dates.
Qed.

(** C7, as the code has it. Without credential the daily contributions
    of every returned record go up strictly by date, whatever the upstream
    sends. With a credential they are the days of the upstream calendar in
    the order the upstream gives them, so that they go up strictly by date
    exactly when the upstream calendar does. *)
Theorem daily_contributions_order (name s e : string) (w w' : world) (d : contributions) :
  (fetch_with_rest_api up name s e w = (Ok d, w') ->
   exists l, k_dailyContributions d = Some l /\ strictly_increasing (map date l) = true)
  /\
  (forall tok,
     fetch_with_graphql up name s e tok w = (Ok d, w') ->
     exists from to resp answer l,
       yearbook_answer up tok from to = Ok resp /\ json resp = Ok answer /\
       k_dailyContributions d = Some l /\
       map date l = calendar_dates answer /\
       strictly_increasing (map date l) = strictly_increasing (calendar_dates answer)).
Proof.
  split.
  - rewrite rest_run. intros E. injection E as E _.
    destruct (events_answer up name 100) as [resp|x]; [|discriminate].
    destruct (status_code resp =? 404); [discriminate|].
    destruct (json resp) as [events|x]; [|discriminate]. cbn [rbind] in E.
    exact (process_events_increasing _ _ _ _ _ E).
  - intros tok H.
    destruct (graphql_ok_inv _ _ _ _ _ _ _ H) as (from & to & resp & answer & _ & _ & A & J & P & _).
    destruct (process_graphql_daily _ _ P) as (l & K & M).
    exists from, to, resp, answer, l. repeat split; try assumption. now rewrite M.
Qed.

Lemma organizations_copied (orgs : list organization) :
  map (fun org => mkOrganization (org_login org) (org_avatarUrl org)) orgs = orgs.
Proof.
  induction orgs as [|[l a] orgs IH]; cbn [map org_login org_avatarUrl];
    [reflexivity|f_equal; exact IH].
Qed.

(** C8. With a credential the fetch sends the yearbook query about the
    viewer under the bearer token and nothing that names the requested
    subject: the record is built from the answer about the owner of the
    token, its [username] is the viewer's login, and the same record comes
    back whatever subject is asked for. *)
Theorem authenticated_fetch_is_about_the_viewer
    (name s e tok : string) (w w' : world) (d : contributions) :
  fetch_with_graphql up name s e tok w = (Ok d, w') ->
  (exists from to resp answer,
     http_log w' = http_log w ++ [PostGraphql tok (YearbookQuery from to)] /\
     yearbook_answer up tok from to = Ok resp /\ json resp = Ok answer /\
     process_graphql answer = Ok d /\
     let viewer := default empty_viewer (gr_viewer answer) in
     k_username d = Some (v_login viewer) /\
     k_avatarUrl d = Some (v_avatarUrl viewer) /\
     k_bio d = Some (v_bio viewer) /\
     k_company d = Some (v_company viewer) /\
     k_location d = Some (v_location viewer) /\
     k_organizations d = Some (default [] (v_organizations viewer)))
  /\
  (forall other, fetch_with_graphql up other s e tok w = (Ok d, w'))
  /\
  (tok <> ""%string ->
   forall other, fetch_user_contributions up other s e (Some tok) w = (Ok d, w')).
Proof.
  intros H. split; [|split].
  - destruct (graphql_ok_inv _ _ _ _ _ _ _ H) as (from & to & resp & answer & _ & _ & A & J & P & W).
    exists from, to, resp, answer. subst w'.
    split; [reflexivity|]. split; [exact A|]. split; [exact J|]. split; [exact P|].
    revert P. unfold process_graphql. destruct (gr_errors answer) as [errors|].
    { destruct (PyStr.index errors 0); discriminate. }
    intros E. injection E as <-. cbn.
    repeat split.
    f_equal. apply organizations_copied.
  - intros other. exact H.
  - intros NE other. unfold fetch_user_contributions. cbn [PyStr.truthy default].
    apply String.eqb_neq in NE. rewrite NE. cbn [negb]. exact H.
Qed.

End FetchTheorems.

Section DictValues.
Context {V : Type}.

Lemma dict_get_set (k k' : string) (v : V) (d : PyDict.dict V) :
  PyDict.get k' (PyDict.set k v d) = if String.eqb k' k then Some v else PyDict.get k' d.
Proof.
  induction d as [|[k0 v0] d IH]; cbn [PyDict.set PyDict.get].
  - reflexivity.
  - destruct (String.eqb_spec k k0) as [->|N]; cbn [PyDict.get].
    + destruct (String.eqb k' k0); reflexivity.
    + rewrite IH. destruct (String.eqb_spec k' k0) as [->|N']; [|reflexivity].
      destruct (String.eqb_spec k0 k); [congruence|reflexivity].
Qed.

Lemma dict_in_get (k : string) (v : V) (d : PyDict.dict V) :
  NoDup (PyDict.keys d) -> In (k, v) d -> PyDict.get k d = Some v.
Proof.
  unfold PyDict.keys. induction d as [|[k0 v0] d IH]; [intros _ []|].
  cbn [map fst PyDict.get]. intros N [E|I].
  - injection E as -> ->. now rewrite String.eqb_refl.
  - inversion N as [|? ? Nk Nd]; subst.
    destruct (String.eqb_spec k k0) as [->|_]; [|now apply IH].
    exfalso. apply Nk. apply in_map_iff. now exists (k0, v).
Qed.

Lemma dict_get_in (k : string) (v : V) (d : PyDict.dict V) :
  PyDict.get k d = Some v -> In (k, v) d.
Proof.
  induction d as [|[k0 v0] d IH]; [discriminate|].
  cbn [PyDict.get]. destruct (String.eqb_spec k k0) as [->|_].
  - intros E. injection E as ->. now left.
  - intros G. right. now apply IH.
Qed.

Lemma dict_set_sum (f : V -> Z) (k : string) (v : V) (d : PyDict.dict V) :
  fold_right Z.add 0 (map f (PyDict.values (PyDict.set k v d))) =
  fold_right Z.add 0 (map f (PyDict.values d)) + f v
  - match PyDict.get k d with Some old => f old | None => 0 end.
Proof.
  unfold PyDict.values. induction d as [|[k0 v0] d IH]; cbn [PyDict.set PyDict.get].
  - cbn. lia.
  - destruct (String.eqb k k0); cbn [map snd fold_right]; [lia|].
    rewrite IH. lia.
Qed.

End DictValues.

Section LanguageFacts.
Import Datetime Models World Github Routes Spec.

Lemma accumulated_size_snoc (k : string) (seen : list language_edge) (e : language_edge) :
  accumulated_size k (seen ++ [e]) =
  accumulated_size k seen + (if String.eqb (edge_name e) k then le_size e else 0).
Proof.
  unfold accumulated_size. rewrite filter_app, map_app, fold_right_app. cbn [filter].
  fold (edge_name e). 
  assert (forall a l, fold_right Z.add a l = fold_right Z.add 0 l + a) as F.
  { intros a l. induction l as [|x l IH]; cbn [fold_right]; lia. }
  rewrite F. destruct (String.eqb (edge_name e) k); cbn; lia.
Qed.

Lemma total_bytes_snoc (seen : list language_edge) (e : language_edge) :
  total_bytes (seen ++ [e]) = total_bytes seen + le_size e.
Proof.
  unfold total_bytes. rewrite map_app, fold_right_app. cbn.
  induction (map le_size seen) as [|x l IH]; cbn [fold_right]; lia.
Qed.

Lemma accumulated_size_absent (k : string) (seen : list language_edge) :
  (forall e, In e seen -> edge_name e <> k) -> accumulated_size k seen = 0.
Proof.
  unfold accumulated_size. induction seen as [|e seen IH]; intros H; [reflexivity|].
  cbn [filter]. fold (edge_name e).
  destruct (String.eqb_spec (edge_name e) k) as [E|_].
  - exfalso. apply (H e); [now left|exact E].
  - apply IH. intros e' I. apply H. now right.
Qed.

Lemma add_edge_inv (seen : list language_edge) lang_map (e : language_edge) :
  lang_inv seen lang_map -> lang_inv (seen ++ [e]) (add_edge lang_map e).
Proof.
  intros (N & G & C & S). unfold add_edge. fold (edge_name e).
  set (k := edge_name e).
  set (cur := match PyDict.get k lang_map with
              | Some l => l
              | None => mkLangEntry k (default "#8b949e"%string (ln_color (le_node e))) 0 0
              end).
  assert (la_name cur = k /\ la_size cur = accumulated_size k seen) as [Cn Cs].
  { unfold cur. destruct (PyDict.get k lang_map) as [l|] eqn:E; [now apply G|].
    split; [reflexivity|]. cbn [la_size]. symmetry. apply accumulated_size_absent.
    intros e' I E'. apply dict_get_none in E. apply E. rewrite <- E'. now apply C. }
  repeat split.
  - now apply dict_set_NoDup.
  - rewrite dict_get_set in H. destruct (String.eqb_spec k0 k) as [->|_].
    + injection H as <-. exact Cn.
    + now apply G.
  - rewrite dict_get_set in H. rewrite accumulated_size_snoc. fold k.
    destruct (String.eqb_spec k0 k) as [->|NE].
    + injection H as <-. cbn [la_size]. rewrite String.eqb_refl. lia.
    + destruct (String.eqb_spec k k0); [congruence|]. rewrite Z.add_0_r. now apply G.
  - intros e' I. rewrite dict_set_keys. apply in_app_or in I as [I|[<-|[]]].
    + specialize (C e' I). destruct (PyDict.get k lang_map); [exact C|].
      apply in_or_app. now left.
    + fold k. destruct (PyDict.get k lang_map) eqn:E.
      * apply dict_get_in in E. apply in_map_iff. now exists (k, l).
      * apply in_or_app. right. now left.
  - rewrite dict_set_sum, S, total_bytes_snoc. cbn [la_size].
    unfold cur. destruct (PyDict.get k lang_map) as [l|]; cbn [la_size]; lia.
Qed.

Lemma fold_add_edge_inv (edges : list language_edge) :
  forall seen lang_map,
    lang_inv seen lang_map -> lang_inv (seen ++ edges) (fold_left add_edge edges lang_map).
Proof.
  induction edges as [|e edges IH]; intros seen lang_map I; cbn [fold_left].
  - now rewrite app_nil_r.
  - replace (seen ++ e :: edges) with ((seen ++ [e]) ++ edges) by (now rewrite <- app_assoc).
    apply IH. now apply add_edge_inv.
Qed.

Lemma build_lang_map_edges (repos : list repository) :
  build_lang_map repos = fold_left add_edge (all_edges repos) [].
Proof.
  unfold build_lang_map, all_edges. generalize (@nil (string * lang_entry)) as lm.
  induction repos as [|r repos IH]; intros lm; cbn [fold_left flat_map]; [reflexivity|].
  now rewrite fold_left_app, IH.
Qed.

Lemma build_lang_map_inv (repos : list repository) :
  lang_inv (all_edges repos) (build_lang_map repos).
Proof.
  rewrite build_lang_map_edges. apply (fold_add_edge_inv (all_edges repos) [] []).
  repeat split; try constructor; try discriminate. intros e [].
Qed.

End LanguageFacts.

Section Percentages.
Import Datetime Models World Github Routes Spec.

Lemma sum_fold_right (l : list Z) : PyList.sum l = fold_right Z.add 0 l.
Proof.
  unfold PyList.sum. apply fold_symmetric; intros; lia.
Qed.

Lemma Qsum_perm (l l' : list Q) : Permutation l l' -> (Qsum l == Qsum l')%Q.
Proof.
  unfold Qsum. induction 1; cbn [fold_right].
  - reflexivity.
  - now rewrite IHPermutation.
  - ring.
  - now rewrite IHPermutation1.
Qed.

Lemma Qsum_percentages (total : Z) (sizes : list Z) :
  total <> 0 ->
  (Qsum (map (fun s => percentage_of s total) sizes) ==
   inject_Z (fold_right Z.add 0%Z sizes) / inject_Z total * inject_Z 100)%Q.
Proof.
  intros T. assert (~ Qeq (inject_Z total) (inject_Z 0)) as T'.
  { unfold Qeq. cbn. lia. }
  unfold Qsum, percentage_of. induction sizes as [|s sizes IH]; cbn [map fold_right].
  - field. exact T'.
  - rewrite IH, inject_Z_plus. field. exact T'.
Qed.

Lemma total_size_of_nonzero (lang_map : PyDict.dict lang_entry) : total_size_of lang_map <> 0.
Proof.
  unfold total_size_of. destruct (Z.eqb_spec (PyList.sum (map la_size (PyDict.values lang_map))) 0); lia.
Qed.

Lemma descending_sorted (l : list language_stat) :
  Sorted (PyList.in_order (fun x y => Z.ltb (ls_size x) (ls_size y))) l ->
  descending (map ls_size l) = true.
Proof.
  induction 1 as [|a l S IH H]; [reflexivity|].
  destruct H as [|b l H]; [reflexivity|].
  cbn [map descending] in *. rewrite IH, andb_true_r.
  unfold PyList.in_order in H. apply Z.leb_le. apply Z.ltb_ge in H. exact H.
Qed.

Lemma accumulated_size_bounds (k : string) (edges : list language_edge) :
  Forall (fun e => 0 <= le_size e) edges ->
  0 <= accumulated_size k edges <= total_bytes edges.
Proof.
  unfold accumulated_size, total_bytes. induction 1 as [|e edges He _ IH]; cbn [filter map fold_right].
  - lia.
  - destruct (String.eqb _ k); cbn [map fold_right]; lia.
Qed.

Lemma language_stats_of_spec (repos : list repository) :
  let edges := all_edges repos in
  let total := total_bytes edges in
  let stats := language_stats_of (build_lang_map repos) in
  NoDup (map ls_name stats) /\
  (forall st, In st stats -> ls_size st = accumulated_size (ls_name st) edges) /\
  (forall e, In e edges -> In (ln_name (le_node e)) (map ls_name stats)) /\
  divisor total <> 0 /\
  (forall st, In st stats ->
     ls_percentage st = (inject_Z (ls_size st) / inject_Z (divisor total) * inject_Z 100)%Q) /\
  (0 < total -> (Qsum (map ls_percentage stats) == inject_Z 100)%Q) /\
  (Forall (fun e => 0 <= le_size e) edges -> total = 0 ->
     forall st, In st stats -> (ls_percentage st == inject_Z 0)%Q) /\
  descending (map ls_size stats) = true.
Proof.
  intros edges total stats.
  destruct (build_lang_map_inv repos) as (N & G & C & S). fold edges in G, C, S.
  set (lang_map := build_lang_map repos) in *.
  assert (total_size_of lang_map = divisor total) as D.
  { unfold total_size_of, divisor. now rewrite sum_fold_right, S. }
  set (mk := fun l => mkLanguageStat (la_name l) (la_color l) (la_size l) (la_repoCount l)
                        (percentage_of (la_size l) (total_size_of lang_map))).
  assert (Permutation stats (map mk (PyDict.values lang_map))) as P.
  { unfold stats, language_stats_of, PyList.sorted_by_rev. apply sort_perm. }
  assert (forall l, In l (PyDict.values lang_map) ->
                    la_size l = accumulated_size (la_name l) edges /\
                    In (la_name l, l) lang_map) as V.
  { intros l I. unfold PyDict.values in I. apply in_map_iff in I as ([k l'] & E & I).
    cbn in E. subst l'. destruct (G k l (dict_in_get k l lang_map N I)) as [Hn Hs].
    rewrite Hn. split; [exact Hs|exact I]. }
  assert (map ls_name (map mk (PyDict.values lang_map)) = PyDict.keys lang_map) as K.
  { rewrite map_map. unfold PyDict.values, PyDict.keys. rewrite map_map.
    apply map_ext_in. intros [k l] I. cbn.
    now destruct (G k l (dict_in_get k l lang_map N I)). }
  assert (forall st, In st stats -> exists l, In l (PyDict.values lang_map) /\ st = mk l) as M.
  { intros st I. apply (Permutation_in _ P) in I. apply in_map_iff in I as (l & E & I).
    now exists l. }
  split; [|split; [|split; [|split; [|split; [|split; [|split]]]]]].
  - eapply Permutation_NoDup; [symmetry; apply Permutation_map; exact P|].
    rewrite K. exact N.
  - intros st I. destruct (M st I) as (l & Il & ->). cbn. now apply V.
  - intros e I. eapply Permutation_in; [symmetry; apply Permutation_map; exact P|].
    rewrite K. now apply C.
  - rewrite <- D. apply total_size_of_nonzero.
  - intros st I. destruct (M st I) as (l & Il & ->). cbn. now rewrite D.
  - intros T.
    rewrite (Qsum_perm _ _ (Permutation_map ls_percentage P)), map_map.
    cbn [mk ls_percentage].
    rewrite <- (map_map la_size (fun s => percentage_of s (total_size_of lang_map))).
    rewrite Qsum_percentages by apply total_size_of_nonzero.
    rewrite S, D. unfold divisor. fold total.
    destruct (Z.eqb_spec total 0); [lia|].
    field. unfold Qeq. cbn. lia.
  - intros F T st I. destruct (M st I) as (l & Il & ->). cbn [mk ls_percentage].
    destruct (V l Il) as [Hs _].
    pose proof (accumulated_size_bounds (la_name l) edges F) as B. fold total in B.
    assert (la_size l = 0) as -> by lia.
    unfold percentage_of. rewrite D. unfold divisor. rewrite T. cbn. reflexivity.
  - apply descending_sorted. unfold stats, language_stats_of, PyList.sorted_by_rev.
    apply sort_sorted. intros a b. rewrite Z.ltb_lt, Z.ltb_ge. lia.
Qed.

(** C4. In a fetched record every language carries the bytes accumulated
    over all the fetched repositories, and its percentage is that size
    over the total of all languages times 100, the divisor being 1 when
    the total is 0 so that nothing is divided by zero. The percentages add
    up to 100 when the total is positive and are all 0 when it is 0, and
    the list goes down by size. Python's floats are read as exact
    rationals. *)
Theorem language_percentages (answer : graphql_result) (d : contributions) :
  process_graphql answer = Ok d ->
  let edges := all_edges (fetched_repositories answer) in
  let total := total_bytes edges in
  exists stats,
    k_languageStats d = Some stats /\
    NoDup (map ls_name stats) /\
    (forall st, In st stats -> ls_size st = accumulated_size (ls_name st) edges) /\
    (forall e, In e edges -> In (ln_name (le_node e)) (map ls_name stats)) /\
    divisor total <> 0 /\
    (forall st, In st stats ->
       ls_percentage st =
       (inject_Z (ls_size st) / inject_Z (divisor total) * inject_Z 100)%Q) /\
    (0 < total -> (Qsum (map ls_percentage stats) == inject_Z 100)%Q) /\
    (Forall (fun e => 0 <= le_size e) edges -> total = 0 ->
       forall st, In st stats -> (ls_percentage st == inject_Z 0)%Q) /\
    descending (map ls_size stats) = true.
Proof.
  intros P edges total. revert P. unfold process_graphql.
  destruct (gr_errors answer) as [errors|].
  { destruct (PyStr.index errors 0); discriminate. }
  intros E. injection E as <-. cbn [k_languageStats].
  eexists. split; [reflexivity|].
  exact (language_stats_of_spec (fetched_repositories answer)).
Qed.

End Percentages.

Section CurrentStreakTheorem.
Import Calendar Datetime Models World Github Routes Spec.

Variable utcnow : datetime.

Lemma december_31_ordinal (y : Z) (end_d : datetime) :
  Datetime.make y 12 31 = Ok end_d -> 365 <= toordinal end_d <= MAXORDINAL.
Proof.
  unfold Datetime.make. destruct (valid_ymd y 12 31) eqn:V; [|discriminate].
  intros E. injection E as <-. cbn [toordinal].
  apply valid_ymd_spec in V. destruct V as (Hy & Hm & Hd). unfold MAXYEAR in Hy.
  split.
  - unfold ymd2ord. pose proof (days_before_year_mono 1 y ltac:(lia)) as M.
    change (days_before_year 1) with 0 in M.
    assert (334 <= days_before_month y 12); [|lia].
    unfold days_before_month. cbn [DAYS_BEFORE_MONTH Z.ltb Z.compare Pos.compare Pos.compare_cont andb].
    destruct (is_leap y); lia.
  - destruct (Z.eq_dec y 9999) as [->|N]; [now rewrite <- ymd2ord_max|].
    rewrite <- ymd2ord_max. apply Z.lt_le_incl.
    apply ymd2ord_lt; [lia|exact Hd|unfold MAXYEAR; lia|vm_compute; split; discriminate|].
    unfold MAXYEAR. lia.
Qed.

Lemma build_stats_current_streak (name : string) (y : Z) (data : contributions)
    (stats : YearbookStats) :
  build_stats utcnow name y data = Ok stats ->
  exists december_31,
    Datetime.make y 12 31 = Ok december_31 /\
    current_streak stats =
    backward_streak
      (active_before (map date (active_days_of (daily_contributions stats))) december_31).
Proof.
  unfold build_stats.
  destruct (compute_longest_streak _) as [longest|]; [|discriminate]. cbn [rbind].
  destruct (Datetime.make y 12 31) as [end_d|] eqn:M; [|discriminate]. cbn [rbind].
  rewrite (compute_current_streak_walk _ _ (december_31_ordinal _ _ M)). cbn [rbind].
  intros E. injection E as <-. cbn [current_streak daily_contributions].
  exists end_d. split; reflexivity.
Qed.

(** C2, as the code has it. The current streak is the backward walk from
    the end boundary, December 31 of the queried year in the route: it
    counts consecutive active days, lets a miss pass on day 0 only, stops
    at any later miss and takes at most 365 steps. On the scenario of the
    specification it is 3 with the end boundary on January 6 and 2 with
    the end boundary on January 3: the miss of January 3 is the one of
    day 0, and January 2 and 1 are counted. *)
Theorem current_streak_is_backward_walk (active_days : list daily) (end_d : datetime) :
  365 <= toordinal end_d <= MAXORDINAL ->
  compute_current_streak active_days end_d =
    Ok (backward_streak (active_before (map date active_days) end_d)) /\
  0 <= backward_streak (active_before (map date active_days) end_d) <= 365 /\
  (forall name y data stats,
     build_stats utcnow name y data = Ok stats ->
     exists december_31,
       Datetime.make y 12 31 = Ok december_31 /\
       current_streak stats =
       backward_streak
         (active_before (map date (active_days_of (daily_contributions stats)))
            december_31)) /\
  rbind (Datetime.make 2024 1 6) (compute_current_streak (active_days_of scenario)) = Ok 3 /\
  rbind (Datetime.make 2024 1 3) (compute_current_streak (active_days_of scenario)) = Ok 2.
Proof.
  intros R. split; [now apply compute_current_streak_walk|].
  split; [apply backward_streak_bounds|].
  split; [apply build_stats_current_streak|].
  split; vm_compute; reflexivity.
Qed.

End CurrentStreakTheorem.

Section Instances.
Import Calendar Datetime Models World Github Routes Spec Examples.
Local Open Scope string_scope.

(** C2 at work on the scenario, the end boundary on January 6. *)
Lemma current_streak_is_backward_walk_witness :
  compute_current_streak (active_days_of scenario) (midnight (ymd2ord 2024 1 6)) =
  Ok (backward_streak
        (active_before (map date (active_days_of scenario)) (midnight (ymd2ord 2024 1 6)))).
Proof.
  refine (proj1 (current_streak_is_backward_walk (at_noon 2024 8 1)
                   (active_days_of scenario) (midnight (ymd2ord 2024 1 6)) _)).
  split; vm_compute; discriminate.
Defined.

(** C2 as stated fails: with the end boundary on January 3 the current
    streak of the scenario is not 0. *)
Lemma current_streak_january_3_is_not_0 :
  rbind (Datetime.make 2024 1 3) (compute_current_streak (active_days_of scenario)) <> Ok 0.
Proof. vm_compute. discriminate. Qed.

(** C4 at work on the answer about the owner. *)
Lemma language_percentages_witness :
  exists d stats,
    process_graphql owner_answer = Ok d /\
    k_languageStats d = Some stats /\
    map ls_name stats = ["Coq"; "Python"] /\
    map ls_size stats = [600; 400] /\
    (Qsum (map ls_percentage stats) == inject_Z 100)%Q.
Proof.
  destruct (language_percentages owner_answer _ eq_refl)
    as (stats & K & _ & _ & _ & _ & _ & S & _ & _).
  eexists. exists stats. split; [reflexivity|]. split; [exact K|].
  injection K as <-. split; [reflexivity|]. split; [reflexivity|].
  apply S. reflexivity.
Defined.

(** C5 at work: a subject whose only public push is outside 2024. *)
Lemma unauthenticated_fetch_reports_zero_witness :
  exists d w',
    fetch_user_contributions quiet_upstream "octocat" "2024-01-01" "2024-12-31" None
      empty_world = (Ok d, w') /\
    k_totalCommits d = Some 0 /\ k_pullRequests d = Some 0 /\
    k_languageStats d = Some [] /\ k_organizations d = Some [].
Proof.
  destruct (proj2 (unauthenticated_fetch_reports_zero quiet_upstream
                     "octocat" "2024-01-01" "2024-12-31" None empty_world eq_refl)
              (mkResponse 200 (Ok quiet_events)) quiet_events
              (midnight (ymd2ord 2024 1 1))
              (mkDatetime (ymd2ord 2024 12 31) 86399 0 None)
              eq_refl ltac:(discriminate) eq_refl eq_refl eq_refl)
    as (d & w' & F & C & _ & _ & _ & P & _ & _ & L & O).
  - apply Forall_cons; [left; reflexivity|].
    apply Forall_cons; [right; reflexivity|]. apply Forall_nil.
  - exists d, w'. repeat split; assumption.
Defined.

(** C6 at work: a plain miss against an upstream that cannot be reached. *)
Lemma fetch_failure_leaves_key_absent_witness :
  fst (get_yearbook_stats failing_upstream (at_noon 2024 8 1) "octocat" 2024 None empty_world)
    = Raise (HTTPException 400 (UpstreamError "timed out")) /\
  rows_of "octocat" 2024
    (snd (get_yearbook_stats failing_upstream (at_noon 2024 8 1) "octocat" 2024 None
            empty_world)) = [].
Proof.
  destruct (fetch_failure_leaves_key_absent failing_upstream (at_noon 2024 8 1)
              "octocat" 2024 None None empty_world (UpstreamError "timed out")
              eq_refl (or_introl eq_refl) eq_refl) as (E & R & _).
  split; [exact E|exact R].
Defined.

(** C7 at work on the public events of octocat. *)
Lemma daily_contributions_order_witness :
  exists d w' l,
    fetch_with_rest_api demo_upstream "octocat" "2024-01-01" "2024-12-31" empty_world
      = (Ok d, w') /\
    k_dailyContributions d = Some l /\ strictly_increasing (map date l) = true.
Proof.
  eexists. eexists.
  destruct (proj1 (daily_contributions_order demo_upstream "octocat" "2024-01-01" "2024-12-31"
                     empty_world _ _) eq_refl) as (l & K & S).
  exists l. split; [reflexivity|]. split; [exact K|exact S].
Defined.

(** C7 as stated fails: with a credential, an upstream calendar that is
    not in order gives daily contributions that are not in order. *)
Lemma authenticated_daily_contributions_unordered :
  exists d w',
    fetch_with_graphql unordered_upstream "octocat" "2024-01-01" "2024-12-31" "ghp_owner"
      empty_world = (Ok d, w') /\
    k_dailyContributions d = Some [mkDaily "2024-01-02" 4; mkDaily "2024-01-01" 3] /\
    strictly_increasing (map date [mkDaily "2024-01-02" 4; mkDaily "2024-01-01" 3]) = false.
Proof.
  eexists. eexists. split; [reflexivity|]. split; reflexivity.
Qed.

(** C8 at work: asked about octocat with the owner's token, the fetch
    returns the record of the owner. *)
Lemma authenticated_fetch_is_about_the_viewer_witness :
  exists d w',
    fetch_with_graphql demo_upstream "octocat" "2024-01-01" "2024-12-31" "ghp_owner"
      empty_world = (Ok d, w') /\
    k_username d = Some (Some "owner") /\
    fetch_with_graphql demo_upstream "someone-else" "2024-01-01" "2024-12-31" "ghp_owner"
      empty_world = (Ok d, w').
Proof.
  eexists. eexists.
  destruct (authenticated_fetch_is_about_the_viewer demo_upstream
              "octocat" "2024-01-01" "2024-12-31" "ghp_owner" empty_world _ _ eq_refl)
    as ((from & to & resp & answer & _ & A & J & _ & U & _) & O & _).
  split; [reflexivity|]. split; [reflexivity|]. exact (O "someone-else").
Defined.

(** C3 at work on the scenario read backwards, January 6 first: the days
    are walked in ascending order all the same. *)
Lemma longest_streak_is_longest_run_witness :
  compute_longest_streak (active_days_of (rev scenario)) = Ok 3.
Proof.
  refine (eq_trans
            (proj1 (longest_streak_is_longest_run (rev scenario)
                      (ordinals (active_days_of scenario)) _ _ _)) _).
  - repeat constructor.
  - change (map date_ordinal (map date (active_days_of (rev scenario))))
      with (rev (ordinals (active_days_of scenario))).
    apply Permutation_rev.
  - vm_compute.
    repeat first [apply Sorted_cons | apply Sorted_nil | apply HdRel_cons | apply HdRel_nil
                 | discriminate].
  - reflexivity.
Defined.

(** C3 as stated fails when a date carries a time of day: the loop
    compares whole elapsed days, so December 29 at noon and December 31
    make a streak of 2, although December 30 is missing and the longest
    run of consecutive calendar days is 1. *)
Lemma longest_streak_of_a_day_and_a_half :
  compute_longest_streak (active_days_of day_and_a_half) = Ok 2 /\
  map date_ordinal (map date (active_days_of day_and_a_half)) =
    [ymd2ord 2024 12 29; ymd2ord 2024 12 31] /\
  max_run_length [ymd2ord 2024 12 29; ymd2ord 2024 12 31] = 1.
Proof. repeat split; vm_compute; reflexivity. Qed.

(** C9 at work on the scenario, the end boundary on January 6, 2024: the
    current streak is 3 and the longest one is 3. *)
Lemma current_streak_le_longest_streak_witness :
  exists longest current,
    compute_longest_streak (active_days_of scenario) = Ok longest /\
    compute_current_streak (active_days_of scenario) (midnight (ymd2ord 2024 1 6)) =
      Ok current /\
    0 < current <= longest.
Proof.
  destruct (current_streak_le_longest_streak scenario (midnight (ymd2ord 2024 1 6)))
    as (longest & current & L & C & H).
  - repeat (constructor; [cbn; intuition discriminate|]). constructor.
  - repeat constructor.
  - split; vm_compute; discriminate.
  - exists longest, current. split; [exact L|]. split; [exact C|].
    split; [|exact H]. vm_compute in C. injection C as <-. reflexivity.
Defined.

(** C9 as stated fails for distinct dates that are not all calendar
    dates: with two entries on December 30, one of them dated with a time
    of day, the longest streak is 1 and the current streak is 2. *)
Lemma current_streak_exceeds_longest_streak :
  NoDup (map date two_on_december_30) /\
  compute_longest_streak (active_days_of two_on_december_30) = Ok 1 /\
  compute_current_streak (active_days_of two_on_december_30) december_31_2024 = Ok 2.
Proof.
  split; [|split; vm_compute; reflexivity].
  repeat (constructor; [cbn; intuition discriminate|]). constructor.
Qed.

End Instances.

(** * Further properties of the routes and of the fetch *)

Section RouteTables.
Import Calendar Datetime Models World Github Routes Spec Properties.

Variable up : upstream.
Variable utcnow : datetime.

Lemma world_eta (w : world) : mkWorld (http_log w) (yearbook_stats w) (user_tokens w) = w.
Proof. now destruct w. Qed.

Lemma forgotten_rows (name : string) (y : Z) (w : world) :
  rows_of name y (forgotten name y w) = [].
Proof.
  unfold rows_of, forgotten, without_key. cbn [yearbook_stats].
  induction (yearbook_stats w) as [|r l IH]; [reflexivity|].
  cbn [filter]. destruct (same_key name y r) eqn:E; cbn [negb filter]; [exact IH|].
  now rewrite E.
Qed.

Lemma forgotten_none (name : string) (y : Z) (w : world) :
  rows_of name y w = [] -> forgotten name y w = w.
Proof.
  intros R. unfold forgotten. rewrite (without_key_none name y _ R). apply world_eta.
Qed.

Lemma refresh_run (name : string) (y : Z) (token : option string) (w : world) :
  (List.length (rows_of name y w) <= 1)%nat ->
  refresh_yearbook_stats up utcnow name y token w =
  get_yearbook_stats up utcnow name y token (forgotten name y w).
Proof.
  intros L. unfold refresh_yearbook_stats, bind at 1. rewrite select_stats_run.
  destruct (rows_of name y w) as [|c [|c' rows]] eqn:R; cbn [scalar_one_or_none].
  - unfold bind, ret. now rewrite (forgotten_none name y w R).
  - unfold bind, delete_stats.
    destruct (rows_of_key name y w c) as [-> ->]; [rewrite R; now left|]. reflexivity.
  - cbn in L. lia.
Qed.

Lemma get_yearbook_stats_raise (name : string) (y : Z) (token : option string) (w : world)
    (e : exn) :
  fst (resolve_token name token w) = Raise e ->
  get_yearbook_stats up utcnow name y token w = (Raise e, w).
Proof.
  intros H. unfold get_yearbook_stats, bind.
  pose proof (resolve_token_world name token w) as W.
  destruct (resolve_token name token w) as [r w']. cbn in H, W. now subst.
Qed.

Lemma serve_stats_many (name : string) (y : Z) (token : option string) (w : world)
    (c1 c2 : YearbookStats) (rows : list YearbookStats) :
  rows_of name y w = c1 :: c2 :: rows ->
  serve_stats up utcnow name y token w = (Raise MultipleResultsFound, w).
Proof.
  intros R. unfold serve_stats, bind. rewrite select_stats_run, R. reflexivity.
Qed.

(** What the fetch, normalise and store cycle does on a table without the key. *)
Lemma fetch_and_store_cases (name : string) (y : Z) (tok : option string) (w : world) :
  rows_of name y w = [] ->
  let out := fetch_and_store up utcnow name y tok w in
  (forall r, fst out = Ok r ->
     cached r = false /\ username (body r) = name /\ year (body r) = y /\
     yearbook_stats (snd out) = yearbook_stats w ++ [body r] /\
     rows_of name y (snd out) = [body r]) /\
  (forall e, fst out = Raise e -> yearbook_stats (snd out) = yearbook_stats w) /\
  user_tokens (snd out) = user_tokens w /\
  exists reqs, http_log (snd out) = http_log w ++ reqs /\ forallb is_full_fetch reqs = true.
Proof.
  intros R out.
  destruct (fetch_runs up name (PyStr.of_int y ++ "-01-01") (PyStr.of_int y ++ "-12-31") tok)
    as (res & reqs & H).
  assert (forallb is_full_fetch reqs = true) as Q.
  { pose proof (fetch_requests up name _ _ tok res reqs H) as F.
    destruct (PyStr.truthy tok).
    - destruct F as [->|(a & b & ->)]; reflexivity.
    - rewrite F. reflexivity. }
  unfold out. rewrite (fetch_and_store_run up utcnow name y tok res reqs w H).
  destruct res as [data|e].
  - destruct (build_stats utcnow name y data) as [stats|e] eqn:B.
    + cbn [fst snd yearbook_stats user_tokens http_log].
      destruct (build_stats_key utcnow name y data stats B) as [K1 K2].
      split; [|split; [discriminate|split; [reflexivity|now exists reqs]]].
      intros r E. injection E as <-. cbn [cached body].
      repeat split; try assumption.
      unfold rows_of. cbn [yearbook_stats]. rewrite filter_app.
      fold (rows_of name y w). rewrite R. cbn [filter app]. unfold same_key.
      now rewrite K1, K2, String.eqb_refl, Z.eqb_refl.
    + cbn [fst snd log_append yearbook_stats user_tokens http_log].
      split; [discriminate|]. split; [reflexivity|]. split; [reflexivity|now exists reqs].
  - cbn [fst snd log_append yearbook_stats user_tokens http_log].
    split; [discriminate|]. split; [reflexivity|]. split; [reflexivity|now exists reqs].
Qed.

Lemma get_yearbook_stats_miss (name : string) (y : Z) (token : option string) (w : world) :
  rows_of name y w = [] ->
  get_yearbook_stats up utcnow name y token w =
  match fst (resolve_token name token w) with
  | Ok tok => fetch_and_store up utcnow name y tok w
  | Raise e => (Raise e, w)
  end.
Proof.
  intros R. destruct (fst (resolve_token name token w)) as [tok|e] eqn:T.
  - rewrite (get_yearbook_stats_resolved up utcnow name y token tok w T).
    now apply serve_stats_miss.
  - now apply get_yearbook_stats_raise.
Qed.

End RouteTables.

Section RefreshTheorems.
Import Calendar Datetime Models World Github Routes Spec Properties.

Variable up : upstream.
Variable utcnow : datetime.

(** X1. A refresh never answers from the cache: with at most one row under
    the key, it is the stats route run on the table without that row. What
    it returns is tagged [cached = false] and is the one row of the key;
    when it fails the key is left without a row, the old one included; and
    it sends requests of the full fetch only, never the freshness probe. *)
Theorem refresh_fetches_again (name : string) (y : Z) (token : option string) (w : world) :
  (List.length (rows_of name y w) <= 1)%nat ->
  let out := refresh_yearbook_stats up utcnow name y token w in
  out = get_yearbook_stats up utcnow name y token (forgotten name y w) /\
  (forall r, fst out = Ok r -> cached r = false /\ rows_of name y (snd out) = [body r]) /\
  (forall e, fst out = Raise e -> rows_of name y (snd out) = []) /\
  user_tokens (snd out) = user_tokens w /\
  exists reqs, http_log (snd out) = http_log w ++ reqs /\ forallb is_full_fetch reqs = true.
Proof.
  intros L out. unfold out. rewrite (refresh_run up utcnow name y token w L).
  split; [reflexivity|].
  pose proof (forgotten_rows name y w) as R.
  rewrite (get_yearbook_stats_miss up utcnow name y token _ R).
  destruct (fst (resolve_token name token (forgotten name y w))) as [tok|e].
  - destruct (fetch_and_store_cases up utcnow name y tok _ R) as (A & B & C & D).
    split; [|split; [|split]].
    + intros r E. destruct (A r E) as (A1 & _ & _ & _ & A2). now split.
    + intros e E. unfold rows_of. rewrite (B e E). exact R.
    + exact C.
    + exact D.
  - cbn [fst snd]. split; [discriminate|]. split; [intros _ _; exact R|].
    split; [reflexivity|]. exists []. split; [|reflexivity].
    cbn [forgotten http_log]. now rewrite app_nil_r.
Qed.

(** X2. Two rows under one key make the key unservable: both routes raise
    [MultipleResultsFound] at the select, send nothing and leave the two
    rows where they are, so that the next request fails in the same way. *)
Theorem duplicated_key_is_stuck (name : string) (y : Z) (token : option string) (w : world)
    (c1 c2 : YearbookStats) (rows : list YearbookStats) :
  rows_of name y w = c1 :: c2 :: rows ->
  refresh_yearbook_stats up utcnow name y token w = (Raise MultipleResultsFound, w) /\
  (exists e, get_yearbook_stats up utcnow name y token w = (Raise e, w)) /\
  (forall tok, fst (resolve_token name token w) = Ok tok ->
     get_yearbook_stats up utcnow name y token w = (Raise MultipleResultsFound, w)).
Proof.
  intros R. split; [|split].
  - unfold refresh_yearbook_stats, bind. rewrite select_stats_run, R. reflexivity.
  - destruct (fst (resolve_token name token w)) as [tok|e] eqn:T.
    + exists MultipleResultsFound.
      rewrite (get_yearbook_stats_resolved up utcnow name y token tok w T).
      exact (serve_stats_many up utcnow name y tok w c1 c2 rows R).
    + exists e. now apply get_yearbook_stats_raise.
  - intros tok T. rewrite (get_yearbook_stats_resolved up utcnow name y token tok w T).
    exact (serve_stats_many up utcnow name y tok w c1 c2 rows R).
Qed.

End RefreshTheorems.

Section TableTheorems.
Import Calendar Datetime Models World Github Routes Spec Properties.

Variable up : upstream.
Variable utcnow : datetime.

Lemma fetch_and_store_step (name : string) (y : Z) (tok : option string) (w : world) :
  rows_of name y w = [] ->
  let out := fetch_and_store up utcnow name y tok w in
  user_tokens (snd out) = user_tokens w /\
  (exists reqs, http_log (snd out) = http_log w ++ reqs) /\
  (yearbook_stats (snd out) = yearbook_stats w \/
   exists stats, username stats = name /\ year stats = y /\
                 yearbook_stats (snd out) = yearbook_stats w ++ [stats]).
Proof.
  intros R out. destruct (fetch_and_store_cases up utcnow name y tok w R) as (A & B & C & D).
  fold out in A, B, C, D. split; [exact C|]. split.
  - destruct D as (reqs & D & _). now exists reqs.
  - destruct (fst out) as [r|e] eqn:E.
    + right. destruct (A r eq_refl) as (_ & K1 & K2 & T & _). now exists (body r).
    + left. exact (B e eq_refl).
Qed.

Lemma get_yearbook_stats_step (name : string) (y : Z) (token : option string) (w : world) :
  let out := get_yearbook_stats up utcnow name y token w in
  user_tokens (snd out) = user_tokens w /\
  (exists reqs, http_log (snd out) = http_log w ++ reqs) /\
  table_step name y (yearbook_stats w) (yearbook_stats (snd out)).
Proof.
  intros out. unfold out.
  assert (forall w0 : world,
             user_tokens w0 = user_tokens w0 /\
             (exists reqs, http_log w0 = http_log w0 ++ reqs) /\
             table_step name y (yearbook_stats w0) (yearbook_stats w0)) as Same.
  { intros w0. split; [reflexivity|]. split; [exists []; now rewrite app_nil_r|now left]. }
  destruct (fst (resolve_token name token w)) as [tok|e] eqn:T;
    [|rewrite (get_yearbook_stats_raise up utcnow name y token w e T); apply Same].
  rewrite (get_yearbook_stats_resolved up utcnow name y token tok w T).
  destruct (rows_of name y w) as [|c [|c' rows]] eqn:R.
  - rewrite (serve_stats_miss up utcnow name y tok w R).
    destruct (fetch_and_store_step name y tok w R) as (A & B & C).
    split; [exact A|]. split; [exact B|].
    unfold table_step. rewrite (without_key_none name y _ R).
    destruct C as [C|C]; [now left|now right; right].
  - destruct (probe_runs up name tok) as (res & reqs & H).
    rewrite (serve_stats_hit up utcnow name y tok c res reqs w R H).
    destruct (served_from_cache res c).
    + cbn [snd log_append user_tokens http_log yearbook_stats].
      split; [reflexivity|]. split; [now exists reqs|now left].
    + destruct (fetch_and_store_step name y tok (invalidated name y reqs w)
                  (rows_of_without name y reqs w)) as (A & (freqs & B) & C).
      split; [exact A|]. split.
      * exists (reqs ++ freqs). rewrite B. cbn [invalidated http_log]. now rewrite app_assoc.
      * cbn [invalidated yearbook_stats] in C. destruct C as [C|C];
          [right; now left|right; now right].
  - rewrite (serve_stats_many up utcnow name y tok w c c' rows R). apply Same.
Qed.

Lemma without_key_idem (name : string) (y : Z) (rows : list YearbookStats) :
  without_key name y (without_key name y rows) = without_key name y rows.
Proof.
  apply without_key_none. exact (forgotten_rows name y (mkWorld [] rows [])).
Qed.

Lemma refresh_step (name : string) (y : Z) (token : option string) (w : world) :
  let out := refresh_yearbook_stats up utcnow name y token w in
  user_tokens (snd out) = user_tokens w /\
  (exists reqs, http_log (snd out) = http_log w ++ reqs) /\
  table_step name y (yearbook_stats w) (yearbook_stats (snd out)).
Proof.
  intros out. unfold out.
  destruct (le_lt_dec (List.length (rows_of name y w)) 1) as [L|L].
  - rewrite (refresh_run up utcnow name y token w L).
    destruct (get_yearbook_stats_step name y token (forgotten name y w)) as (A & B & C).
    split; [exact A|]. split; [exact B|].
    cbn [forgotten yearbook_stats] in C. unfold table_step in *.
    rewrite without_key_idem in C. destruct C as [C|[C|C]]; [right; now left| |];
      right; [now left|now right].
  - destruct (rows_of name y w) as [|c [|c' rows]] eqn:R; cbn in L; try lia.
    unfold refresh_yearbook_stats, bind. rewrite select_stats_run, R.
    cbn [scalar_one_or_none snd]. split; [reflexivity|].
    split; [exists []; now rewrite app_nil_r|now left].
Qed.

Lemma rows_of_other (name other : string) (y z : Z) (rows : list YearbookStats) :
  (other, z) <> (name, y) ->
  filter (same_key other z) (without_key name y rows) = filter (same_key other z) rows.
Proof.
  intros N. unfold without_key. induction rows as [|r rows IH]; [reflexivity|].
  cbn [filter]. destruct (same_key name y r) eqn:E; cbn [negb filter]; [|now rewrite IH].
  rewrite IH. destruct (same_key other z r) eqn:E'; [|reflexivity].
  exfalso. apply N. unfold same_key in E, E'.
  apply andb_true_iff in E as [E1 E2]. apply andb_true_iff in E' as [E3 E4].
  apply String.eqb_eq in E1, E3. apply Z.eqb_eq in E2, E4. congruence.
Qed.

Lemma table_step_other (name other : string) (y z : Z) (before after : list YearbookStats) :
  (other, z) <> (name, y) ->
  table_step name y before after ->
  filter (same_key other z) after = filter (same_key other z) before.
Proof.
  intros N [->|[->|(stats & K1 & K2 & ->)]]; [reflexivity|now apply rows_of_other|].
  rewrite filter_app, (rows_of_other name other y z before N). cbn [filter].
  destruct (same_key other z stats) eqn:E; [|apply app_nil_r].
  exfalso. apply N. unfold same_key in E. apply andb_true_iff in E as [E1 E2].
  apply String.eqb_eq in E1. apply Z.eqb_eq in E2. congruence.
Qed.


(** X3. A stats request, or a refresh, is about its own key: the rows of
    every other (subject, year) are what they were, in their order, the
    stored tokens are untouched, and the requests sent are added after the
    ones already logged. *)
Theorem other_keys_are_untouched
    (name other : string) (y z : Z) (token : option string) (w : world) :
  (other, z) <> (name, y) ->
  let served := get_yearbook_stats up utcnow name y token w in
  let refreshed := refresh_yearbook_stats up utcnow name y token w in
  rows_of other z (snd served) = rows_of other z w /\
  user_tokens (snd served) = user_tokens w /\
  (exists reqs, http_log (snd served) = http_log w ++ reqs) /\
  rows_of other z (snd refreshed) = rows_of other z w /\
  user_tokens (snd refreshed) = user_tokens w /\
  (exists reqs, http_log (snd refreshed) = http_log w ++ reqs).
Proof.
  intros N served refreshed.
  destruct (get_yearbook_stats_step name y token w) as (A & B & C).
  destruct (refresh_step name y token w) as (A' & B' & C').
  repeat split; try assumption; unfold rows_of; now apply (table_step_other name other y z).
Qed.


End TableTheorems.

Section RoundTrip.
Import Calendar Datetime Models World Github Routes Spec Properties.

Lemma get_yearbook_stats_row (up : upstream) (utcnow : datetime)
    (name : string) (y : Z) (token : option string) (w w' : world) (r : stats_response) :
  (List.length (rows_of name y w) <= 1)%nat ->
  get_yearbook_stats up utcnow name y token w = (Ok r, w') ->
  rows_of name y w' = [body r].
Proof.
  intros L G.
  destruct (fst (resolve_token name token w)) as [tok|e] eqn:T;
    [|rewrite (get_yearbook_stats_raise up utcnow name y token w e T) in G; discriminate].
  rewrite (get_yearbook_stats_resolved up utcnow name y token tok w T) in G.
  destruct (rows_of name y w) as [|c [|c' rows]] eqn:R; [| |cbn in L; lia].
  - rewrite (serve_stats_miss up utcnow name y tok w R) in G.
    destruct (fetch_and_store_cases up utcnow name y tok w R) as (A & _).
    rewrite G in A. exact (proj2 (proj2 (proj2 (proj2 (A r eq_refl))))).
  - destruct (probe_runs up name tok) as (res & reqs & H).
    rewrite (serve_stats_hit up utcnow name y tok c res reqs w R H) in G.
    destruct (served_from_cache res c).
    + injection G as <- <-. exact R.
    + destruct (fetch_and_store_cases up utcnow name y tok _ (rows_of_without name y reqs w))
        as (A & _).
      rewrite G in A. exact (proj2 (proj2 (proj2 (proj2 (A r eq_refl))))).
Qed.

(** X5. What a stats request answers is what the table then holds for the
    key, and the next request is answered with that very record, tagged
    [cached = true], as long as the probe does not report a push after the
    record was written: whatever the upstream, the clock and the token of
    the second request, it leaves the table as it is and sends the probe
    only. *)
Theorem answered_record_is_served_again
    (up1 up2 : upstream) (now1 now2 : datetime)
    (name : string) (y : Z) (token1 token2 tok2 : option string)
    (w w' : world) (r : stats_response) :
  (List.length (rows_of name y w) <= 1)%nat ->
  get_yearbook_stats up1 now1 name y token1 w = (Ok r, w') ->
  fst (resolve_token name token2 w') = Ok tok2 ->
  (forall t, fst (fetch_user_latest_push_time up2 name tok2 w') = Ok (Some t) ->
             Datetime.le t (updated_at (body r)) <> Ok false) ->
  let again := get_yearbook_stats up2 now2 name y token2 w' in
  rows_of name y w' = [body r] /\
  fst again = Ok (mkStatsResponse (body r) true) /\
  yearbook_stats (snd again) = yearbook_stats w' /\
  exists reqs,
    http_log (snd again) = http_log w' ++ reqs /\
    forallb (fun q => negb (is_full_fetch q)) reqs = true.
Proof.
  intros L G T P again.
  pose proof (get_yearbook_stats_row up1 now1 name y token1 w w' r L G) as R.
  split; [exact R|]. unfold again.
  rewrite (get_yearbook_stats_resolved up2 now2 name y token2 tok2 w' T).
  destruct (probe_runs up2 name tok2) as (res & reqs & H).
  rewrite (serve_stats_hit up2 now2 name y tok2 (body r) res reqs w' R H).
  rewrite (runs_as_fst _ _ _ w' H) in P.
  assert (served_from_cache res (body r) = true) as S.
  { destruct res as [[t|]|e]; cbn [served_from_cache]; try reflexivity.
    specialize (P t eq_refl).
    destruct (Datetime.le t (updated_at (body r))) as [[|]|e]; congruence. }
  rewrite S. cbn [fst snd log_append yearbook_stats http_log].
  split; [reflexivity|]. split; [reflexivity|]. exists reqs. split; [reflexivity|].
  rewrite (probe_requests up2 name tok2 _ _ H). destruct (PyStr.truthy tok2); reflexivity.
Qed.

End RoundTrip.

Section StreakBounds.
Import Calendar Datetime Models World Github Routes Spec.

Variable utcnow : datetime.

Lemma streak_step_bound (st st' : streak_state) (d : daily) (n : Z) :
  streak_step st d = Ok st' ->
  0 <= st_longest_streak st <= n -> 0 <= st_streak st <= n ->
  0 <= st_longest_streak st' <= n + 1 /\ 1 <= st_streak st' <= n + 1.
Proof.
  unfold streak_step. destruct (fromisoformat (date d)) as [cur_date|]; [|discriminate].
  cbn [rbind].
  destruct (match st_prev_date st with
            | Some prev_date => rbind (sub_days cur_date prev_date) (fun days => Ok (days =? 1))
            | None => Ok false
            end) as [continues|]; [|discriminate].
  cbn [rbind]. intros E HL HS. injection E as <-.
  destruct continues; cbn [st_longest_streak st_streak]; lia.
Qed.

Lemma streak_loop_bound (l : list daily) :
  forall st st' n,
    streak_loop st l = Ok st' ->
    0 <= st_longest_streak st <= n -> 0 <= st_streak st <= n ->
    0 <= st_longest_streak st' <= n + Z.of_nat (List.length l) /\
    0 <= st_streak st' <= n + Z.of_nat (List.length l) /\
    (l <> [] -> 1 <= st_streak st').
Proof.
  induction l as [|d l IH]; intros st st' n; cbn [streak_loop].
  - intros E HL HS. injection E as <-. cbn [List.length]. repeat split; try lia. congruence.
  - destruct (streak_step st d) as [st1|] eqn:S; [|discriminate]. cbn [rbind].
    intros E HL HS. destruct (streak_step_bound st st1 d n S HL HS) as [HL1 HS1].
    destruct (IH st1 st' (n + 1) E HL1 ltac:(lia)) as (A & B & C).
    cbn [List.length]. rewrite Nat2Z.inj_succ. repeat split; try lia.
    intros _. destruct l as [|d' l'].
    + cbn [streak_loop] in E. injection E as <-. lia.
    + apply C. discriminate.
Qed.

Lemma compute_longest_streak_bound (active : list daily) (longest : Z) :
  compute_longest_streak active = Ok longest ->
  0 <= longest <= Z.of_nat (List.length active) /\
  (longest = 0 <-> active = []).
Proof.
  unfold compute_longest_streak.
  destruct (streak_loop _ _) as [st|] eqn:S; [|discriminate]. cbn [rbind].
  intros E. injection E as <-.
  destruct (streak_loop_bound _ _ _ 0 S ltac:(cbn; lia) ltac:(cbn; lia)) as (A & B & C).
  pose proof (Permutation_length (sorted_by_perm String.ltb date active)) as P.
  rewrite P in A, B. split; [lia|]. split.
  - intros Z0. destruct active as [|d l]; [reflexivity|]. exfalso.
    assert (PyList.sorted_by String.ltb date (d :: l) <> []) as N.
    { intros N. rewrite N in P. discriminate. }
    specialize (C N). lia.
  - intros ->. cbn in A, B. lia.
Qed.

(** The days the backward walk counts are that many different active days. *)
Lemma backward_streak_le_length (l : list daily) (end_d : datetime) :
  365 <= toordinal end_d <= MAXORDINAL ->
  backward_streak (active_before (map date l) end_d) <= Z.of_nat (List.length l).
Proof.
  intros R. set (act := active_before (map date l) end_d).
  destruct (backward_streak_active act) as (first & F0 & F1 & F).
  pose proof (backward_streak_bounds act) as B.
  set (n := Z.to_nat (backward_streak act)).
  set (walked := map (fun j => toordinal end_d - (first + Z.of_nat j)) (seq 0 n)).
  assert (NoDup walked) as N.
  { unfold walked. apply Finite.Injective_map_NoDup; [|apply seq_NoDup].
    intros a b E. lia. }
  assert (incl walked (ordinals l)) as I.
  { intros o Ho. unfold walked in Ho. apply in_map_iff in Ho as (j & <- & Hj).
    apply in_seq in Hj. apply active_before_ordinal; [lia|]. apply F. lia. }
  pose proof (NoDup_incl_length N I) as L.
  unfold walked, ordinals in L. rewrite !length_map, length_seq in L. lia.
Qed.

(** X6. In the row built from a fetch, [active_days] counts the daily
    entries with a positive count; the longest streak lies between 0 and
    that number and is 0 exactly when no day is active; and the current
    streak never exceeds the number of active days either. No assumption
    on the dates is needed beyond the row being built. *)
Theorem streaks_within_active_days
    (name : string) (y : Z) (data : contributions) (stats : YearbookStats) :
  build_stats utcnow name y data = Ok stats ->
  active_days stats = Z.of_nat (List.length (active_days_of (daily_contributions stats))) /\
  active_days stats <= Z.of_nat (List.length (daily_contributions stats)) /\
  0 <= longest_streak stats <= active_days stats /\
  (longest_streak stats = 0 <-> active_days stats = 0) /\
  0 <= current_streak stats <= active_days stats.
Proof.
  intros B.
  destruct (build_stats_current_streak utcnow name y data stats B) as (end_d & M & C).
  pose proof (december_31_ordinal y end_d M) as R.
  revert B C. unfold build_stats.
  destruct (compute_longest_streak _) as [longest|] eqn:L; [|discriminate]. cbn [rbind].
  rewrite M. cbn [rbind].
  destruct (compute_current_streak _ _) as [current|]; [|discriminate]. cbn [rbind].
  intros E. injection E as <-. cbn [active_days daily_contributions longest_streak current_streak].
  intros ->.
  set (daily_list := default [] (k_dailyContributions data)) in *.
  destruct (compute_longest_streak_bound _ _ L) as [Lb Lz].
  split; [reflexivity|]. split.
  { apply inj_le. unfold active_days_of. apply filter_length_le. }
  split; [exact Lb|]. split.
  { rewrite Lz. split; [intros ->; reflexivity|].
    intros Z0. apply length_zero_iff_nil. lia. }
  split; [apply backward_streak_bounds|]. now apply backward_streak_le_length.
Qed.

End StreakBounds.

Section StableSort.
Context {A : Type} (after : A -> A -> bool) (p : A -> bool).

(** Elements picked by [p] are never exchanged with one another. *)
Hypothesis picked_stay : forall x y, after x y = true -> p x = true -> p y = false.

Lemma insert_filter (x : A) (l : list A) :
  filter p (PyList.insert after x l) = if p x then x :: filter p l else filter p l.
Proof.
  induction l as [|y l IH]; cbn [PyList.insert filter]; [reflexivity|].
  destruct (after x y) eqn:E; cbn [filter]; [|reflexivity].
  rewrite IH. destruct (p x) eqn:Px; [|reflexivity].
  now rewrite (picked_stay x y E Px).
Qed.

Lemma sort_filter (l : list A) : filter p (PyList.sort after l) = filter p l.
Proof.
  unfold PyList.sort. induction l as [|x l IH]; [reflexivity|].
  cbn [fold_right filter]. rewrite insert_filter, IH. reflexivity.
Qed.

End StableSort.

Section Rankings.
Import Calendar Datetime Models World Github Routes Spec Properties.

Lemma descending_in_order {A} (key : A -> Z) (l : list A) :
  Sorted (PyList.in_order (fun x y => Z.ltb (key x) (key y))) l ->
  descending (map key l) = true.
Proof.
  induction 1 as [|a l S IH H]; [reflexivity|].
  destruct H as [|b l H]; [reflexivity|].
  cbn [map descending] in *. rewrite IH, andb_true_r.
  unfold PyList.in_order in H. apply Z.leb_le. apply Z.ltb_ge in H. exact H.
Qed.

Lemma sorted_by_rev_descending {A} (key : A -> Z) (l : list A) :
  descending (map key (PyList.sorted_by_rev Z.ltb key l)) = true.
Proof.
  apply descending_in_order. unfold PyList.sorted_by_rev.
  apply sort_sorted. intros a b. rewrite Z.ltb_lt, Z.ltb_ge. lia.
Qed.

Lemma sorted_by_rev_stable {A} (key : A -> Z) (c : Z) (l : list A) :
  filter (fun r => key r =? c) (PyList.sorted_by_rev Z.ltb key l) =
  filter (fun r => key r =? c) l.
Proof.
  unfold PyList.sorted_by_rev. apply sort_filter.
  intros x y L Px. apply Z.ltb_lt in L. apply Z.eqb_eq in Px. apply Z.eqb_neq. lia.
Qed.

Lemma sum_of_perm (l l' : list Z) : Permutation l l' -> sum_of l = sum_of l'.
Proof.
  unfold sum_of. induction 1; cbn [fold_right]; lia.
Qed.

(** X7. With a credential, [repositoryContributions] is the list of
    [commitContributionsByRepository] of the answer, one entry for each,
    rearranged so that the counts go down; entries with the same count
    keep the order the upstream gave them. *)
Theorem repositories_ranked_by_count (answer : graphql_result) (d : contributions) :
  process_graphql answer = Ok d ->
  let listed := map repo_contribution_of (contributed_repositories answer) in
  exists ranked,
    k_repositoryContributions d = Some ranked /\
    Permutation ranked listed /\
    descending (map rc_count ranked) = true /\
    forall c, with_count c ranked = with_count c listed.
Proof.
  intros P listed. revert P.
  unfold process_graphql. destruct (gr_errors answer) as [errors|].
  { destruct (PyStr.index errors 0); discriminate. }
  intros E. injection E as <-. cbn [k_repositoryContributions].
  eexists. split; [reflexivity|]. fold (contributed_repositories answer). fold listed.
  split; [apply sort_perm|]. split; [apply sorted_by_rev_descending|].
  intros c. apply sorted_by_rev_stable.
Qed.

(** X10. With a credential, every listed repository is counted once,
    as private when its [isPrivate] is true and as public otherwise, a
    missing flag included: [publicRepos] and [privateRepos] add up to the
    number of repositories of the answer. *)
Theorem public_and_private_repositories (answer : graphql_result) (d : contributions) :
  process_graphql answer = Ok d ->
  let repos := fetched_repositories answer in
  k_privateRepos d = Some (Z.of_nat (List.length (filter is_private repos))) /\
  k_publicRepos d =
    Some (Z.of_nat (List.length (filter (fun r => negb (is_private r)) repos))) /\
  exists public private,
    k_publicRepos d = Some public /\ k_privateRepos d = Some private /\
    public + private = Z.of_nat (List.length repos).
Proof.
  intros P repos. revert P.
  unfold process_graphql. destruct (gr_errors answer) as [errors|].
  { destruct (PyStr.index errors 0); discriminate. }
  intros E. injection E as <-. cbn [k_privateRepos k_publicRepos].
  fold (fetched_repositories answer). fold repos.
  split; [reflexivity|]. split; [reflexivity|].
  eexists. eexists. split; [reflexivity|]. split; [reflexivity|].
  rewrite <- Nat2Z.inj_add. f_equal.
  induction repos as [|r repos IH]; [reflexivity|].
  cbn [filter List.length]. unfold is_private in *.
  destruct (truthy_bool (r_isPrivate r)); cbn [negb List.length]; lia.
Qed.

End Rankings.

Section RestTotals.
Import Calendar Datetime Models World Github Routes Spec Properties.

Lemma dict_set_add (k : string) (c : Z) (d : PyDict.dict Z) :
  sum_of (PyDict.values (PyDict.set k (default 0 (PyDict.get k d) + c) d)) =
  sum_of (PyDict.values d) + c.
Proof.
  pose proof (dict_set_sum (fun v => v) k (default 0 (PyDict.get k d) + c) d) as S.
  rewrite !map_id in S. unfold sum_of. rewrite S.
  destruct (PyDict.get k d); cbn [default]; lia.
Qed.

Lemma push_step_totals (start end_ : datetime) maps (e : event) maps' :
  push_step start end_ maps e = Ok maps' ->
  let c := if counted start end_ e then default 0 (ev_payload_size e) else 0 in
  sum_of (PyDict.values (fst maps')) = sum_of (PyDict.values (fst maps)) + c /\
  sum_of (PyDict.values (snd maps')) = sum_of (PyDict.values (snd maps)) + c.
Proof.
  unfold push_step, counted. destruct (is_push_event e); cbn [negb andb].
  2:{ intros E. injection E as <-. cbn. lia. }
  destruct (in_range start end_ (ev_created_at e)) as [inside|x]; [|discriminate].
  cbn [rbind]. destruct inside; cbn [negb].
  2:{ intros E. injection E as <-. cbn. lia. }
  destruct (PyStr.index _ 1) as [repo_name|x]; [|discriminate]. cbn [rbind].
  destruct maps as [daily_map repo_map]. intros E. injection E as <-. cbn [fst snd].
  split; apply dict_set_add.
Qed.

Lemma push_loop_totals (start end_ : datetime) (events : list event) :
  forall maps maps',
    push_loop start end_ maps events = Ok maps' ->
    sum_of (PyDict.values (fst maps')) =
      sum_of (PyDict.values (fst maps)) + pushed_commits start end_ events /\
    sum_of (PyDict.values (snd maps')) =
      sum_of (PyDict.values (snd maps)) + pushed_commits start end_ events.
Proof.
  induction events as [|e events IH]; intros maps maps'; cbn [push_loop].
  - intros E. injection E as <-. unfold pushed_commits. cbn. lia.
  - destruct (push_step start end_ maps e) as [m1|x] eqn:S; [|discriminate]. cbn [rbind].
    intros L. destruct (push_step_totals _ _ _ _ _ S) as [A B].
    destruct (IH m1 maps' L) as [A' B']. rewrite A', B', A, B.
    unfold pushed_commits. cbn [filter].
    destruct (counted start end_ e); cbn [map sum_of fold_right]; unfold sum_of; lia.
Qed.

Lemma push_step_repos (start end_ : datetime) maps (e : event) maps' :
  push_step start end_ maps e = Ok maps' ->
  NoDup (PyDict.keys (snd maps)) -> NoDup (PyDict.keys (snd maps')).
Proof.
  unfold push_step. destruct (negb (is_push_event e)).
  { intros E. now injection E as <-. }
  destruct (in_range start end_ (ev_created_at e)) as [inside|x]; [|discriminate].
  cbn [rbind]. destruct (negb inside).
  { intros E. now injection E as <-. }
  destruct (PyStr.index _ 1) as [repo_name|x]; [|discriminate]. cbn [rbind].
  destruct maps as [daily_map repo_map]. intros E. injection E as <-. cbn [snd].
  apply dict_set_NoDup.
Qed.

Lemma push_loop_repos (start end_ : datetime) (events : list event) :
  forall maps maps',
    push_loop start end_ maps events = Ok maps' ->
    NoDup (PyDict.keys (snd maps)) -> NoDup (PyDict.keys (snd maps')).
Proof.
  induction events as [|e events IH]; intros maps maps'; cbn [push_loop].
  - intros E. now injection E as <-.
  - destruct (push_step start end_ maps e) as [m1|x] eqn:S; [|discriminate]. cbn [rbind].
    intros L N. apply (IH m1 maps' L). exact (push_step_repos _ _ _ _ _ S N).
Qed.

Variable up : upstream.

Lemma rest_ok_inv (name s e : string) (w w' : world) (d : contributions) :
  fetch_with_rest_api up name s e w = (Ok d, w') ->
  exists resp events,
    events_answer up name 100 = Ok resp /\ status_code resp <> 404 /\
    json resp = Ok events /\ process_events name s e events = Ok d /\
    w' = log_append [GetPublicEvents name 100] w.
Proof.
  rewrite rest_run. intros E. injection E as E <-.
  destruct (events_answer up name 100) as [resp|x]; [|discriminate].
  destruct (Z.eqb_spec (status_code resp) 404) as [|N]; [discriminate|].
  destruct (json resp) as [events|x] eqn:J; [|discriminate]. cbn [rbind] in E.
  exists resp, events. repeat split; assumption.
Qed.

(** X8. Without a credential no commit is lost or counted twice: the
    commits announced by the push events of the range, the total of the
    record, the counts of its days and the counts of its repositories are
    one and the same number. *)
Theorem rest_commits_are_conserved (name s e : string) (w w' : world) (d : contributions) :
  fetch_with_rest_api up name s e w = (Ok d, w') ->
  exists resp events start end_ daily_list repos,
    events_answer up name 100 = Ok resp /\ json resp = Ok events /\
    fromisoformat s = Ok start /\ fromisoformat (e ++ "T23:59:59") = Ok end_ /\
    k_dailyContributions d = Some daily_list /\
    k_repositoryContributions d = Some repos /\
    k_totalCommits d = Some (pushed_commits start end_ events) /\
    k_totalContributions d = Some (pushed_commits start end_ events) /\
    sum_of (map count daily_list) = pushed_commits start end_ events /\
    sum_of (map rc_count repos) = pushed_commits start end_ events.
Proof.
  intros F. destruct (rest_ok_inv name s e w w' d F) as (resp & events & A & _ & J & P & _).
  exists resp, events. revert P. unfold process_events.
  destruct (fromisoformat s) as [start|x]; [|discriminate]. cbn [rbind].
  destruct (fromisoformat (e ++ "T23:59:59")) as [end_|x]; [|discriminate]. cbn [rbind].
  destruct (push_loop start end_ ([], []) events) as [[daily_map repo_map]|x] eqn:L;
    [|discriminate].
  cbn [rbind]. intros E. injection E as <-.
  destruct (push_loop_totals _ _ _ _ _ L) as [Td Tr]. cbn [fst snd] in Td, Tr.
  change (sum_of (PyDict.values [])) with 0 in Td, Tr.
  exists start, end_. eexists. eexists.
  cbn [k_dailyContributions k_repositoryContributions k_totalCommits k_totalContributions].
  repeat split; try reflexivity; try assumption.
  - rewrite sum_fold_right. fold (sum_of (PyDict.values daily_map)). f_equal. lia.
  - rewrite sum_fold_right. fold (sum_of (PyDict.values daily_map)). f_equal. lia.
  - rewrite map_map. cbn [count].
    rewrite (sum_of_perm _ (map snd (PyDict.items daily_map))).
    + change (map snd (PyDict.items daily_map)) with (PyDict.values daily_map). lia.
    + apply Permutation_map. apply sort_perm.
  - rewrite map_map. cbn [rc_count].
    rewrite (sum_of_perm _ (map snd (PyDict.items repo_map))).
    + change (map snd (PyDict.items repo_map)) with (PyDict.values repo_map). lia.
    + apply Permutation_map. apply sort_perm.
Qed.

End RestTotals.

Section RestEntries.
Import Calendar Datetime Models World Github Routes Spec Properties.

Lemma push_step_entries (start end_ : datetime) maps (e : event) maps' :
  push_step start end_ maps e = Ok maps' ->
  forall k,
    default 0 (PyDict.get k (snd maps')) =
      default 0 (PyDict.get k (snd maps)) +
      (if pushes_to start end_ k e then default 0 (ev_payload_size e) else 0) /\
    (In k (PyDict.keys (snd maps')) <->
     In k (PyDict.keys (snd maps)) \/ pushes_to start end_ k e = true).
Proof.
  unfold push_step, pushes_to, counted, short_name.
  destruct (is_push_event e); cbn [negb andb].
  2:{ intros E k. injection E as <-. split; [lia|]. split; [tauto|]. intros [H|H]; [exact H|discriminate]. }
  destruct (in_range start end_ (ev_created_at e)) as [inside|x]; [|discriminate].
  cbn [rbind]. destruct inside; cbn [negb andb].
  2:{ intros E k. injection E as <-. split; [lia|]. split; [tauto|]. intros [H|H]; [exact H|discriminate]. }
  destruct (PyStr.index _ 1) as [repo_name|x]; [|discriminate]. cbn [rbind].
  destruct maps as [daily_map repo_map]. intros E k. injection E as <-. cbn [fst snd].
  rewrite dict_get_set, dict_set_keys. rewrite (String.eqb_sym k repo_name).
  destruct (String.eqb_spec repo_name k) as [->|N].
  - split; [cbn [default]; lia|]. split; [intros _; now right|]. intros _.
    destruct (PyDict.get k repo_map) eqn:G.
    + apply dict_get_in in G. unfold PyDict.keys. apply in_map_iff. now exists (k, z).
    + apply in_or_app. right. now left.
  - split; [lia|]. split.
    + intros I. left. destruct (PyDict.get repo_name repo_map); [exact I|].
      apply in_app_or in I as [I|[I|[]]]; [exact I|contradiction].
    + intros [I|H]; [|discriminate].
      destruct (PyDict.get repo_name repo_map); [exact I|]. apply in_or_app. now left.
Qed.

Lemma push_loop_entries (start end_ : datetime) (events : list event) :
  forall maps maps',
    push_loop start end_ maps events = Ok maps' ->
    forall k,
      default 0 (PyDict.get k (snd maps')) =
        default 0 (PyDict.get k (snd maps)) + commits_to start end_ k events /\
      (In k (PyDict.keys (snd maps')) <->
       In k (PyDict.keys (snd maps)) \/
       exists e, In e events /\ pushes_to start end_ k e = true).
Proof.
  induction events as [|e events IH]; intros maps maps'; cbn [push_loop].
  - intros E k. injection E as <-. unfold commits_to. cbn. split; [lia|].
    split; [tauto|]. intros [H|(e & [] & _)]. exact H.
  - destruct (push_step start end_ maps e) as [m1|x] eqn:S; [|discriminate]. cbn [rbind].
    intros L k. destruct (push_step_entries _ _ _ _ _ S k) as [A B].
    destruct (IH m1 maps' L k) as [A' B']. split.
    + rewrite A', A. unfold commits_to. cbn [filter].
      destruct (pushes_to start end_ k e); cbn [map sum_of fold_right]; unfold sum_of; lia.
    + rewrite B', B. split.
      * intros [[I|P]|(e' & I & P)]; [now left|right; exists e; split; [now left|exact P]|].
        right. exists e'. split; [now right|exact P].
      * intros [I|(e' & [<-|I] & P)]; [left; now left|left; now right|].
        right. exists e'. now split.
Qed.

(** When the loop ends well, every counted push has a name after the
    slash. *)
Lemma push_loop_short_name (start end_ : datetime) (events : list event) (ev : event) :
  forall maps maps',
    push_loop start end_ maps events = Ok maps' ->
    In ev events -> counted start end_ ev = true ->
    exists short, short_name ev = Ok short.
Proof.
  induction events as [|e0 events IH]; intros maps maps'; cbn [push_loop]; [intros _ []|].
  destruct (push_step start end_ maps e0) as [m1|] eqn:S; [|discriminate]. cbn [rbind].
  intros L [->|I] C; [|exact (IH m1 maps' L I C)].
  revert S. unfold push_step, short_name. unfold counted in C.
  apply andb_true_iff in C as [C1 C2]. rewrite C1. cbn [negb].
  destruct (in_range start end_ (ev_created_at ev)) as [inside|]; [|discriminate].
  cbn [rbind]. rewrite C2. cbn [negb].
  destruct (PyStr.index _ 1) as [short|]; [|discriminate]. intros _. now exists short.
Qed.

Variable up : upstream.

(** X9. Without a credential, the repositories are listed under the
    name that follows the slash of [owner/name], the owner being dropped:
    every name that has a counted push is listed, once, so that
    repositories with the same name and different owners share one entry;
    an entry counts the commits of all the counted pushes under its name,
    is marked as public and carries no other detail; and the list goes
    down by count. *)
Theorem rest_repositories_ranked (name s e : string) (w w' : world) (d : contributions) :
  fetch_with_rest_api up name s e w = (Ok d, w') ->
  exists resp events start end_ repos,
    events_answer up name 100 = Ok resp /\ json resp = Ok events /\
    fromisoformat s = Ok start /\ fromisoformat (e ++ "T23:59:59") = Ok end_ /\
    k_repositoryContributions d = Some repos /\
    NoDup (map rc_repo repos) /\
    descending (map rc_count repos) = true /\
    Forall (fun r => exists short,
              r = mkRepoContribution (Some short) None (commits_to start end_ short events)
                    false None None None None None /\
              exists ev, In ev events /\ pushes_to start end_ short ev = true) repos /\
    (forall ev,
       In ev events -> counted start end_ ev = true ->
       exists short, short_name ev = Ok short /\ In (Some short) (map rc_repo repos)).
Proof.
  intros F. destruct (rest_ok_inv up name s e w w' d F) as (resp & events & A & _ & J & P & _).
  exists resp, events. revert P. unfold process_events.
  destruct (fromisoformat s) as [start|x]; [|discriminate]. cbn [rbind].
  destruct (fromisoformat (e ++ "T23:59:59")) as [end_|x]; [|discriminate]. cbn [rbind].
  destruct (push_loop start end_ ([], []) events) as [[daily_map repo_map]|x] eqn:L;
    [|discriminate].
  cbn [rbind]. intros E. injection E as <-. cbn [k_repositoryContributions].
  exists start, end_. eexists.
  split; [exact A|]. split; [exact J|]. split; [reflexivity|]. split; [reflexivity|].
  split; [reflexivity|].
  pose proof (push_loop_repos _ _ _ _ _ L ltac:(constructor)) as N. cbn [snd] in N.
  pose proof (push_loop_entries _ _ _ _ _ L) as K. cbn [snd] in K.
  assert (Permutation (PyList.sorted_by_rev Z.ltb snd (PyDict.items repo_map)) repo_map) as Pm
    by apply sort_perm.
  split; [|split; [|split]].
  - rewrite map_map. cbn [rc_repo].
    rewrite <- (map_map fst Some). apply Finite.Injective_map_NoDup; [congruence|].
    eapply Permutation_NoDup; [|exact N].
    apply Permutation_map. symmetry. exact Pm.
  - rewrite map_map. cbn [rc_count].
    exact (sorted_by_rev_descending snd (PyDict.items repo_map)).
  - apply Forall_forall. intros r I. apply in_map_iff in I as ([k c] & <- & I).
    apply (Permutation_in _ Pm) in I. cbn [fst snd]. exists k.
    destruct (K k) as [C M]. rewrite (dict_in_get k c repo_map N I) in C. cbn in C.
    split; [now rewrite C|].
    assert (In k (PyDict.keys repo_map)) as Ik.
    { unfold PyDict.keys. apply in_map_iff. now exists (k, c). }
    apply M in Ik as [[]|H]. exact H.
  - intros ev I C.
    destruct (push_loop_short_name _ _ _ _ _ _ L I C) as (short & Sn).
    exists short. split; [exact Sn|].
    assert (In short (PyDict.keys repo_map)) as Ik.
    { apply (K short). right. exists ev. split; [exact I|].
      unfold pushes_to. now rewrite C, Sn, String.eqb_refl. }
    rewrite map_map. cbn [rc_repo]. rewrite <- (map_map fst Some). apply in_map.
    eapply Permutation_in; [apply Permutation_map; symmetry; exact Pm|exact Ik].
Qed.

End RestEntries.

Section YearStrings.
Import Calendar Datetime Models World Github Routes Spec Properties.

Lemma four_digit_years : all_from (Z.to_nat 9000) 1000 four_digit_year = true.
Proof. vm_compute. reflexivity. Qed.

Lemma of_int_pad4 (y : Z) : 1000 <= y <= 9999 -> PyStr.of_int y = pad4 y.
Proof.
  intros H. apply String.eqb_eq.
  apply (all_from_spec four_digit_year _ 1000 four_digit_years).
  rewrite Z2Nat.id; lia.
Qed.

End YearStrings.

Section FurtherInstances.
Import Calendar Datetime Models World Github Routes Spec Examples Properties Scenarios.
Local Open Scope string_scope.

(** X1 at work: the row of July 1 is fresh, and a refresh fetches all the
    same. *)
Lemma refresh_fetches_again_witness :
  refresh_yearbook_stats demo_upstream (at_noon 2024 8 1) "octocat" 2024 None fresh_world =
  get_yearbook_stats demo_upstream (at_noon 2024 8 1) "octocat" 2024 None empty_world.
Proof.
  exact (proj1 (refresh_fetches_again demo_upstream (at_noon 2024 8 1) "octocat" 2024 None
                  fresh_world ltac:(vm_compute; lia))).
Defined.

(** X2 at work on the table with two rows of octocat for 2024. *)
Lemma duplicated_key_is_stuck_witness :
  refresh_yearbook_stats demo_upstream (at_noon 2024 8 1) "octocat" 2024 None duplicated_world
    = (Raise MultipleResultsFound, duplicated_world) /\
  get_yearbook_stats demo_upstream (at_noon 2024 8 1) "octocat" 2024 None duplicated_world
    = (Raise MultipleResultsFound, duplicated_world).
Proof.
  destruct (duplicated_key_is_stuck demo_upstream (at_noon 2024 8 1) "octocat" 2024 None
              duplicated_world (cached_row (at_noon 2024 5 1)) (cached_row (at_noon 2024 7 1))
              [] eq_refl) as (R & _ & G).
  split; [exact R|]. exact (G None eq_refl).
Defined.

(** X3 at work: a request about hubot leaves the row of octocat alone. *)
Lemma other_keys_are_untouched_witness :
  rows_of "octocat" 2024
    (snd (get_yearbook_stats demo_upstream (at_noon 2024 8 1) "hubot" 2024 None fresh_world))
  = [cached_row (at_noon 2024 7 1)].
Proof.
  exact (proj1 (other_keys_are_untouched demo_upstream (at_noon 2024 8 1)
                  "hubot" "octocat" 2024 2024 None fresh_world ltac:(discriminate))).
Defined.


(** X5 at work: octocat is fetched on August 1, and served from the
    table in September by an upstream that reports no push. *)
Lemma answered_record_is_served_again_witness :
  exists r w',
    get_yearbook_stats demo_upstream (at_noon 2024 8 1) "octocat" 2024 None empty_world
      = (Ok r, w') /\
    fst (get_yearbook_stats unordered_upstream (at_noon 2024 9 1) "octocat" 2024 None w')
      = Ok (mkStatsResponse (body r) true).
Proof.
  destruct (get_yearbook_stats demo_upstream (at_noon 2024 8 1) "octocat" 2024 None empty_world)
    as [[r|e] w'] eqn:G; [|vm_compute in G; discriminate].
  exists r, w'. split; [reflexivity|].
  refine (proj1 (proj2 (answered_record_is_served_again demo_upstream unordered_upstream
            (at_noon 2024 8 1) (at_noon 2024 9 1) "octocat" 2024 None None None
            empty_world w' r ltac:(vm_compute; lia) G _ _))).
  - vm_compute in G. injection G as _ <-. reflexivity.
  - intros t Ht. vm_compute in G. injection G as _ <-. vm_compute in Ht. discriminate.
Defined.

(** X6 at work on the scenario of the specification, for 2024. *)
Lemma streaks_within_active_days_witness :
  exists stats,
    build_stats (at_noon 2024 8 1) "octocat" 2024 scenario_data = Ok stats /\
    active_days stats = 5 /\
    0 <= longest_streak stats <= active_days stats /\
    0 <= current_streak stats <= active_days stats.
Proof.
  destruct (build_stats (at_noon 2024 8 1) "octocat" 2024 scenario_data) as [stats|e] eqn:B;
    [|vm_compute in B; discriminate].
  exists stats. split; [reflexivity|].
  destruct (streaks_within_active_days (at_noon 2024 8 1) "octocat" 2024 scenario_data stats B)
    as (A & _ & L & _ & C).
  split; [|split; assumption].
  vm_compute in B. injection B as <-. reflexivity.
Defined.

(** X7 at work: counts 2, 5, 2 are ranked 5, 2, 2, the two entries with
    2 commits in the order of the answer. *)
Lemma repositories_ranked_by_count_witness :
  exists d ranked,
    process_graphql busy_answer = Ok d /\
    k_repositoryContributions d = Some ranked /\
    map rc_count ranked = [5; 2; 2] /\
    map rc_repo (with_count 2 ranked) = [Some "hello"; None].
Proof.
  destruct (repositories_ranked_by_count busy_answer _ eq_refl) as (ranked & K & _ & _ & S).
  eexists. exists ranked. split; [reflexivity|]. split; [exact K|].
  split; [injection K as <-; reflexivity|]. rewrite (S 2). reflexivity.
Defined.

(** X8 at work on the public events of octocat: 3 + 2 commits. *)
Lemma rest_commits_are_conserved_witness :
  exists d w' daily_list repos,
    fetch_with_rest_api demo_upstream "octocat" "2024-01-01" "2024-12-31" empty_world
      = (Ok d, w') /\
    k_dailyContributions d = Some daily_list /\
    k_repositoryContributions d = Some repos /\
    k_totalCommits d = Some 5 /\
    sum_of (map count daily_list) = sum_of (map rc_count repos).
Proof.
  eexists. eexists.
  destruct (rest_commits_are_conserved demo_upstream "octocat" "2024-01-01" "2024-12-31"
              empty_world _ _ eq_refl)
    as (resp & events & start & end_ & daily_list & repos & _ & _ & _ & _ & D & R & _ & _ & SD & SR).
  exists daily_list, repos. split; [reflexivity|]. split; [exact D|]. split; [exact R|].
  split; [reflexivity|]. now rewrite SD, SR.
Defined.

(** X9 at work: the pushes to [alice/util] and to [bob/util] are one
    entry [util] of 5 commits, ahead of [notes] with 4. *)
Lemma rest_repositories_ranked_witness :
  exists d w' repos,
    fetch_with_rest_api namesake_upstream "octocat" "2024-01-01" "2024-12-31" empty_world
      = (Ok d, w') /\
    k_repositoryContributions d = Some repos /\
    map rc_repo repos = [Some "util"; Some "notes"] /\
    map rc_count repos = [5; 4] /\
    NoDup (map rc_repo repos).
Proof.
  eexists. eexists.
  destruct (rest_repositories_ranked namesake_upstream "octocat" "2024-01-01" "2024-12-31"
              empty_world _ _ eq_refl)
    as (resp & events & start & end_ & repos & _ & _ & _ & _ & K & N & _).
  exists repos. split; [reflexivity|]. split; [exact K|].
  injection K as <-. split; [reflexivity|]. split; [reflexivity|exact N].
Defined.

(** X10 at work on the answer about the owner: one public and one
    private repository. *)
Lemma public_and_private_repositories_witness :
  exists d,
    process_graphql owner_answer = Ok d /\
    k_publicRepos d = Some 1 /\ k_privateRepos d = Some 1.
Proof.
  destruct (public_and_private_repositories owner_answer _ eq_refl) as (V & U & _).
  eexists. split; [reflexivity|]. split; [exact U|exact V].
Defined.

End FurtherInstances.

(** * The token routes and the visit log *)

Section TokenRoutes.
Import Calendar Datetime Models World Github Routes Spec Tokens.

Lemma named_unique (name : string) (table : list TokenRow) :
  NoDup (usernames table) -> (List.length (filter (named name) table) <= 1)%nat.
Proof.
  unfold usernames. induction table as [|t table IH]; cbn [map filter List.length]; [lia|].
  intros N. inversion N as [|? ? Nt Nl]; subst. specialize (IH Nl).
  destruct (named name t) eqn:E; [|exact IH].
  cbn [List.length]. destruct (filter (named name) table) as [|t' l] eqn:F; [cbn; lia|].
  exfalso. apply Nt. assert (In t' (filter (named name) table)) as I by (rewrite F; now left).
  apply filter_In in I as [I E']. unfold named in E, E'.
  apply String.eqb_eq in E, E'. apply in_map_iff. exists t'. split; [congruence|exact I].
Qed.

Lemma filter_named_other (name other : string) (data : TokenCreate) (utcnow : datetime)
    (table : list TokenRow) :
  other <> name ->
  filter (named other)
    (map (fun t => if named name t then written utcnow (ut_username (columns t)) data else t)
         table) = filter (named other) table.
Proof.
  intros N. induction table as [|t table IH]; [reflexivity|].
  cbn [map filter]. rewrite IH. destruct (named name t) eqn:E; [|reflexivity].
  unfold named in *. cbn [written columns ut_username].
  apply String.eqb_eq in E. rewrite E.
  destruct (String.eqb_spec name other) as [->|_]; [contradiction|reflexivity].
Qed.

Lemma filter_named_written (name : string) (data : TokenCreate) (utcnow : datetime)
    (table : list TokenRow) :
  filter (named name)
    (map (fun t => if named name t then written utcnow (ut_username (columns t)) data else t)
         table) =
  map (fun _ => written utcnow name data) (filter (named name) table).
Proof.
  induction table as [|t table IH]; [reflexivity|].
  cbn [map filter]. rewrite IH. destruct (named name t) eqn:E.
  - unfold named in E. apply String.eqb_eq in E. rewrite E.
    unfold named at 1. cbn [written columns ut_username]. rewrite String.eqb_refl. reflexivity.
  - rewrite E. reflexivity.
Qed.

Lemma usernames_written (name : string) (data : TokenCreate) (utcnow : datetime)
    (table : list TokenRow) :
  usernames
    (map (fun t => if named name t then written utcnow (ut_username (columns t)) data else t)
         table) = usernames table.
Proof.
  unfold usernames. rewrite map_map. apply map_ext. intros t.
  now destruct (named name t).
Qed.

Lemma filter_negb_named (name other : string) (table : list TokenRow) :
  filter (named other) (filter (fun t => negb (named name t)) table) =
  if String.eqb other name then [] else filter (named other) table.
Proof.
  induction table as [|t table IH]; cbn [filter]; [now destruct (String.eqb other name)|].
  destruct (named name t) eqn:E; cbn [negb filter]; rewrite IH.
  - destruct (String.eqb_spec other name) as [->|N]; [reflexivity|].
    destruct (named other t) eqn:E'; [|reflexivity].
    unfold named in E, E'. apply String.eqb_eq in E, E'. congruence.
  - destruct (String.eqb_spec other name) as [->|N]; [now rewrite E|reflexivity].
Qed.

(** X11. Saving a token and asking for it: when the table holds at most
    one row of the user, [save_token] answers, leaves exactly one row of
    the user, marked valid whatever it was before, and [get_token] then
    shows the mask of the saved token, its type and scopes and the time
    of the write; the rows of the other users are what they were. *)
Theorem saved_token_is_shown (utcnow : datetime) (data : TokenCreate) (table : list TokenRow) :
  (List.length (filter (named (tc_username data)) table) <= 1)%nat ->
  exists table',
    save_token utcnow data table = Ok (mkStatusMessage "ok" "Token saved", table') /\
    filter (named (tc_username data)) table' = [written utcnow (tc_username data) data] /\
    get_token (tc_username data) table' =
      Ok (TokenInfo (mask_token (tc_github_token data)) (tc_token_type data) (tc_scopes data)
            true (Some (isoformat utcnow))) /\
    forall other, other <> tc_username data ->
      filter (named other) table' = filter (named other) table.
Proof.
  intros L. unfold save_token, select_token.
  destruct (filter (named (tc_username data)) table) as [|t [|t' l]] eqn:F;
    [| |cbn in L; lia]; cbn [scalar_one_or_none rbind]; eexists; (split; [reflexivity|]).
  - assert (filter (named (tc_username data))
              (table ++ [written utcnow (tc_username data) data]) =
            [written utcnow (tc_username data) data]) as W.
    { rewrite filter_app, F. cbn [filter app]. unfold named at 1.
      cbn [written columns ut_username]. now rewrite String.eqb_refl. }
    split; [exact W|]. split.
    + unfold get_token, select_token. rewrite W. reflexivity.
    + intros other N. rewrite filter_app. cbn [filter]. unfold named at 2.
      cbn [written columns ut_username].
      destruct (String.eqb_spec (tc_username data) other) as [E|_]; [congruence|].
      apply app_nil_r.
  - assert (filter (named (tc_username data))
              (map (fun t => if named (tc_username data) t
                             then written utcnow (ut_username (columns t)) data else t) table) =
            [written utcnow (tc_username data) data]) as W.
    { rewrite filter_named_written, F. reflexivity. }
    split; [exact W|]. split.
    + unfold get_token, select_token. rewrite W. reflexivity.
    + intros other N. now apply filter_named_other.
Qed.

(** X12. The token routes keep user names unique, as the column is
    declared: on a table without two rows of one user, [save_token] and
    [delete_token] never raise, and the table they leave has no two rows
    of one user either. *)
Theorem usernames_stay_unique (utcnow : datetime) (data : TokenCreate) (name : string)
    (table : list TokenRow) :
  NoDup (usernames table) ->
  (exists table',
     save_token utcnow data table = Ok (mkStatusMessage "ok" "Token saved", table') /\
     NoDup (usernames table')) /\
  (exists table',
     delete_token name table = Ok (mkStatusMessage "ok" "Token deleted", table') /\
     NoDup (usernames table')) /\
  (exists info, get_token name table = Ok info).
Proof.
  intros N. split; [|split].
  - pose proof (named_unique (tc_username data) table N) as L.
    unfold save_token, select_token.
    destruct (filter (named (tc_username data)) table) as [|t [|t' l]] eqn:F;
      [| |cbn in L; lia]; cbn [scalar_one_or_none rbind]; eexists; (split; [reflexivity|]).
    + unfold usernames. rewrite map_app. cbn [map written columns ut_username].
      apply (Permutation_NoDup (l := tc_username data :: usernames table)).
      * apply Permutation_cons_append.
      * constructor; [|exact N]. intros I. unfold usernames in I.
        apply in_map_iff in I as (t & E & I).
        assert (In t (filter (named (tc_username data)) table)) as I'.
        { apply filter_In. split; [exact I|]. unfold named. now apply String.eqb_eq. }
        rewrite F in I'. exact I'.
    + now rewrite usernames_written.
  - pose proof (named_unique name table N) as L.
    unfold delete_token, select_token.
    destruct (filter (named name) table) as [|t [|t' l]] eqn:F;
      [| |cbn in L; lia]; cbn [scalar_one_or_none rbind]; eexists; (split; [reflexivity|]).
    + exact N.
    + clear F L. unfold usernames in *. induction table as [|t0 table IH]; [constructor|].
      cbn [map] in N. inversion N as [|? ? Nt Nl]; subst. cbn [filter].
      destruct (negb (named name t0)); [|now apply IH].
      cbn [map]. constructor; [|now apply IH].
      intros I. apply Nt. apply in_map_iff in I as (x & E & I).
      apply filter_In in I as [I _]. apply in_map_iff. now exists x.
  - pose proof (named_unique name table N) as L.
    unfold get_token, select_token.
    destruct (filter (named name) table) as [|t [|t' l]] eqn:F;
      [| |cbn in L; lia]; cbn [scalar_one_or_none rbind]; eexists; reflexivity.
Qed.

(** X13. Deleting a token: when the table holds at most one row of the
    user, [delete_token] answers, [get_token] then reports that no token
    exists, the rows of the other users are what they were, and deleting
    once more changes nothing. *)
Theorem deleted_token_is_gone (name : string) (table : list TokenRow) :
  (List.length (filter (named name) table) <= 1)%nat ->
  exists table',
    delete_token name table = Ok (mkStatusMessage "ok" "Token deleted", table') /\
    get_token name table' = Ok NoToken /\
    (forall other, other <> name -> filter (named other) table' = filter (named other) table) /\
    delete_token name table' = Ok (mkStatusMessage "ok" "Token deleted", table').
Proof.
  intros L. unfold delete_token at 1, select_token.
  destruct (filter (named name) table) as [|t [|t' l]] eqn:F;
    [| |cbn in L; lia]; cbn [scalar_one_or_none rbind]; eexists; (split; [reflexivity|]).
  - unfold get_token, delete_token, select_token. rewrite F. cbn [scalar_one_or_none rbind].
    repeat split.
  - pose proof (filter_negb_named name name table) as G. rewrite String.eqb_refl in G.
    unfold get_token, delete_token, select_token. rewrite G. cbn [scalar_one_or_none rbind].
    split; [reflexivity|]. split; [|reflexivity].
    intros other N. rewrite filter_negb_named.
    destruct (String.eqb_spec other name); [contradiction|reflexivity].
Qed.

End TokenRoutes.

Section Slices.
Import Tokens.
Local Open Scope nat_scope.

Lemma length_append (a b : string) :
  String.length (a ++ b) = String.length a + String.length b.
Proof. induction a as [|c a IH]; cbn [append String.length]; [reflexivity|now rewrite IH]. Qed.

Lemma append_associative (a b c : string) : ((a ++ b) ++ c = a ++ b ++ c)%string.
Proof. induction a as [|x a IH]; cbn [append]; [reflexivity|now rewrite IH]. Qed.

Lemma substring_all (s : string) : substring 0 (String.length s) s = s.
Proof. induction s as [|c s IH]; cbn [substring String.length]; [reflexivity|now rewrite IH]. Qed.

(** [s = s[:n] + s[n:]]. *)
Lemma take_drop (n : nat) (s : string) :
  s = (substring 0 n s ++ substring n (String.length s - n) s)%string.
Proof.
  revert s. induction n as [|n IH]; intros s.
  - rewrite Nat.sub_0_r, substring_all. now destruct s.
  - destruct s as [|c s]; [reflexivity|].
    cbn [substring String.length append Nat.sub]. f_equal. apply IH.
Qed.

Lemma length_take (n : nat) (s : string) :
  n <= String.length s -> String.length (substring 0 n s) = n.
Proof.
  revert s. induction n as [|n IH]; intros s L.
  - now destruct s.
  - destruct s as [|c s]; cbn [String.length] in L; [lia|].
    cbn [substring String.length]. rewrite IH; lia.
Qed.

Lemma take_append (n : nat) (a b : string) :
  n <= String.length a -> substring 0 n (a ++ b) = substring 0 n a.
Proof.
  revert a. induction n as [|n IH]; intros a L.
  - destruct a, b; reflexivity.
  - destruct a as [|c a]; cbn [String.length] in L; [lia|].
    cbn [append substring]. f_equal. apply IH. lia.
Qed.

(** [s = s[:-n] + s[-n:]] when [s] has [n] characters at least. *)
Lemma front_last (n : nat) (s : string) :
  n <= String.length s ->
  s = (substring 0 (String.length s - n) s ++ last_chars n s)%string /\
  String.length (last_chars n s) = n.
Proof.
  intros L. pose proof (take_drop (String.length s - n) s) as T.
  replace (String.length s - (String.length s - n)) with n in T by lia.
  fold (last_chars n s) in T. split; [exact T|].
  pose proof (f_equal String.length T) as E. rewrite length_append, length_take in E; lia.
Qed.

(** X15. The mask of a stored token: a token of at most 12 characters
    is hidden altogether; a longer one is shown by its first 8 and its
    last 4 characters around three dots, the characters in between, one
    at least, being withheld. *)
Theorem mask_token_hides_the_middle (token : string) :
  (String.length token <= 12 -> mask_token token = "***"%string) /\
  (12 < String.length token ->
   exists first middle end_,
     token = (first ++ middle ++ end_)%string /\
     String.length first = 8 /\ String.length end_ = 4 /\
     String.length middle = String.length token - 12 /\
     mask_token token = (first ++ "..." ++ end_)%string).
Proof.
  unfold mask_token. split; intros L.
  - apply Nat.ltb_ge in L. now rewrite L.
  - pose proof L as L'. apply Nat.ltb_lt in L'. rewrite L'.
    destruct (front_last 4 token ltac:(lia)) as [F Fl].
    set (front := substring 0 (String.length token - 4) token) in *.
    assert (String.length front = String.length token - 4) as Hf.
    { unfold front. apply length_take. lia. }
    pose proof (take_drop 8 front) as T.
    assert (substring 0 8 front = PyStr.take 8 token) as P.
    { unfold PyStr.take. rewrite F at 1. symmetry. apply take_append. lia. }
    exists (PyStr.take 8 token), (substring 8 (String.length front - 8) front),
           (last_chars 4 token).
    assert (String.length (PyStr.take 8 token) = 8) as Hp.
    { unfold PyStr.take. apply length_take. lia. }
    split; [|split; [exact Hp|split; [exact Fl|split; [|reflexivity]]]].
    + rewrite <- P, <- append_associative, <- T. exact F.
    + pose proof (f_equal String.length T) as E. rewrite length_append, P, Hp in E. lia.
Qed.

End Slices.

Section TokenComposition.
Import Calendar Datetime Models World Github Routes Spec Tokens.

Variable up : upstream.
Variable utcnow : datetime.

Lemma save_token_row (now : datetime) (data : TokenCreate) (table table' : list TokenRow)
    (msg : status_message) :
  save_token now data table = Ok (msg, table') ->
  filter (named (tc_username data)) table' = [written now (tc_username data) data].
Proof.
  unfold save_token, select_token.
  destruct (filter (named (tc_username data)) table) as [|t [|t' l]] eqn:F;
    cbn [scalar_one_or_none rbind]; [| |discriminate]; intros E; injection E as _ <-.
  - rewrite filter_app, F. cbn [filter app]. unfold named at 1.
    cbn [written columns ut_username]. now rewrite String.eqb_refl.
  - rewrite filter_named_written, F. reflexivity.
Qed.

Lemma valid_tokens_view (name : string) (table : list TokenRow) :
  filter (fun t => String.eqb (ut_username t) name && is_valid t) (stats_view table) =
  map columns (filter (fun t => is_valid (columns t)) (filter (named name) table)).
Proof.
  unfold stats_view. induction table as [|t table IH]; [reflexivity|].
  cbn [map filter]. unfold named at 1.
  destruct (String.eqb (ut_username (columns t)) name); cbn [andb filter].
  - destruct (is_valid (columns t)); cbn [map]; now rewrite IH.
  - exact IH.
Qed.

(** X14. A token saved through [save_token] is the one a later stats
    request without a token works with, also when the row of the user was
    marked invalid before: on any world whose token table is the one
    [save_token] left, such a request is served with the saved token. *)
Theorem saved_token_serves_stats
    (now : datetime) (data : TokenCreate) (table table' : list TokenRow)
    (msg : status_message) (y : Z) (token : option string) (w : world) :
  save_token now data table = Ok (msg, table') ->
  user_tokens w = stats_view table' ->
  PyStr.truthy token = false ->
  get_yearbook_stats up utcnow (tc_username data) y token w =
  serve_stats up utcnow (tc_username data) y (Some (tc_github_token data)) w.
Proof.
  intros S V T. apply get_yearbook_stats_resolved.
  rewrite (resolve_token_stored (tc_username data) token w
             (mkUserToken (tc_username data) (tc_github_token data) true) T); [reflexivity|].
  rewrite V, valid_tokens_view, (save_token_row now data table table' msg S). reflexivity.
Qed.

End TokenComposition.

Section VisitLogs.
Import Calendar Datetime Models World Github Routes Spec Visits.

Lemma total_us_minus_minutes (d since : datetime) (m : Z) :
  minus_minutes d m = Ok since -> total_us since = total_us d - m * 60000000.
Proof.
  unfold minus_minutes, of_total_us.
  set (us := total_us d - m * 60000000).
  destruct ((1 <=? us / US_PER_DAY) && (us / US_PER_DAY <=? MAXORDINAL)); [|discriminate].
  intros E. injection E as <-. unfold total_us at 1.
  cbn [toordinal second_of_day microsecond]. unfold US_PER_DAY. euclid.
Qed.




Lemma same_visit_later (data : VisitCreate) (since since' : datetime) (v : VisitLog) :
  total_us since <= total_us since' ->
  same_visit data since' v = true -> same_visit data since v = true.
Proof.
  unfold same_visit. rewrite !andb_true_iff, !Z.leb_le. intros L [H T]. split; [exact H|lia].
Qed.

End VisitLogs.

Section VisitTheorems.
Import Calendar Datetime Models World Github Routes Spec Visits.

Variable fresh_id : list VisitLog -> Z.

Lemma filter_none {A} (p : A -> bool) (l : list A) :
  (forall v, In v l -> p v = false) -> filter p l = [].
Proof.
  induction l as [|a l IH]; intros H; [reflexivity|].
  cbn [filter]. rewrite (H a (or_introl eq_refl)). apply IH. intros v I. apply H. now right.
Qed.

(** The row [log_visit] writes. *)
Lemma log_visit_new (utcnow written_at : datetime) (data : VisitCreate) (request : Request)
    (table table' : list VisitLog) (answer : visit_answer) :
  log_visit fresh_id utcnow written_at data request table = Ok (answer, table') ->
  deduplicated answer = false ->
  exists visit,
    table' = table ++ [visit] /\ answer = mkVisitAnswer "ok" (fresh_id table) false /\
    vl_id visit = fresh_id table /\
    vl_target_username visit = vc_target_username data /\
    vl_target_year visit = vc_target_year data /\
    vl_visitor_fingerprint visit = vc_visitor_fingerprint data /\
    vl_visitor_ip visit = client_ip request /\
    vl_visited_at visit = written_at /\
    (PyStr.truthy (vc_visitor_fingerprint data) = true ->
     exists since,
       minus_minutes utcnow 5 = Ok since /\ filter (same_visit data since) table = []).
Proof.
  unfold log_visit. destruct (PyStr.truthy (vc_visitor_fingerprint data)).
  - destruct (minus_minutes utcnow 5) as [since|e]; [|discriminate]. cbn [rbind].
    destruct (filter (same_visit data since) table) as [|v [|v' l]] eqn:F;
      cbn [scalar_one_or_none rbind]; [| |discriminate].
    + intros E _. injection E as <- <-. eexists. split; [reflexivity|].
      repeat split. intros _. now exists since.
    + intros E D. injection E as <- <-. discriminate.
  - cbn [rbind]. intros E _. injection E as <- <-. eexists. split; [reflexivity|].
    repeat split. discriminate.
Qed.

(** X16. A visit that carries a fingerprint is counted once in five
    minutes: after a visit that was logged, a second one for the same
    target, year and fingerprint, made while the row of the first is not
    older than five minutes, is answered with the id of the first,
    [deduplicated = true], and adds no row, whatever else the two requests
    say. Without a fingerprint the second visit is logged as well. *)
Theorem repeated_visit_is_counted_once
    (now1 written1 now2 written2 since : datetime) (data data' : VisitCreate)
    (request request' : Request) (table table1 : list VisitLog) (answer : visit_answer) :
  vc_target_username data' = vc_target_username data ->
  vc_target_year data' = vc_target_year data ->
  vc_visitor_fingerprint data' = vc_visitor_fingerprint data ->
  log_visit fresh_id now1 written1 data request table = Ok (answer, table1) ->
  deduplicated answer = false ->
  total_us now1 <= total_us now2 ->
  minus_minutes now2 5 = Ok since ->
  total_us since <= total_us written1 ->
  (PyStr.truthy (vc_visitor_fingerprint data) = true ->
   log_visit fresh_id now2 written2 data' request' table1 =
   Ok (mkVisitAnswer "ok" (visit_id answer) true, table1)) /\
  (PyStr.truthy (vc_visitor_fingerprint data) = false ->
   exists visit,
     log_visit fresh_id now2 written2 data' request' table1 =
     Ok (mkVisitAnswer "ok" (fresh_id table1) false, table1 ++ [visit])).
Proof.
  intros U Y F L D N M W.
  destruct (log_visit_new now1 written1 data request table table1 answer L D)
    as (visit & -> & -> & Vi & Vu & Vy & Vf & _ & Vt & S).
  split; intros T.
  - destruct (S T) as (since1 & M1 & E1).
    unfold log_visit. rewrite F, T, M. cbn [rbind].
    assert (filter (same_visit data' since) (table ++ [visit]) = [visit]) as ->.
    { rewrite filter_app.
      assert (filter (same_visit data' since) table = []) as ->.
      { apply filter_none. intros v I.
        destruct (same_visit data' since v) eqn:Sv; [|reflexivity]. exfalso.
        assert (same_visit data since1 v = true) as Sv1.
        { apply (same_visit_later data since1 since v).
          - rewrite (total_us_minus_minutes _ _ _ M), (total_us_minus_minutes _ _ _ M1). lia.
          - revert Sv. unfold same_visit. now rewrite U, Y, F. }
        assert (In v (filter (same_visit data since1) table)) as I'
          by (apply filter_In; now split).
        rewrite E1 in I'. exact I'. }
      cbn [filter app]. unfold same_visit. rewrite Vu, Vy, Vf, Vt, U, Y, F, !String.eqb_refl,
        Z.eqb_refl. cbn [andb].
      destruct (vc_visitor_fingerprint data) as [f|]; [|discriminate T].
      rewrite String.eqb_refl. cbn [andb]. apply Z.leb_le in W. now rewrite W. }
    cbn [scalar_one_or_none rbind visit_id]. now rewrite Vi.
  - unfold log_visit. rewrite F, T. cbn [rbind]. eexists. reflexivity.
Qed.

End VisitTheorems.

Section VisitInvariant.
Import Calendar Datetime Models World Github Routes Spec Visits.

Variable fresh_id : list VisitLog -> Z.
Variable utcnow : datetime.
Variable written_at : datetime.




End VisitInvariant.

Section Stripping.
Import Calendar Datetime Models World Github Routes Spec Visits Properties.

Lemma list_of_append (a b : string) :
  list_ascii_of_string (a ++ b) = (list_ascii_of_string a ++ list_ascii_of_string b)%list.
Proof. induction a as [|c a IH]; cbn [append list_ascii_of_string app]; [reflexivity|now rewrite IH]. Qed.

Lemma string_of_app (l l' : list ascii) :
  string_of_list_ascii (l ++ l') = (string_of_list_ascii l ++ string_of_list_ascii l')%string.
Proof. induction l as [|c l IH]; cbn [app string_of_list_ascii append]; [reflexivity|now rewrite IH]. Qed.

Lemma reverse_append (a b : string) : reverse (a ++ b) = (reverse b ++ reverse a)%string.
Proof. unfold reverse. now rewrite list_of_append, rev_app_distr, string_of_app. Qed.

Lemma reverse_involutive (s : string) : reverse (reverse s) = s.
Proof.
  unfold reverse. now rewrite list_ascii_of_string_of_list_ascii, rev_involutive,
    string_of_list_ascii_of_string.
Qed.

Lemma all_space_reverse (s : string) : all_space (reverse s) = all_space s.
Proof.
  unfold all_space, reverse. rewrite list_ascii_of_string_of_list_ascii.
  induction (list_ascii_of_string s) as [|c l IH]; [reflexivity|].
  cbn [rev forallb]. rewrite forallb_app, IH. cbn [forallb].
  rewrite andb_true_r. apply andb_comm.
Qed.

(** [lstrip] takes the white space off the front, all of it. *)
Lemma lstrip_spec (s : string) :
  exists lead,
    s = (lead ++ lstrip s)%string /\ all_space lead = true /\
    starts_with_space (lstrip s) = false.
Proof.
  induction s as [|c s (lead & E & A & H)]; cbn [lstrip].
  - exists EmptyString. repeat split.
  - destruct (is_space c) eqn:C.
    + exists (String c lead). cbn [append]. split; [now rewrite <- E|].
      split; [|exact H]. unfold all_space in *. cbn [list_ascii_of_string forallb].
      now rewrite C, A.
    + exists EmptyString. split; [reflexivity|]. split; [reflexivity|exact C].
Qed.

Lemma starts_with_space_append (a b : string) :
  starts_with_space (a ++ b) = false -> starts_with_space a = false.
Proof. destruct a as [|c a]; [reflexivity|exact (fun H => H)]. Qed.

(** [strip] takes the white space off both ends, all of it. *)
Lemma strip_spec (s : string) :
  exists lead trail,
    s = (lead ++ strip s ++ trail)%string /\
    all_space lead = true /\ all_space trail = true /\
    starts_with_space (strip s) = false /\
    starts_with_space (reverse (strip s)) = false.
Proof.
  destruct (lstrip_spec s) as (lead & E & A & H).
  destruct (lstrip_spec (reverse (lstrip s))) as (back & E' & A' & H').
  exists lead, (reverse back).
  assert (lstrip s = (strip s ++ reverse back)%string) as T.
  { rewrite <- (reverse_involutive (lstrip s)), E' at 1. now rewrite reverse_append. }
  split; [now rewrite <- T|]. split; [exact A|].
  split; [now rewrite all_space_reverse|].
  split.
  - rewrite T in H. now apply starts_with_space_append in H.
  - unfold strip. now rewrite reverse_involutive.
Qed.

End Stripping.

Section ClientAddress.
Import Calendar Datetime Models World Github Routes Spec Visits Properties.

Lemma append_empty (s : string) : (s ++ "")%string = s.
Proof. induction s as [|c s IH]; cbn [append]; [reflexivity|now rewrite IH]. Qed.

Lemma split_head (sep : ascii) (a b : string) :
  forallb (fun c => negb (Ascii.eqb c sep)) (list_ascii_of_string a) = true ->
  hd EmptyString (PyStr.split sep (a ++ b)) = (a ++ hd EmptyString (PyStr.split sep b))%string.
Proof.
  induction a as [|c a IH]; cbn [append list_ascii_of_string forallb]; [reflexivity|].
  intros H. apply andb_true_iff in H as [Hc Ha]. specialize (IH Ha).
  cbn [PyStr.split]. apply negb_true_iff in Hc. rewrite Hc.
  destruct (PyStr.split sep (a ++ b)) as [|h t]; cbn [hd] in *; now rewrite <- IH.
Qed.

(** X18. The address that is recorded is the one the request claims: a
    non-empty [x-forwarded-for] header wins over the address of the
    socket, and its first entry, up to the first comma, with the white
    space taken off both ends, is the address of the visit, whatever
    follows the comma. Only without the header, or with an empty one, the
    address of the socket is taken. *)
Theorem forwarded_address_is_recorded (first others : string) (request : Request) :
  forallb (fun c => negb (Ascii.eqb c ",")) (list_ascii_of_string first) = true ->
  (first <> EmptyString /\ x_forwarded_for request = Some first \/
   x_forwarded_for request = Some (first ++ String "," others)%string) ->
  client_ip request = Some (strip first) /\
  (exists lead trail,
     first = (lead ++ strip first ++ trail)%string /\
     all_space lead = true /\ all_space trail = true /\
     starts_with_space (strip first) = false /\
     starts_with_space (reverse (strip first)) = false) /\
  (forall fresh_id utcnow written_at data table answer table',
     log_visit fresh_id utcnow written_at data request table = Ok (answer, table') ->
     deduplicated answer = false ->
     exists visit, table' = (table ++ [visit])%list /\ vl_visitor_ip visit = Some (strip first)) /\
  (forall request',
     PyStr.truthy (x_forwarded_for request') = false ->
     client_ip request' = client_host request').
Proof.
  intros C X.
  assert (client_ip request = Some (strip first)) as Ip.
  { unfold client_ip. destruct X as [[N X]|X]; rewrite X; cbn [PyStr.truthy default].
    - apply String.eqb_neq in N. rewrite N. cbn [negb].
      rewrite <- (append_empty first) at 1. rewrite (split_head "," first "" C).
      cbn [PyStr.split hd]. now rewrite append_empty.
    - replace (negb (String.eqb (first ++ String "," others)%string "")) with true
        by (destruct first; reflexivity).
      rewrite (split_head "," first (String "," others) C).
      cbn [PyStr.split hd]. rewrite Ascii.eqb_refl. cbn [hd]. now rewrite append_empty. }
  split; [exact Ip|]. split; [apply strip_spec|]. split.
  - intros fresh_id utcnow written_at data table answer table' L D.
    destruct (log_visit_new fresh_id utcnow written_at data request table table' answer L D)
      as (visit & E & _ & _ & _ & _ & _ & Vi & _).
    exists visit. split; [exact E|]. now rewrite Vi.
  - intros request' T. unfold client_ip. now rewrite T.
Qed.

End ClientAddress.

Section TokenInstances.
Import Calendar Datetime Models World Github Routes Spec Examples Tokens Visits Scenarios.
Local Open Scope string_scope.

(** X11 at work: the invalid row of octocat is overwritten. *)
Lemma saved_token_is_shown_witness :
  exists table',
    save_token (at_noon 2024 8 1) new_token stored_tokens =
      Ok (mkStatusMessage "ok" "Token saved", table') /\
    get_token "octocat" table' =
      Ok (TokenInfo "ghp_0123...XYZW" (Some "classic") (Some "repo") true
            (Some "2024-08-01T12:00:00")).
Proof.
  destruct (saved_token_is_shown (at_noon 2024 8 1) new_token stored_tokens
              ltac:(vm_compute; lia)) as (table' & S & _ & G & _).
  exists table'. split; [exact S|exact G].
Defined.

(** X12 at work on the table with the one row of octocat. *)
Lemma usernames_stay_unique_witness :
  exists table',
    save_token (at_noon 2024 8 1) new_token stored_tokens =
      Ok (mkStatusMessage "ok" "Token saved", table') /\
    NoDup (usernames table').
Proof.
  refine (proj1 (usernames_stay_unique (at_noon 2024 8 1) new_token "octocat" stored_tokens _)).
  vm_compute. constructor; [intros []|constructor].
Defined.

(** X13 at work: the row of octocat is deleted. *)
Lemma deleted_token_is_gone_witness :
  exists table',
    delete_token "octocat" stored_tokens = Ok (mkStatusMessage "ok" "Token deleted", table') /\
    get_token "octocat" table' = Ok NoToken.
Proof.
  destruct (deleted_token_is_gone "octocat" stored_tokens ltac:(vm_compute; lia))
    as (table' & D & G & _).
  exists table'. split; [exact D|exact G].
Defined.

(** X14 at work: the token saved for octocat serves the next request. *)
Lemma saved_token_serves_stats_witness :
  exists table',
    save_token (at_noon 2024 8 1) new_token stored_tokens =
      Ok (mkStatusMessage "ok" "Token saved", table') /\
    get_yearbook_stats demo_upstream (at_noon 2024 8 2) "octocat" 2024 None
      (mkWorld [] [] (stats_view table')) =
    serve_stats demo_upstream (at_noon 2024 8 2) "octocat" 2024
      (Some "ghp_0123456789abcdefXYZW") (mkWorld [] [] (stats_view table')).
Proof.
  eexists. split; [reflexivity|].
  eapply (saved_token_serves_stats demo_upstream (at_noon 2024 8 2) (at_noon 2024 8 1)
            new_token stored_tokens); reflexivity.
Defined.

(** X15 at work on a token of 24 characters: 12 of them are withheld. *)
Lemma mask_token_hides_the_middle_witness :
  exists first middle end_,
    "ghp_0123456789abcdefXYZW" = first ++ middle ++ end_ /\
    String.length middle = 12%nat /\
    mask_token "ghp_0123456789abcdefXYZW" = first ++ "..." ++ end_.
Proof.
  destruct (proj2 (mask_token_hides_the_middle "ghp_0123456789abcdefXYZW")
              ltac:(vm_compute; lia)) as (first & middle & end_ & E & _ & _ & L & M).
  exists first, middle, end_. split; [exact E|]. split; [exact L|exact M].
Defined.

(** X16 at work: a visit at noon and the same visit three minutes
    later. *)
Lemma repeated_visit_is_counted_once_witness :
  exists answer table1,
    log_visit rowid (august_1 43200) (august_1 43200) a_visit proxied_request [] =
      Ok (answer, table1) /\
    log_visit rowid (august_1 43380) (august_1 43380) a_visit proxied_request table1 =
      Ok (mkVisitAnswer "ok" (visit_id answer) true, table1).
Proof.
  eexists. eexists. split; [reflexivity|].
  refine (proj1 (repeated_visit_is_counted_once rowid
            (august_1 43200) (august_1 43200) (august_1 43380) (august_1 43380)
            (august_1 43080) a_visit a_visit proxied_request proxied_request [] _ _
            eq_refl eq_refl eq_refl eq_refl eq_refl _ eq_refl _) eq_refl);
    vm_compute; discriminate.
Defined.


(** X18 at work: the first entry of the header is taken without the
    white space around it. *)
Lemma forwarded_address_is_recorded_witness :
  client_ip padded_request = Some "203.0.113.7".
Proof.
  exact (proj1 (forwarded_address_is_recorded " 203.0.113.7 " " 10.0.0.1" padded_request
                  eq_refl (or_intror eq_refl))).
Defined.

End TokenInstances.

(** * The years the stats route can serve *)

Section YearDigits.
Import Calendar Datetime Models World Github Routes Spec Properties.

Ltac is_dash f H :=
  destruct f as [[] [] [] [] [] [] [] []]; cbn [list_ascii_of_string] in H; try discriminate H.

(** A string that [fromisoformat] reads starts with four digits and a dash. *)
Lemma fromisoformat_year (s : string) (d : datetime) :
  fromisoformat s = Ok d ->
  exists a b c e rest y4,
    s = String a (String b (String c (String e (String "-" rest)))) /\
    four_digits a b c e = Some y4.
Proof.
  intros H. unfold fromisoformat in H.
  destruct s as [|a [|b [|c [|e [|f s]]]]]; cbn [list_ascii_of_string] in H;
    try discriminate H.
  is_dash f H;
    destruct s as [|m1 [|m2 [|g [|d1 [|d2 rest]]]]]; cbn [list_ascii_of_string] in H;
    try discriminate H; is_dash g H.
  destruct (four_digits a b c e) as [y4|] eqn:Y; [|cbv beta iota in H; discriminate H].
  now exists a, b, c, e, (String m1 (String m2 (String "-" (String d1 (String d2 rest))))), y4.
Qed.

End YearDigits.

Section YearRange.
Import Calendar Datetime Models World Github Routes Spec Properties.
Local Open Scope string_scope.

Lemma of_int_negative (y : Z) : y < 0 -> exists s, PyStr.of_int y = String "-" s.
Proof.
  destruct y as [|p|p]; try lia. intros _. unfold PyStr.of_int. cbn [Z.to_int].
  eexists. reflexivity.
Qed.

(** The number a decimal stands for has as many digits at most. *)
Lemma of_uint_acc_bound (d : Decimal.uint) :
  forall acc,
    Z.pos (Pos.of_uint_acc d acc) < (Z.pos acc + 1) * 10 ^ Z.of_nat (Decimal.nb_digits d).
Proof.
  induction d as [|d IH|d IH|d IH|d IH|d IH|d IH|d IH|d IH|d IH|d IH]; intros acc;
    cbn [Pos.of_uint_acc Decimal.nb_digits]; [cbn; lia|..];
    rewrite Nat2Z.inj_succ, Z.pow_succ_r by lia;
    match goal with
    | |- Z.pos (Pos.of_uint_acc d ?a) < _ => pose proof (IH a) as B
    end;
    pose proof (Z.pow_pos_nonneg 10 (Z.of_nat (Decimal.nb_digits d)) ltac:(lia) ltac:(lia));
    rewrite ?Pos2Z.inj_add, ?Pos2Z.inj_mul in B; nia.
Qed.

Lemma of_uint_bound (d : Decimal.uint) :
  Z.of_N (Pos.of_uint d) < 10 ^ Z.of_nat (Decimal.nb_digits d).
Proof.
  induction d as [|d IH|d IH|d IH|d IH|d IH|d IH|d IH|d IH|d IH|d IH];
    cbn [Pos.of_uint Decimal.nb_digits]; [cbn; lia|..];
    rewrite Nat2Z.inj_succ, Z.pow_succ_r by lia;
    pose proof (Z.pow_pos_nonneg 10 (Z.of_nat (Decimal.nb_digits d)) ltac:(lia) ltac:(lia));
    [lia|..];
    match goal with
    | |- Z.of_N (N.pos (Pos.of_uint_acc d ?a)) < _ =>
        pose proof (of_uint_acc_bound d a) as B; cbn [Z.of_N]; nia
    end.
Qed.

Lemma to_uint_digits (p : positive) :
  10000 <= Z.pos p -> (5 <= Decimal.nb_digits (Pos.to_uint p))%nat.
Proof.
  intros H. pose proof (of_uint_bound (Pos.to_uint p)) as B.
  rewrite DecimalPos.Unsigned.of_to in B. cbn [Z.of_N] in B.
  destruct (le_lt_dec 5 (Decimal.nb_digits (Pos.to_uint p))) as [L|L]; [exact L|].
  exfalso.
  assert (10 ^ Z.of_nat (Decimal.nb_digits (Pos.to_uint p)) <= 10 ^ 4) as P.
  { apply Z.pow_le_mono_r; lia. }
  change (10 ^ 4) with 10000 in P. lia.
Qed.

(** The first character a decimal prints is a digit, not a dash. *)
Lemma string_of_uint_head (d : Decimal.uint) :
  (1 <= Decimal.nb_digits d)%nat ->
  exists c d',
    NilEmpty.string_of_uint d = String c (NilEmpty.string_of_uint d') /\
    c <> "-"%char /\ Decimal.nb_digits d = S (Decimal.nb_digits d').
Proof.
  destruct d; cbn [Decimal.nb_digits NilEmpty.string_of_uint]; intros L; [lia|..];
    eexists; exists d; (split; [reflexivity|split; [discriminate|reflexivity]]).
Qed.

Lemma of_int_large (y : Z) :
  10000 <= y ->
  exists a b c e f rest,
    PyStr.of_int y = String a (String b (String c (String e (String f rest)))) /\
    f <> "-"%char.
Proof.
  destruct y as [|p|p]; try lia. intros H. unfold PyStr.of_int. cbn [Z.to_int].
  pose proof (to_uint_digits p H) as L.
  assert (NilZero.string_of_int (Decimal.Pos (Pos.to_uint p)) =
          NilEmpty.string_of_uint (Pos.to_uint p)) as ->.
  { cbn [NilZero.string_of_int]. unfold NilZero.string_of_uint.
    destruct (Pos.to_uint p) eqn:E; try reflexivity. cbn in L. lia. }
  destruct (string_of_uint_head (Pos.to_uint p) ltac:(lia)) as (a & d1 & -> & _ & L1).
  destruct (string_of_uint_head d1 ltac:(lia)) as (b & d2 & -> & _ & L2).
  destruct (string_of_uint_head d2 ltac:(lia)) as (c & d3 & -> & _ & L3).
  destruct (string_of_uint_head d3 ltac:(lia)) as (e & d4 & -> & _ & L4).
  destruct (string_of_uint_head d4 ltac:(lia)) as (f & d5 & -> & N & L5).
  now exists a, b, c, e, f, (NilEmpty.string_of_uint d5).
Qed.

Lemma short_years_fail :
  all_from (Z.to_nat 1000) 0 (fun y => negb (start_date_parses y)) = true.
Proof. vm_compute. reflexivity. Qed.

Lemma start_date_parses_spec (y : Z) : start_date_parses y = true <-> 1000 <= y <= 9999.
Proof.
  unfold start_date_parses. split.
  - destruct (fromisoformat (PyStr.of_int y ++ "-01-01")) as [d|x] eqn:P; [|discriminate].
    intros _. destruct (fromisoformat_year _ _ P) as (a & b & c & e & rest & y4 & E & D).
    destruct (Z_lt_le_dec y 0) as [Neg|Pos].
    { destruct (of_int_negative y Neg) as (s & S). rewrite S in E. cbn [append] in E.
      injection E as <- _. discriminate D. }
    destruct (Z_lt_le_dec y 1000) as [Small|Big].
    { pose proof (all_from_spec _ _ 0 short_years_fail y) as F.
      rewrite Z2Nat.id in F by lia. specialize (F ltac:(lia)).
      unfold start_date_parses in F. rewrite P in F. discriminate F. }
    destruct (Z_le_gt_dec y 9999) as [Ok4|Large]; [lia|].
    destruct (of_int_large y ltac:(lia)) as (a' & b' & c' & e' & f & rest' & S & N).
    rewrite S in E. cbn [append] in E. injection E as _ _ _ _ F _. contradiction.
  - intros H. rewrite (of_int_pad4 y H).
    change (pad4 y ++ "-01-01") with (format_ymd y 1 1).
    rewrite fromisoformat_format by lia.
    replace (valid_ymd y 1 1) with true; [reflexivity|].
    symmetry. apply valid_ymd_spec. unfold MAXYEAR. cbn. lia.
Qed.

(** Parsing what [format_ymd] prints, followed by the last second of the
    day. *)
Lemma fromisoformat_last_second (y m d : Z) :
  0 <= y < 10000 -> 0 <= m < 100 -> 0 <= d < 100 -> valid_ymd y m d = true ->
  fromisoformat (format_ymd y m d ++ "T23:59:59") =
  Ok (mkDatetime (ymd2ord y m d) 86399 0 None).
Proof.
  intros Hy Hm Hd V. unfold fromisoformat.
  unfold format_ymd at 1, pad4, pad2. cbn [append list_ascii_of_string].
  unfold four_digits, two_digits. rewrite !digit_val_char by euclid.
  replace (100 * (10 * (y / 100 / 10 mod 10) + y / 100 mod 10)
           + (10 * (y mod 100 / 10 mod 10) + y mod 100 mod 10)) with y by euclid.
  replace (10 * (m / 10 mod 10) + m mod 10) with m by euclid.
  replace (10 * (d / 10 mod 10) + d mod 10) with d by euclid.
  rewrite V. reflexivity.
Qed.

(** The dates of a year of four digits, as the fetch reads them. *)
Lemma year_dates (y : Z) :
  1000 <= y <= 9999 ->
  fromisoformat (PyStr.of_int y ++ "-01-01") = Ok (midnight (ymd2ord y 1 1)) /\
  fromisoformat (PyStr.of_int y ++ "-12-31") = Ok (midnight (ymd2ord y 12 31)) /\
  fromisoformat ((PyStr.of_int y ++ "-12-31") ++ "T23:59:59") =
    Ok (mkDatetime (ymd2ord y 12 31) 86399 0 None).
Proof.
  intros H. rewrite (of_int_pad4 y H).
  assert (valid_ymd y 1 1 = true) as V1.
  { apply valid_ymd_spec. unfold MAXYEAR. cbn. lia. }
  assert (valid_ymd y 12 31 = true) as V2.
  { apply valid_ymd_spec. unfold MAXYEAR. cbn. lia. }
  change (pad4 y ++ "-01-01") with (format_ymd y 1 1).
  change (pad4 y ++ "-12-31") with (format_ymd y 12 31).
  rewrite !fromisoformat_format, fromisoformat_last_second, V1, V2 by (assumption || lia).
  repeat split.
Qed.

End YearRange.

Section YearTheorems.
Import Calendar Datetime Models World Github Routes Spec Properties.
Local Open Scope string_scope.

Variable up : upstream.
Variable utcnow : datetime.

(** X19. For a year of four digits the fetch is about that year: with
    a token, the one request sent asks for the range from January 1 to
    December 31, both at midnight, so that the range ends where the last
    day starts; without a token the push events are counted from January 1
    at midnight to December 31 at 23:59:59; and December 31 of the year,
    from which the current streak is walked, is a date. *)
Theorem four_digit_year_is_fetched (name : string) (y : Z) (w : world) :
  1000 <= y <= 9999 ->
  let start_date := PyStr.of_int y ++ "-01-01" in
  let end_date := PyStr.of_int y ++ "-12-31" in
  let january_1 := midnight (ymd2ord y 1 1) in
  let december_31 := midnight (ymd2ord y 12 31) in
  (forall tok,
     tok <> "" ->
     http_log (snd (fetch_user_contributions up name start_date end_date (Some tok) w)) =
     (http_log w ++ [PostGraphql tok (YearbookQuery january_1 december_31)])%list) /\
  (forall token d w',
     PyStr.truthy token = false ->
     fetch_user_contributions up name start_date end_date token w = (Ok d, w') ->
     exists resp events,
       events_answer up name 100 = Ok resp /\ json resp = Ok events /\
       k_totalCommits d =
         Some (pushed_commits january_1 (mkDatetime (ymd2ord y 12 31) 86399 0 None) events)) /\
  Datetime.make y 12 31 = Ok december_31.
Proof.
  intros H start_date end_date january_1 december_31.
  destruct (year_dates y H) as (P1 & P2 & P3). fold start_date end_date in P1, P2, P3.
  split; [|split].
  - intros tok N. unfold fetch_user_contributions. cbn [PyStr.truthy default].
    apply String.eqb_neq in N. rewrite N. cbn [negb].
    unfold fetch_with_graphql, bind, lift, send. rewrite P1, P2.
    cbn [http_log yearbook_stats user_tokens snd].
    destruct (yearbook_answer up tok _ _) as [resp|x]; [|reflexivity].
    destruct (json resp) as [answer|x]; [|reflexivity].
    destruct (process_graphql answer); reflexivity.
  - intros token d w' T F. unfold fetch_user_contributions in F. rewrite T in F.
    cbn [negb] in F.
    destruct (rest_ok_inv up name start_date end_date w w' d F)
      as (resp & events & A & _ & J & P & _).
    exists resp, events. split; [exact A|]. split; [exact J|].
    revert P. unfold process_events. rewrite P1, P3. cbn [rbind].
    destruct (push_loop _ _ ([], []) events) as [[daily_map repo_map]|x] eqn:L;
      [|discriminate].
    cbn [rbind]. intros E. injection E as <-. cbn [k_totalCommits].
    destruct (push_loop_totals _ _ _ _ _ L) as [Td _]. cbn [fst] in Td.
    change (sum_of (PyDict.values [])) with 0 in Td.
    rewrite sum_fold_right. fold (sum_of (PyDict.values daily_map)).
    unfold january_1. f_equal. lia.
  - unfold Datetime.make.
    replace (valid_ymd y 12 31) with true; [reflexivity|].
    symmetry. apply valid_ymd_spec. unfold MAXYEAR. cbn. lia.
Qed.

Lemma fetch_of_other_year (name : string) (y : Z) (tok : option string) (w : world) :
  start_date_parses y = false ->
  exists e w',
    fetch_user_contributions up name (PyStr.of_int y ++ "-01-01") (PyStr.of_int y ++ "-12-31")
      tok w = (Raise e, w') /\
    yearbook_stats w' = yearbook_stats w /\ user_tokens w' = user_tokens w /\
    (PyStr.truthy tok = true -> w' = w).
Proof.
  unfold start_date_parses.
  destruct (fromisoformat (PyStr.of_int y ++ "-01-01")) as [d|x] eqn:P; [discriminate|].
  intros _. unfold fetch_user_contributions. destruct (PyStr.truthy tok); cbn [negb].
  - unfold fetch_with_graphql, bind, lift. rewrite P. exists x, w. repeat split.
  - rewrite rest_run. unfold process_events. rewrite P.
    destruct (events_answer up name 100) as [resp|x'].
    + destruct (Z.eqb (status_code resp) 404).
      * eexists. eexists. split; [reflexivity|]. repeat split. discriminate.
      * destruct (json resp) as [events|x'']; cbn [rbind]; eexists; eexists;
          (split; [reflexivity|]); repeat split; discriminate.
    + eexists. eexists. split; [reflexivity|]. repeat split. discriminate.
Qed.

(** X20. Only years of four digits can be served: for a year below
    1000 or above 9999 that the select of the route can be asked about,
    a year of 64 bits, and that has no row, the dates the route builds
    are not read by [fromisoformat], the fetch fails and the request is
    answered with an HTTP 400; nothing is stored, and with a token no
    request is sent at all. *)
Theorem other_years_are_rejected
    (name : string) (y : Z) (token tok : option string) (w : world) :
  fits_integer_column y ->
  y < 1000 \/ 9999 < y ->
  rows_of name y w = [] ->
  fst (resolve_token name token w) = Ok tok ->
  let out := get_yearbook_stats up utcnow name y token w in
  (exists e, fst out = Raise (HTTPException 400 e)) /\
  yearbook_stats (snd out) = yearbook_stats w /\
  user_tokens (snd out) = user_tokens w /\
  (PyStr.truthy tok = true -> snd out = w).
Proof.
  intros _ Y R T out. unfold out.
  rewrite (get_yearbook_stats_resolved up utcnow name y token tok w T).
  rewrite (serve_stats_miss up utcnow name y tok w R).
  assert (start_date_parses y = false) as P.
  { destruct (start_date_parses y) eqn:E; [|reflexivity].
    apply start_date_parses_spec in E. lia. }
  destruct (fetch_of_other_year name y tok w P) as (e & w' & F & Ys & Us & W).
  unfold fetch_and_store, bind, try_except. rewrite F. unfold raise. cbn [fst snd].
  split; [now exists e|]. split; [exact Ys|]. split; [exact Us|exact W].
Qed.

End YearTheorems.

Section YearInstances.
Import Calendar Datetime Models World Github Routes Spec Examples Properties.
Local Open Scope string_scope.

(** X19 at work for 2024, with the token of the owner. *)
Lemma four_digit_year_is_fetched_witness :
  http_log (snd (fetch_user_contributions demo_upstream "octocat"
                   (PyStr.of_int 2024 ++ "-01-01") (PyStr.of_int 2024 ++ "-12-31")
                   (Some "ghp_owner") empty_world)) =
  [PostGraphql "ghp_owner"
     (YearbookQuery (midnight (ymd2ord 2024 1 1)) (midnight (ymd2ord 2024 12 31)))].
Proof.
  refine (proj1 (four_digit_year_is_fetched demo_upstream "octocat" 2024 empty_world _)
            "ghp_owner" _).
  - lia.
  - discriminate.
Defined.

(** X20 at work for the year 999. *)
Lemma other_years_are_rejected_witness :
  exists e,
    fst (get_yearbook_stats demo_upstream (at_noon 2024 8 1) "octocat" 999 None empty_world)
    = Raise (HTTPException 400 e).
Proof.
  refine (proj1 (other_years_are_rejected demo_upstream (at_noon 2024 8 1) "octocat" 999
                   None None empty_world _ _ eq_refl eq_refl)).
  - unfold fits_integer_column. lia.
  - left. lia.
Defined.

End YearInstances.

(** * What the upstream reports as a failure *)

Section UpstreamFailures.
Import Calendar Datetime Models World Github Routes Spec Properties.

Variable up : upstream.
Variable utcnow : datetime.

(** X21. What the upstream reports as a failure comes back as an HTTP
    400 that carries its message, and nothing is stored. Without a token,
    a 404 on the events of the user is answered "User '...' not found",
    the body of the 404 not being read. With a token, an answer that has
    [errors] is answered with the message of the first error, whatever the
    status of the response and whatever [data] it carries besides. *)
Theorem upstream_failure_is_reported
    (name : string) (y : Z) (token tok : option string) (w : world) :
  rows_of name y w = [] ->
  fst (resolve_token name token w) = Ok tok ->
  let out := get_yearbook_stats up utcnow name y token w in
  (PyStr.truthy tok = false ->
   forall resp,
     events_answer up name 100 = Ok resp -> status_code resp = 404 ->
     out = (Raise (HTTPException 400 (Exception ("User '" ++ name ++ "' not found"))),
            log_append [GetPublicEvents name 100] w)) /\
  (forall t resp answer message others,
     tok = Some t -> t <> ""%string -> 1000 <= y <= 9999 ->
     yearbook_answer up t (midnight (ymd2ord y 1 1)) (midnight (ymd2ord y 12 31)) = Ok resp ->
     json resp = Ok answer ->
     gr_errors answer = Some (message :: others) ->
     out = (Raise (HTTPException 400 (Exception message)),
            log_append
              [PostGraphql t
                 (YearbookQuery (midnight (ymd2ord y 1 1)) (midnight (ymd2ord y 12 31)))] w)).
Proof.
  intros R T out. unfold out.
  rewrite (get_yearbook_stats_resolved up utcnow name y token tok w T).
  rewrite (serve_stats_miss up utcnow name y tok w R).
  unfold fetch_and_store, bind at 1, try_except, fetch_user_contributions. split.
  - intros F resp A S. rewrite F. cbn [negb]. rewrite rest_run, A, S. reflexivity.
  - intros t resp answer message others -> N Y A J E.
    cbn [PyStr.truthy default]. apply String.eqb_neq in N. rewrite N. cbn [negb].
    destruct (year_dates y Y) as (P1 & P2 & _).
    unfold fetch_with_graphql, bind, lift, send, raise. rewrite P1, P2, A, J.
    unfold process_graphql. rewrite E. reflexivity.
Qed.

End UpstreamFailures.

Section FailureInstances.
Import Calendar Datetime Models World Github Routes Spec Examples Properties Scenarios.
Local Open Scope string_scope.

(** X21 at work: the upstream does not know the user. *)
Lemma upstream_failure_is_reported_witness :
  fst (get_yearbook_stats missing_upstream (at_noon 2024 8 1) "nobody" 2024 None empty_world) =
  Raise (HTTPException 400 (Exception "User 'nobody' not found")).
Proof.
  exact (f_equal fst
           (proj1 (upstream_failure_is_reported missing_upstream (at_noon 2024 8 1)
                     "nobody" 2024 None None empty_world eq_refl eq_refl)
              eq_refl (mkResponse 404 (Raise (UpstreamError "not json"))) eq_refl eq_refl)).
Defined.

End FailureInstances.

(** * The numbers of the card *)

Section CardWeeks.
Import Calendar Datetime Models World Github Routes Spec Properties Card.

Lemma week_get_set (k k' v : Z) (d : week_dict) :
  week_get k' (week_set k v d) = if k' =? k then Some v else week_get k' d.
Proof.
  induction d as [|[k0 v0] d IH]; cbn [week_set week_get].
  - reflexivity.
  - destruct (Z.eqb_spec k k0) as [->|N]; cbn [week_get].
    + destruct (k' =? k0); reflexivity.
    + rewrite IH. destruct (Z.eqb_spec k' k0) as [->|N']; [|reflexivity].
      destruct (Z.eqb_spec k0 k); [congruence|reflexivity].
Qed.

Lemma january_1_valid (y : Z) : 1 <= y <= 9999 -> valid_ymd y 1 1 = true.
Proof. intros H. apply valid_ymd_spec. unfold MAXYEAR. cbn. lia. Qed.

(** One turn of the loop on a date as the calendar writes it. *)
Lemma week_step_run (year : Z) (m : week_dict) (d : daily) :
  1 <= year <= 9999 -> is_iso_date (date d) = true ->
  week_step year m d =
  Ok (week_set (day_index year d / 7)
          (default 0 (week_get (day_index year d / 7) m) + count d) m).
Proof.
  intros Y I. unfold week_step, day_index, Datetime.make.
  rewrite (fromisoformat_iso _ I), (january_1_valid year Y). cbn [rbind].
  fold (midnight (ymd2ord year 1 1)). rewrite sub_days_midnight. reflexivity.
Qed.

Lemma week_loop_run (year : Z) (l : list daily) :
  1 <= year <= 9999 -> iso_dates l ->
  forall m, exists m',
    week_loop year m l = Ok m' /\
    forall k, default 0 (week_get k m') = default 0 (week_get k m) + in_week year k l.
Proof.
  intros Y. unfold in_week, sum_of.
  induction 1 as [|d l I _ IH]; intros m; cbn [week_loop].
  - exists m. split; [reflexivity|]. intros k. cbn. lia.
  - rewrite (week_step_run year m d Y I). cbn [rbind].
    destruct (IH (week_set (day_index year d / 7)
                      (default 0 (week_get (day_index year d / 7) m) + count d) m))
      as (m' & L & G).
    exists m'. split; [exact L|]. intros k. rewrite G, week_get_set. cbn [filter].
    rewrite (Z.eqb_sym k). destruct (Z.eqb_spec (day_index year d / 7) k) as [<-|N];
      cbn [default map fold_right]; lia.
Qed.

Lemma sum_snoc (l : list Z) (y : Z) : sum_of (l ++ [y]) = sum_of l + y.
Proof. unfold sum_of. induction l as [|a l IH]; cbn [app fold_right]; lia. Qed.

Lemma indicator_sum (x c : Z) (n : nat) :
  sum_of (map (fun i => if x =? Z.of_nat i then c else 0) (seq 0 n)) =
  if (0 <=? x) && (x <? Z.of_nat n) then c else 0.
Proof.
  induction n as [|n IH].
  - cbn [seq map]. unfold sum_of. cbn [fold_right].
    destruct (Z.leb_spec 0 x), (Z.ltb_spec x (Z.of_nat 0)); cbn [andb]; lia.
  - rewrite seq_S, map_app. cbn [map plus]. rewrite sum_snoc, IH.
    destruct (Z.leb_spec 0 x), (Z.ltb_spec x (Z.of_nat n)), (Z.ltb_spec x (Z.of_nat (S n))),
      (Z.eqb_spec x (Z.of_nat n)); cbn [andb]; lia.
Qed.

Lemma in_week_cons (year : Z) (d : daily) (l : list daily) (s : list nat) :
  sum_of (map (fun i => in_week year (Z.of_nat i) (d :: l)) s) =
  sum_of (map (fun i => in_week year (Z.of_nat i) l) s) +
  sum_of (map (fun i => if day_index year d / 7 =? Z.of_nat i then count d else 0) s).
Proof.
  unfold sum_of. induction s as [|i s IHs]; cbn [map fold_right]; [lia|].
  rewrite IHs. unfold in_week at 1. cbn [filter].
  destruct (day_index year d / 7 =? Z.of_nat i); unfold sum_of; cbn [map fold_right];
    fold (sum_of (map count (filter (fun d => day_index year d / 7 =? Z.of_nat i) l)));
    fold (in_week year (Z.of_nat i) l); lia.
Qed.

Lemma weeks_sum (year : Z) (l : list daily) :
  sum_of (map (fun i => in_week year (Z.of_nat i) l) (seq 0 52)) =
  in_first_364_days year l.
Proof.
  unfold in_first_364_days. induction l as [|d l IH].
  - cbn [filter map]. unfold in_week. cbn [filter map]. reflexivity.
  - cbn [filter]. rewrite in_week_cons, IH, indicator_sum.
    replace ((0 <=? day_index year d / 7) && (day_index year d / 7 <? Z.of_nat 52))
      with ((0 <=? day_index year d) && (day_index year d <? 364)).
    + destruct ((0 <=? day_index year d) && (day_index year d <? 364));
        unfold sum_of; cbn [map fold_right]; lia.
    + destruct (Z.leb_spec 0 (day_index year d)), (Z.ltb_spec (day_index year d) 364),
        (Z.leb_spec 0 (day_index year d / 7)),
        (Z.ltb_spec (day_index year d / 7) (Z.of_nat 52)); cbn [andb];
        try reflexivity; exfalso; euclid.
Qed.

(** December 31 is day 364 of its year, or day 365 of a leap year. *)
Lemma december_31_index (y c : Z) :
  1 <= y <= 9999 ->
  day_index y (mkDaily (format_ymd y 12 31) c) = if is_leap y then 365 else 364.
Proof.
  intros H. unfold day_index, date_ordinal. cbn [date].
  assert (valid_ymd y 12 31 = true) as V.
  { apply valid_ymd_spec. unfold MAXYEAR. cbn. lia. }
  rewrite fromisoformat_format, V by lia. cbn [toordinal].
  unfold ymd2ord, days_before_month.
  cbn [DAYS_BEFORE_MONTH Z.ltb Z.compare Pos.compare Pos.compare_cont andb].
  destruct (is_leap y); lia.
Qed.

End CardWeeks.

Section CardTheorems.
Import Calendar Datetime Models World Github Routes Spec Properties Card.

(** X22. The activity graph of the card has 52 bars, the weeks 0 to 51
    counted in sevens from January 1 of the year of the row. For a row of
    a year from 1 to 9999 whose entries are dated as the calendar writes
    them, the bars are computed, each carries the contributions of the
    entries of its week, and together they carry those of the first 364
    days of the year only: what is dated December 31 (day 364, or 365 of
    a leap year) is in no bar, and neither is what is dated outside the
    year. *)
Theorem activity_graph_has_52_weeks (stats : YearbookStats) :
  1 <= year stats <= 9999 ->
  iso_dates (daily_contributions stats) ->
  exists bars,
    weeks stats = Ok bars /\
    List.length bars = 52%nat /\
    (forall i, (i < 52)%nat ->
       nth i bars 0 = in_week (year stats) (Z.of_nat i) (daily_contributions stats)) /\
    sum_of bars = in_first_364_days (year stats) (daily_contributions stats) /\
    (forall c,
       364 <= day_index (year stats) (mkDaily (format_ymd (year stats) 12 31) c)).
Proof.
  intros Y I. unfold weeks.
  destruct (week_loop_run (year stats) (daily_contributions stats) Y I []) as (m & L & G).
  rewrite L. cbn [rbind]. eexists. split; [reflexivity|].
  assert (forall i, default 0 (week_get (Z.of_nat i) m) =
                    in_week (year stats) (Z.of_nat i) (daily_contributions stats)) as G'.
  { intros i. rewrite G. cbn. lia. }
  split; [now rewrite length_map, length_seq|]. split; [|split].
  - intros i Hi.
    rewrite (nth_indep _ 0 (default 0 (week_get (Z.of_nat 0) m)))
      by (now rewrite length_map, length_seq).
    rewrite (map_nth (fun i => default 0 (week_get (Z.of_nat i) m))), seq_nth by exact Hi.
    apply G'.
  - rewrite (map_ext _ _ G'). apply weeks_sum.
  - intros c. rewrite (december_31_index _ c Y). destruct (is_leap (year stats)); lia.
Qed.

End CardTheorems.

Section CardBars.
Import Calendar Datetime Models World Github Routes Spec Properties Card.

Lemma fold_max_le (l : list Z) (a : Z) :
  a <= fold_left Z.max l a /\ forall w, In w l -> w <= fold_left Z.max l a.
Proof.
  revert a. induction l as [|b l IH]; intros a; cbn [fold_left].
  - split; [lia|]. intros w [].
  - destruct (IH (Z.max a b)) as [A B]. split; [lia|].
    intros w [<-|I]; [lia|]. now apply B.
Qed.

Lemma max_w_is_max (ws : list Z) (w : Z) : In w ws -> w <= max_w ws.
Proof.
  destruct ws as [|a ws]; [intros []|]. cbn [max_w].
  destruct (fold_max_le ws a) as [A B]. intros [<-|I]; [exact A|]. now apply B.
Qed.

Lemma opacity_bounds (w m : Z) :
  0 < w <= m ->
  (8 # 100 <= (15 # 100) + (inject_Z w / inject_Z m) * (85 # 100) <= 1)%Q.
Proof.
  intros H. destruct m as [|p|p]; try lia.
  cbv [Qle Qplus Qmult Qdiv Qinv inject_Z Qnum Qden]. rewrite ?Pos2Z.inj_mul. lia.
Qed.

(** X23. No bar of the activity graph divides by zero, and every bar
    has an opacity from 0.08 to 1: a week without contributions has 0.08
    and is not divided, and a week with contributions is divided by the
    largest week, which is then positive. The floats are read as exact
    rationals. *)
Theorem bar_opacity_is_defined (ws : list Z) :
  Forall2 shaded ws (opacities ws).
Proof.
  unfold opacities.
  assert (forall l, (forall w, In w l -> w <= max_w ws) ->
                    Forall2 shaded l (map (fun w => opacity w (max_w ws)) l)) as A.
  { induction l as [|w l IH]; intros M; cbn [map]; constructor.
    - pose proof (M w (or_introl eq_refl)) as Mw. unfold shaded, opacity.
      destruct (Z.ltb_spec 0 w) as [P|N].
      + destruct (Z.eqb_spec (max_w ws) 0) as [Z|_]; [lia|].
        eexists. split; [reflexivity|]. split; [apply opacity_bounds; lia|lia].
      + eexists. split; [reflexivity|]. split; [|reflexivity].
        unfold Qle. cbn. lia.
    - apply IH. intros w' I. apply M. now right. }
  apply A. apply max_w_is_max.
Qed.

End CardBars.

Section CardInstances.
Import Calendar Datetime Models World Github Routes Spec Examples Properties Card Scenarios.

(** X22 at work: of the 7 contributions of the row, the 4 of December 31
    are in no bar. *)
Lemma activity_graph_has_52_weeks_witness :
  exists bars, weeks card_row = Ok bars /\ sum_of bars = 3 /\
               total_contributions card_row = 7.
Proof.
  destruct (activity_graph_has_52_weeks card_row)
    as (bars & E & _ & _ & S & _).
  - vm_compute. split; discriminate.
  - repeat constructor.
  - exists bars. split; [exact E|]. split; [|reflexivity]. rewrite S. reflexivity.
Defined.

End CardInstances.

(** * The cache and the stored token, request by request *)

Section FetchOfYear.
Import Calendar Datetime Models World Github Routes Spec Properties.
Local Open Scope string_scope.

Variable up : upstream.
Variable utcnow : datetime.

Lemma probe_run_request (name : string) (token : option string) r reqs :
  runs_as (fetch_user_latest_push_time up name token) r reqs ->
  reqs = [probe_request name token].
Proof. apply probe_requests. Qed.

(** The full fetch of a year of four digits: its one request and its
    outcome. *)
Lemma fetch_run_year (name : string) (y : Z) (token : option string) :
  1000 <= y <= 9999 ->
  runs_as (fetch_user_contributions up name
             (PyStr.of_int y ++ "-01-01") (PyStr.of_int y ++ "-12-31") token)
          (fetched_data up name y token) [fetch_request name y token].
Proof.
  intros Y w. destruct (year_dates y Y) as (P1 & P2 & _).
  unfold fetch_user_contributions, fetched_data, fetch_request.
  destruct (PyStr.truthy token); cbn [negb].
  - unfold fetch_with_graphql, bind, lift, send. rewrite P1, P2.
    cbn [log_append http_log yearbook_stats user_tokens].
    destruct (yearbook_answer up _ _ _) as [resp|x]; [|reflexivity]. cbn [rbind].
    destruct (json resp) as [answer|x]; [|reflexivity]. cbn [rbind].
    destruct (process_graphql answer); reflexivity.
  - rewrite rest_run, (of_int_pad4 y Y). reflexivity.
Qed.

(** The row [build_stats] makes is the row of the data. *)
Lemma build_stats_row (name : string) (y : Z) (data : contributions) (row : YearbookStats) :
  build_stats utcnow name y data = Ok row -> row_of_data utcnow name y data row.
Proof.
  unfold build_stats, row_of_data.
  destruct (compute_longest_streak _) as [longest|] eqn:L; [|discriminate]. cbn [rbind].
  unfold Datetime.make. destruct (valid_ymd y 12 31); [|discriminate]. cbn [rbind].
  fold (midnight (ymd2ord y 12 31)).
  destruct (compute_current_streak _ _) as [current|] eqn:C; [|discriminate]. cbn [rbind].
  intros E. injection E as <-. cbn. repeat split; reflexivity.
Qed.

(** A request on a miss, for a year of four digits. *)
Lemma fetch_and_store_year (name : string) (y : Z) (token : option string) (w : world) :
  1000 <= y <= 9999 ->
  fetch_and_store up utcnow name y token w =
  match fetched_data up name y token with
  | Raise e => (Raise (HTTPException 400 e), log_append [fetch_request name y token] w)
  | Ok data =>
      match build_stats utcnow name y data with
      | Ok row =>
          (Ok (mkStatsResponse row false),
           mkWorld (http_log w ++ [fetch_request name y token])
                   (yearbook_stats w ++ [row]) (user_tokens w))
      | Raise e => (Raise e, log_append [fetch_request name y token] w)
      end
  end.
Proof.
  intros Y. exact (fetch_and_store_run up utcnow name y token _ _ w (fetch_run_year name y token Y)).
Qed.

(** What a fetch leaves in the table, whatever the year. *)
Lemma fetch_and_store_table (name : string) (y : Z) (token : option string) (w : world) :
  let out := fetch_and_store up utcnow name y token w in
  (exists reqs, http_log (snd out) = (http_log w ++ reqs)%list) /\
  yearbook_stats (snd out) =
    (yearbook_stats w ++ match fst out with Ok r => [body r] | Raise _ => [] end)%list /\
  forall r, fst out = Ok r -> cached r = false /\ username (body r) = name /\ year (body r) = y.
Proof.
  destruct (fetch_runs up name (PyStr.of_int y ++ "-01-01") (PyStr.of_int y ++ "-12-31") token)
    as (res & reqs & H).
  cbv zeta. rewrite (fetch_and_store_run up utcnow name y token res reqs w H).
  destruct res as [data|e].
  - destruct (build_stats utcnow name y data) as [row|e] eqn:B; cbn [fst snd].
    + split; [now exists reqs|]. split; [reflexivity|].
      intros r E. injection E as <-. cbn [cached body].
      destruct (build_stats_key utcnow name y data row B). now repeat split.
    + split; [now exists reqs|]. split; [cbn; now rewrite app_nil_r|]. discriminate.
  - cbn [fst snd]. split; [now exists reqs|]. split; [cbn; now rewrite app_nil_r|]. discriminate.
Qed.

End FetchOfYear.

Section CacheRequests.
Import Calendar Datetime Models World Github Routes Spec Properties.
Local Open Scope string_scope.

Variable up : upstream.
Variable utcnow : datetime.

(** C1. With a cached record for (subject, year): when the freshness
    probe fails, returns [None] or returns a time not after the record's
    [updated_at], the cached record is served as it is, tagged
    [cached = true], the table is untouched and the one request sent is
    the one of the probe, no request of the full fetch. When the probe
    returns a strictly newer time the record is deleted whatever follows,
    and what is stored for the key is the record answered, tagged
    [cached = false]; for a year of four digits the request of the full
    fetch is sent after the one of the probe, a failure of the fetch
    comes back as an HTTP 400, and the record answered and stored is the
    row of the data the upstream answered with. *)
Theorem cache_served_unless_stale
    (name : string) (y : Z) (token tok : option string) (w : world) (c : YearbookStats)
    (probe : result (option datetime)) :
  rows_of name y w = [c] ->
  utcoffset (updated_at c) = None ->
  fst (resolve_token name token w) = Ok tok ->
  fst (fetch_user_latest_push_time up name tok w) = probe ->
  let out := get_yearbook_stats up utcnow name y token w in
  (((exists e, probe = Raise e) \/ probe = Ok None \/
    (exists t1, probe = Ok (Some t1) /\ total_us t1 <= total_us (updated_at c))) ->
   fst out = Ok (mkStatsResponse c true) /\
   yearbook_stats (snd out) = yearbook_stats w /\
   http_log (snd out) = (http_log w ++ [probe_request name tok])%list /\
   is_full_fetch (probe_request name tok) = false)
  /\
  ((exists t1, probe = Ok (Some t1) /\ total_us (updated_at c) < total_us t1) ->
   (exists reqs, http_log (snd out) = (http_log w ++ probe_request name tok :: reqs)%list) /\
   yearbook_stats (snd out) =
     (without_key name y (yearbook_stats w) ++
      match fst out with Ok r => [body r] | Raise _ => [] end)%list /\
   (forall r, fst out = Ok r -> cached r = false /\ rows_of name y (snd out) = [body r]) /\
   (1000 <= y <= 9999 ->
    http_log (snd out) =
      (http_log w ++ [probe_request name tok; fetch_request name y tok])%list /\
    match fetched_data up name y tok with
    | Raise e => fst out = Raise (HTTPException 400 e)
    | Ok data =>
        match build_stats utcnow name y data with
        | Ok row => fst out = Ok (mkStatsResponse row false) /\
                    row_of_data utcnow name y data row
        | Raise e => fst out = Raise e
        end
    end)).
Proof.
  intros R N T P out.
  destruct (probe_runs up name tok) as (res & reqs & H).
  rewrite (runs_as_fst _ _ _ w H) in P. subst res.
  pose proof (probe_run_request up name tok _ _ H) as Q. subst reqs.
  assert (out = if served_from_cache probe c
                then (Ok (mkStatsResponse c true), log_append [probe_request name tok] w)
                else fetch_and_store up utcnow name y tok
                       (invalidated name y [probe_request name tok] w)) as E.
  { unfold out. rewrite (get_yearbook_stats_resolved up utcnow name y token tok w T).
    now apply serve_stats_hit. }
  split.
  - intros F.
    assert (served_from_cache probe c = true) as S.
    { destruct F as [[e ->]|[->|(t1 & -> & L)]]; try reflexivity.
      cbn [served_from_cache]. rewrite le_naive; [|eapply probe_naive; exact H|exact N].
      apply Z.leb_le in L. now rewrite L. }
    rewrite S in E. rewrite E. cbn [fst snd log_append yearbook_stats http_log].
    repeat split. unfold probe_request. destruct (PyStr.truthy tok); reflexivity.
  - intros (t1 & -> & L).
    assert (served_from_cache (Ok (Some t1)) c = false) as S.
    { cbn [served_from_cache]. rewrite le_naive; [|eapply probe_naive; exact H|exact N].
      apply Z.leb_gt in L. now rewrite L. }
    rewrite S in E. clearbody out. subst out.
    set (w1 := invalidated name y [probe_request name tok] w).
    destruct (fetch_and_store_table up utcnow name y tok w1) as ((reqs & Lg) & Tb & K).
    split; [|split; [|split]].
    + exists reqs. rewrite Lg. unfold w1. cbn [invalidated http_log].
      now rewrite <- app_assoc.
    + exact Tb.
    + intros r Hr. destruct (K r Hr) as (C & K1 & K2). split; [exact C|].
      unfold rows_of at 1. rewrite Tb, Hr, filter_app.
      change (filter (same_key name y) (yearbook_stats w1)) with (rows_of name y w1).
      unfold w1. rewrite rows_of_without. cbn [filter app]. unfold same_key.
      now rewrite K1, K2, String.eqb_refl, Z.eqb_refl.
    + intros Y. rewrite (fetch_and_store_year up utcnow name y tok w1 Y).
      destruct (fetched_data up name y tok) as [data|e].
      * destruct (build_stats utcnow name y data) as [row|e] eqn:B; cbn [fst snd].
        -- split; [|split; [reflexivity|now apply build_stats_row]].
           unfold w1. cbn [invalidated http_log]. now rewrite <- app_assoc.
        -- split; [|reflexivity].
           unfold w1. cbn [invalidated log_append http_log]. now rewrite <- app_assoc.
      * cbn [fst snd]. split; [|reflexivity].
        unfold w1. cbn [invalidated log_append http_log]. now rewrite <- app_assoc.
Qed.

End CacheRequests.

Section TokenRequests.
Import Calendar Datetime Models World Github Routes Spec Properties.
Local Open Scope string_scope.

Variable up : upstream.
Variable utcnow : datetime.



End TokenRequests.

Section RequestInstances.
Import Calendar Datetime Models World Github Routes Spec Examples Properties.
Local Open Scope string_scope.

(** C1 at work: a row written on July 1 is served after a push on June 1;
    a row written on May 1 is dropped, the year is asked for again under
    the token, and the row of the answer, with its 7 contributions, is
    the one row left. *)
Lemma cache_served_unless_stale_witness :
  fst (get_yearbook_stats demo_upstream (at_noon 2024 8 1) "octocat" 2024
         (Some "ghp_owner") fresh_world)
    = Ok (mkStatsResponse (cached_row (at_noon 2024 7 1)) true) /\
  let out := get_yearbook_stats demo_upstream (at_noon 2024 8 1) "octocat" 2024
               (Some "ghp_owner") stale_world in
  http_log (snd out) =
    [PostGraphql "ghp_owner" LatestPushQuery;
     PostGraphql "ghp_owner"
       (YearbookQuery (midnight (ymd2ord 2024 1 1)) (midnight (ymd2ord 2024 12 31)))] /\
  exists row,
    fst out = Ok (mkStatsResponse row false) /\
    total_contributions row = 7 /\
    updated_at row = at_noon 2024 8 1 /\
    yearbook_stats (snd out) = [row].
Proof.
  split.
  - refine (proj1 (proj1 (cache_served_unless_stale demo_upstream (at_noon 2024 8 1)
      "octocat" 2024 (Some "ghp_owner") (Some "ghp_owner") fresh_world (cached_row (at_noon 2024 7 1))
      (Ok (Some (at_noon 2024 6 1))) eq_refl eq_refl eq_refl eq_refl) _)).
    right. right. exists (at_noon 2024 6 1). split; [reflexivity|]. vm_compute. discriminate.
  - intros out.
    destruct (proj2 (cache_served_unless_stale demo_upstream (at_noon 2024 8 1)
      "octocat" 2024 (Some "ghp_owner") (Some "ghp_owner") stale_world (cached_row (at_noon 2024 5 1))
      (Ok (Some (at_noon 2024 6 1))) eq_refl eq_refl eq_refl eq_refl))
      as (_ & Tb & _ & Y4).
    + exists (at_noon 2024 6 1). split; [reflexivity|]. vm_compute. reflexivity.
    + fold out in Tb, Y4. destruct (Y4 ltac:(lia)) as [Lg M]. split; [exact Lg|].
      destruct (fetched_data demo_upstream "octocat" 2024 (Some "ghp_owner")) as [data|e] eqn:F;
        [|vm_compute in F; discriminate].
      vm_compute in F. injection F as <-.
      destruct (build_stats _ _ _ _) as [row|e] eqn:B; [|vm_compute in B; discriminate].
      destruct M as [O Rw]. exists row. split; [exact O|].
      destruct Rw as (_ & _ & _ & _ & _ & _ & _ & _ & Tc & Rw). split; [exact Tc|].
      split; [apply Rw|]. rewrite O in Tb. exact Tb.
Defined.


End RequestInstances.
